(** * Rest-API-Handlips: the request handlers of [src/app.js]

    A shallow embedding of the Express application in [src/app.js]:
    the soundboard, history, profile, feedback and report-creation routes,
    the helpers [generateSpeech] and [uploadToGCS] they call, the multer
    configuration, and the parts of the JavaScript runtime and of the client
    libraries they rely on (truthiness, numeric coercion,
    [String.prototype.split], uuid v4, Sequelize's
    [create]/[findAll]/[findByPk]/[destroy] and [query]).

    The relational store and the storage bucket are explicit state; the
    external services (speech synthesis, storage and database failures, the
    clock, the random source) are oracles collected in a [World] record.
    Every handler is a computation in a small state, exception and event-log
    monad; [try]/[catch] is a combinator of that monad.

    Conventions of the model:
    - the Google Cloud clients were constructed at start-up ([bucket] and
      [ttsClient] are defined), and [bucket.file(name)] only builds a handle;
      the calls that can fail are the awaited ones;
    - [req.body] is an object, and a string is a sequence of 8-bit
      characters;
    - a Number is an IEEE 754 binary64, as [spec_float];
    - the store compares and keeps text exactly (no collation, no
      truncation), and the order among rows of equal [createdAt] is the one a
      stable merge sort gives;
    - a Date bound to a statement is written as [YYYY-MM-DD HH:mm:ss], as the
      MySQL dialect of Sequelize does for a [DATE] without a length: the
      store keeps a time cut to the second;
    - the replacements of [sequelize.query] are escaped before the statement
      is sent, and a plain object among them is refused with
      [Invalid value ...];
    - [console.log] and [console.error] are not part of the log of calls;
    - [GET /report], [GET /] and [GET /health] are not modelled in detail:
      none of them names the Soundboard model, and they appear as steps that
      leave the Soundboard table alone. *)

From Stdlib Require Import ZArith List String Ascii Bool Lia.
From Stdlib Require Import Floats.SpecFloat.
From stdpp Require Import gmap strings list sorting pretty.

Set Warnings "-register-all".
Local Open Scope string_scope.
Local Open Scope list_scope.
Local Open Scope Z_scope.

(** ** Completions

    A JavaScript computation returns a value or throws an error; the error is
    represented by its [message]. *)

Inductive completion (A : Type) : Type :=
| Return (a : A)
| Throw (message : string).
Arguments Return {A} a.
Arguments Throw {A} message.

(** ** JavaScript values *)

Module Js.

(** IEEE 754 binary64, the Number type. *)
Definition prec : Z := 53.
Definition emax : Z := 1024.
Definition number : Type := spec_float.

Definition NaN : number := S754_nan.
Definition of_Z (n : Z) : number := binary_normalize prec emax n 0 false.

Inductive value : Type :=
| VUndefined
| VNull
| VBool (b : bool)
| VNumber (x : number)
| VString (s : string)
| VDate (t : Z)                       (* a Date, by its time value in ms *)
| VArray (l : list value)
| VObject (fields : gmap string value).

(** [obj.key]: a missing property reads as [undefined]. *)
Definition prop (o : gmap string value) (k : string) : value :=
  default VUndefined (o !! k).

(** ToBoolean; [!v] is its negation. *)
Definition ToBoolean (v : value) : bool :=
  match v with
  | VUndefined | VNull => false
  | VBool b => b
  | VNumber (S754_zero _) | VNumber S754_nan => false
  | VNumber _ => true
  | VString s => negb (String.eqb s "")
  | VDate _ | VArray _ | VObject _ => true
  end.

Definition not (v : value) : bool := negb (ToBoolean v).

(** [v === undefined]. *)
Definition is_undefined (v : value) : bool :=
  match v with
  | VUndefined => true
  | _ => false
  end.

(** *** [String.prototype.split] with a one-character separator, and
    [Array.prototype.pop] *)

Fixpoint split (sep : ascii) (s : string) : list string :=
  match s with
  | EmptyString => [EmptyString]
  | String c rest =>
      if Ascii.eqb c sep then EmptyString :: split sep rest
      else match split sep rest with
           | seg :: segs => String c seg :: segs
           | [] => [String c EmptyString]
           end
  end.

(** [split] never returns an empty array, so the default is never used. *)
Definition pop (segments : list string) : string := List.last segments "".

(** *** StringToNumber *)

(** StrWhiteSpaceChar, for strings of 8-bit characters: TAB, LF, VT, FF, CR,
    SP and NBSP. *)
Definition is_white_space (c : ascii) : bool :=
  let n := N_of_ascii c in
  ((9 <=? n) && (n <=? 13) || (n =? 32) || (n =? 160))%N.

Fixpoint trim_start (s : string) : string :=
  match s with
  | String c rest => if is_white_space c then trim_start rest else s
  | EmptyString => EmptyString
  end.

Fixpoint trim_end (s : string) : string :=
  match s with
  | EmptyString => EmptyString
  | String c rest =>
      let rest' := trim_end rest in
      if is_white_space c && String.eqb rest' "" then EmptyString
      else String c rest'
  end.

(** The value of a character as a digit (up to base 16). *)
Definition digit_value (c : ascii) : option Z :=
  let n := Z.of_N (N_of_ascii c) in
  if (48 <=? n) && (n <=? 57) then Some (n - 48)
  else if (97 <=? n) && (n <=? 102) then Some (n - 87)
  else if (65 <=? n) && (n <=? 70) then Some (n - 55)
  else None.

(** Reads the longest prefix of digits of the given base: the number read so
    far, how many digits were read, and the rest of the string. *)
Fixpoint read_digits (base : Z) (acc : Z) (count : Z) (s : string)
  : Z * Z * string :=
  match s with
  | String c rest =>
      match digit_value c with
      | Some d => if d <? base then read_digits base (acc * base + d) (count + 1) rest
                  else (acc, count, s)
      | None => (acc, count, s)
      end
  | EmptyString => (acc, count, s)
  end.

(** The binary64 nearest to [m * 10^e] (ties to even), for [m >= 0]. *)
Definition round_decimal (negative : bool) (m e : Z) : number :=
  match m with
  | Zpos p =>
      if 0 <=? e then binary_normalize prec emax (if negative then - (m * 10 ^ e) else m * 10 ^ e) 0 false
      else let '(q, e', l) := SFdiv_core_binary prec emax m 0 (10 ^ (- e)) 0 in
           binary_round_aux prec emax negative q e' l
  | _ => S754_zero negative
  end.

(** ExponentPart: [e] or [E], an optional sign, at least one digit. [None]
    when the text is not an exponent part followed by the end of the string. *)
Definition read_exponent (s : string) : option Z :=
  match s with
  | EmptyString => Some 0
  | String c rest =>
      if Ascii.eqb c "e" || Ascii.eqb c "E" then
        let '(negative, digits) :=
          match rest with
          | String "+" r => (false, r)
          | String "-" r => (true, r)
          | _ => (false, rest)
          end in
        match read_digits 10 0 0 digits with
        | (n, count, EmptyString) =>
            if 0 <? count then Some (if negative then - n else n) else None
        | _ => None
        end
      else None
  end.

(** StrUnsignedDecimalLiteral. *)
Definition unsigned_decimal (negative : bool) (s : string) : number :=
  if String.eqb s "Infinity" then S754_infinity negative
  else
    let '(int_part, int_count, after_int) := read_digits 10 0 0 s in
    let '(mantissa, frac_count, after_frac) :=
      match after_int with
      | String "." r => read_digits 10 int_part 0 r
      | _ => (int_part, 0, after_int)
      end in
    if 0 <? int_count + frac_count then
      match read_exponent after_frac with
      | Some e => round_decimal negative mantissa (e - frac_count)
      | None => NaN
      end
    else NaN.

(** NonDecimalIntegerLiteral: the digits after [0x], [0o] or [0b]. *)
Definition non_decimal (base : Z) (digits : string) : number :=
  match read_digits base 0 0 digits with
  | (n, count, EmptyString) => if 0 <? count then of_Z n else NaN
  | _ => NaN
  end.

Definition StringToNumber (s : string) : number :=
  match trim_end (trim_start s) with
  | EmptyString => S754_zero false
  | String "0" (String "x" r) | String "0" (String "X" r) => non_decimal 16 r
  | String "0" (String "o" r) | String "0" (String "O" r) => non_decimal 8 r
  | String "0" (String "b" r) | String "0" (String "B" r) => non_decimal 2 r
  | String "+" r => unsigned_decimal false r
  | String "-" r => unsigned_decimal true r
  | t => unsigned_decimal false t
  end.

(** *** ToNumber

    Arrays and plain objects (as [JSON.parse] builds them) are converted
    through their primitive string: [Array.prototype.join] for an array,
    ["[object Object]"] for an object, and a TypeError when the object
    shadows [toString] with a property (which is never callable). An array of
    two or more elements joins to a string with a comma, which is no numeric
    literal; a one-element array converts like the string of its element. *)
Fixpoint ToNumber (v : value) : completion number :=
  match v with
  | VUndefined => Return NaN
  | VNull => Return (S754_zero false)
  | VBool b => Return (if b then of_Z 1 else S754_zero false)
  | VNumber x => Return x
  | VString s => Return (StringToNumber s)
  | VDate t => Return (of_Z t)
  | VArray [] => Return (S754_zero false)
  | VArray [e] =>
      match e with
      | VUndefined | VNull => Return (S754_zero false)
      | VNumber (S754_zero _) => Return (S754_zero false)
      | VNumber x => Return x
      | VString s => Return (StringToNumber s)
      | VBool _ | VDate _ => Return NaN
      | VArray _ | VObject _ => ToNumber e
      end
  | VArray _ => Return NaN
  | VObject fields =>
      match fields !! "toString" with
      | Some _ => Throw "Cannot convert object to primitive value"
      | None => Return NaN
      end
  end.

(** [v < k] and [v > k] for a numeric literal [k]: the comparison is numeric,
    and false when [v] converts to NaN. *)
Definition lt (v : value) (k : number) : completion bool :=
  match ToNumber v with
  | Return x => Return (SFltb x k)
  | Throw e => Throw e
  end.

Definition gt (v : value) (k : number) : completion bool :=
  match ToNumber v with
  | Return x => Return (SFltb k x)
  | Throw e => Throw e
  end.

End Js.

(** ** uuid v4

    [uuidv4()] of the uuid package: sixteen random bytes, the version and
    variant bits forced, printed as lower-case hexadecimal in the groups
    8-4-4-4-12. The random bytes are supplied by the caller. *)

Module Uuid.

Definition hex_digit (n : Z) : ascii :=
  nth (Z.to_nat n) (list_ascii_of_string "0123456789abcdef") "0"%char.

(** [byteToHex[b]]. *)
Definition byteToHex (b : Z) : string :=
  String (hex_digit (Z.shiftr b 4)) (String (hex_digit (Z.land b 15)) "").

Definition v4_bytes (rnds : nat -> Z) (i : nat) : Z :=
  let b := Z.land (rnds i) 255 in
  match i with
  | 6%nat => Z.lor (Z.land b 15) 64        (* (rnds[6] & 0x0f) | 0x40 *)
  | 8%nat => Z.lor (Z.land b 63) 128       (* (rnds[8] & 0x3f) | 0x80 *)
  | _ => b
  end.

Fixpoint hex_of (bytes : nat -> Z) (first count : nat) : string :=
  match count with
  | O => ""
  | S n => byteToHex (bytes first) +:+ hex_of bytes (S first) n
  end.

Definition stringify (bytes : nat -> Z) : string :=
  hex_of bytes 0 4 +:+ "-" +:+ hex_of bytes 4 2 +:+ "-" +:+ hex_of bytes 6 2
  +:+ "-" +:+ hex_of bytes 8 2 +:+ "-" +:+ hex_of bytes 10 6.

Definition uuidv4 (rnds : nat -> Z) : string := stringify (v4_bytes rnds).

End Uuid.

Import Js(value(..), number, prop, ToBoolean, ToNumber, of_Z).

(** ** Sequelize's [SqlString]: writing a replacement into a statement *)

Module SqlString.

(** [escape(val)] throws [Invalid value ...] for a value that is no
    primitive, Date or array, and escapes an array element by element: the
    value the error names, when there is one. *)
Fixpoint invalid (val : value) : option value :=
  match val with
  | VObject _ => Some val
  | VArray l =>
      (fix among (l : list value) : option value :=
         match l with
         | [] => None
         | x :: rest =>
             match invalid x with
             | Some bad => Some bad
             | None => among rest
             end
         end) l
  | VUndefined | VNull | VBool _ | VNumber _ | VString _ | VDate _ => None
  end.

(** The first replacement of a statement that [escape] refuses. *)
Fixpoint invalid_among (replacements : list value) : option value :=
  match replacements with
  | [] => None
  | val :: rest =>
      match invalid val with
      | Some bad => Some bad
      | None => invalid_among rest
      end
  end.

(** The time a Date is written as: [YYYY-MM-DD HH:mm:ss], without the
    milliseconds. *)
Definition to_second (t : Z) : Z := 1000 * (t / 1000).

End SqlString.

(** ** The relational store and the storage bucket *)

(** [sequelize.define("Soundboard", ...)]: the declared attributes, and the
    two timestamps Sequelize adds. *)
Module Soundboard.

Definition attributes : list string :=
  ["id"; "text"; "audioUrl"; "fileName"; "createdByEmail"; "createdAt"; "updatedAt"].

Record row : Type := {
  id : string;
  text : string;
  audioUrl : string;
  fileName : string;
  createdByEmail : string;
  createdAt : Z;
  updatedAt : Z;
}.

Definition toJSON (r : row) : gmap string value :=
  {[ "id" := VString (id r);
     "text" := VString (text r);
     "audioUrl" := VString (audioUrl r);
     "fileName" := VString (fileName r);
     "createdByEmail" := VString (createdByEmail r);
     "createdAt" := VDate (createdAt r);
     "updatedAt" := VDate (updatedAt r) ]}.

End Soundboard.

(** [sequelize.define("Report", ...)]. *)
Module Report.

Definition attributes : list string := ["id"; "comment"; "createdAt"; "updatedAt"].

Record row : Type := {
  id : string;
  comment : string;
  createdAt : Z;
  updatedAt : Z;
}.

Definition toJSON (r : row) : gmap string value :=
  {[ "id" := VString (id r);
     "comment" := VString (comment r);
     "createdAt" := VDate (createdAt r);
     "updatedAt" := VDate (updatedAt r) ]}.

End Report.

(** The [history] and [feedback] tables are only reached through raw SQL. A
    row of [history] holds what its columns give back, a row of [feedback]
    the values the statement binds. *)
Module History.

Record row : Type := {
  id : value;
  title : value;
  message : value;
  created_at : Z;
  is_speech_to_text : value;
  email : value;
}.

End History.

Module Feedback.

Record row : Type := {
  id : Z;
  comment : value;
  rating : value;
}.

End Feedback.

(** An object of the bucket, as [file.save] writes it. *)
Record StoredObject : Type := {
  content : list Byte.byte;
  contentType : string;
  cacheControl : string;
}.

Record State : Type := {
  Soundboards : list Soundboard.row;
  Reports : list Report.row;
  history : list History.row;
  feedback : list Feedback.row;
  objects : gmap string StoredObject;
}.

Definition initial : State :=
  {| Soundboards := []; Reports := []; history := []; feedback := []; objects := ∅ |}.

Definition set_Soundboards (rows : list Soundboard.row) (st : State) : State :=
  {| Soundboards := rows; Reports := Reports st; history := history st;
     feedback := feedback st; objects := objects st |}.

Definition set_Reports (rows : list Report.row) (st : State) : State :=
  {| Soundboards := Soundboards st; Reports := rows; history := history st;
     feedback := feedback st; objects := objects st |}.

Definition set_history (rows : list History.row) (st : State) : State :=
  {| Soundboards := Soundboards st; Reports := Reports st; history := rows;
     feedback := feedback st; objects := objects st |}.

Definition set_feedback (rows : list Feedback.row) (st : State) : State :=
  {| Soundboards := Soundboards st; Reports := Reports st; history := history st;
     feedback := rows; objects := objects st |}.

Definition set_objects (objs : gmap string StoredObject) (st : State) : State :=
  {| Soundboards := Soundboards st; Reports := Reports st; history := history st;
     feedback := feedback st; objects := objs |}.

(** ** The world outside the process *)

(** The statements sent to the database, by call site. *)
Inductive DbCall : Type :=
| SoundboardCreate | SoundboardFindAll | SoundboardFindByPk | SoundboardDestroy
| ReportCreate | ReportFindByPk | ReportDestroy
| HistoryInsert | HistorySelect
| FeedbackInsert.

(** What one request meets outside the process. A [Some message] or a
    [Throw message] is a call that rejects with that error. *)
Record World : Type := {
  GCP_BUCKET_NAME : string;                      (* process.env.GCP_BUCKET_NAME *)
  synthesizeSpeech : value -> completion (list Byte.byte);   (* response.audioContent *)
  save_rejects : string -> option string;        (* file.save, by object name *)
  exists_rejects : nat -> option string;         (* file.exists, by position of the row *)
  delete_rejects : string -> option string;      (* file.delete, by object name *)
  query_rejects : DbCall -> option string;       (* a database statement *)
  column_text : value -> string;    (* how a number or boolean bound to a text column is stored *)
  column_value : string -> value -> value;
      (* what a column of the history table, by its name, gives back for a
         value bound to it: the table is declared outside app.js *)
  inspect : value -> string;                     (* util.inspect, in an error message *)
  insertId : Z;                                  (* the auto-increment id of an INSERT *)
  now : Z;                                       (* new Date() *)
  file_rnds : nat -> Z;                          (* random bytes of the handler's uuidv4() *)
  id_rnds : nat -> Z;                            (* random bytes of the UUIDV4 default *)
}.

(** The calls that leave the process, in the order they are made. *)
Inductive Event : Type :=
| SynthesizeSpeech (text : value)
| FileSave (name : string)
| FileExists (name : string)
| FileDelete (name : string)
| Query (call : DbCall).

(** ** The monad of handlers: state, exceptions and the log of calls *)

Definition M (A : Type) : Type := State -> completion A * State * list Event.

#[global] Instance M_ret : MRet M := λ A a st, (Return a, st, []).

#[global] Instance M_bind : MBind M := λ A B k m st,
  match m st with
  | (Return a, st1, ev1) => let '(r, st2, ev2) := k a st1 in (r, st2, ev1 ++ ev2)
  | (Throw e, st1, ev1) => (Throw e, st1, ev1)
  end.

Definition throw {A : Type} (message : string) : M A := λ st, (Throw message, st, []).

Definition lift {A : Type} (c : completion A) : M A := λ st, (c, st, []).

(** [try { body } catch (error) { handler }]: what [body] did before it threw
    stays done. *)
Definition try_catch {A : Type} (body : M A) (handler : string -> M A) : M A := λ st,
  match body st with
  | (Return a, st1, ev1) => (Return a, st1, ev1)
  | (Throw e, st1, ev1) => let '(r, st2, ev2) := handler e st1 in (r, st2, ev1 ++ ev2)
  end.

Definition emit (ev : Event) : M unit := λ st, (Return tt, st, [ev]).
Definition get_state : M State := λ st, (Return st, st, []).
Definition set_state (st' : State) : M unit := λ _, (Return tt, st', []).

(** [await Promise.all(computations)]: every computation runs; the result is
    the list of their values, or the first rejection. *)
Fixpoint Promise_all {A : Type} (computations : list (M A)) : M (list A) := λ st,
  match computations with
  | [] => (Return [], st, [])
  | m :: rest =>
      let '(r, st1, ev1) := m st in
      let '(rs, st2, ev2) := Promise_all rest st1 in
      (match r, rs with
       | Return a, Return l => Return (a :: l)
       | Throw e, _ => Throw e
       | Return _, Throw e => Throw e
       end, st2, ev1 ++ ev2)
  end.

(** ** Responses *)

Record Response : Type := {
  status : Z;
  body : gmap string value;
}.

(** [res.status(code).json(payload)]; [res.json(payload)] answers 200. *)
Definition res_status_json (code : Z) (payload : gmap string value) : Response :=
  {| status := code; body := payload |}.

Definition res_json (payload : gmap string value) : Response :=
  res_status_json 200 payload.

(** The bindings of the module scope of [app.js] (its [const] and [let]
    declarations), and the Sequelize model a binding holds when it holds
    one. *)
Inductive Model : Type := SoundboardModel | ReportModel.

Definition module_scope : list (string * option Model) :=
  [ ("express", None); ("Sequelize", None); ("DataTypes", None);
    ("textToSpeech", None); ("Storage", None); ("path", None);
    ("uuidv4", None); ("multer", None); ("cors", None); ("app", None);
    ("sequelize", None); ("Soundboard", Some SoundboardModel);
    ("storage", None); ("ttsClient", None); ("bucket", None);
    ("upload", None); ("generateSpeech", None); ("uploadToGCS", None);
    ("Report", Some ReportModel); ("PORT", None); ("start", None) ].

(** Reading an identifier: a ReferenceError when nothing declares it (the
    handlers only read identifiers that are no global of Node.js). *)
Definition resolve (name : string) : completion (option Model) :=
  match List.find (λ binding, String.eqb (fst binding) name) module_scope with
  | Some binding => Return (snd binding)
  | None => Throw (name +:+ " is not defined")
  end.

(** ** Helpers and client libraries *)

Section Handlers.

Context (w : World).

(** [ttsClient.synthesizeSpeech(request)], then [response.audioContent]. *)
Definition ttsClient_synthesizeSpeech (text : value) : M (list Byte.byte) :=
  emit (SynthesizeSpeech text);;
  lift (synthesizeSpeech w text).

Definition generateSpeech (text : value) : M (list Byte.byte) :=
  try_catch
    (ttsClient_synthesizeSpeech text)
    (λ error, throw ("Error generating speech: " +:+ error)).

(** [file.save(buffer, options)]. *)
Definition file_save (name : string) (buffer : list Byte.byte)
    (contentType : string) (cacheControl : string) : M unit :=
  emit (FileSave name);;
  match save_rejects w name with
  | Some error => throw error
  | None =>
      st ← get_state;
      set_state (set_objects
        (<[name := {| content := buffer; contentType := contentType;
                      cacheControl := cacheControl |}]> (objects st)) st)
  end.

(** [file.exists()], for the row at position [i] of the listing. *)
Definition file_exists (i : nat) (name : string) : M bool :=
  emit (FileExists name);;
  match exists_rejects w i with
  | Some error => throw error
  | None => st ← get_state; mret (bool_decide (is_Some (objects st !! name)))
  end.

(** [file.delete()]: rejects when there is no such object. *)
Definition file_delete (name : string) : M unit :=
  emit (FileDelete name);;
  match delete_rejects w name with
  | Some error => throw error
  | None =>
      st ← get_state;
      match objects st !! name with
      | Some _ => set_state (set_objects (delete name (objects st)) st)
      | None => throw ("No such object: " +:+ GCP_BUCKET_NAME w +:+ "/" +:+ name)
      end
  end.

Definition uploadToGCS (buffer : list Byte.byte) (filename : string)
    (contentType : string) : M string :=
  let file := filename in
  try_catch
    (file_save file buffer contentType "public, max-age=31536000";;
     let publicUrl :=
       "https://storage.googleapis.com/" +:+ GCP_BUCKET_NAME w +:+ "/" +:+ filename in
     mret publicUrl)
    (λ error, throw ("Error uploading to Google Cloud Storage: " +:+ error)).

(** *** Sequelize *)

(** A statement sent to the database. *)
Definition query (call : DbCall) : M unit :=
  emit (Query call);;
  match query_rejects w call with
  | Some error => throw error
  | None => mret tt
  end.

(** [sequelize.query(sql, { replacements })]: the replacements are written
    into the statement, and only then is the statement sent. *)
Definition sequelize_query (call : DbCall) (replacements : list value) : M unit :=
  match SqlString.invalid_among replacements with
  | Some bad => throw ("Invalid value " +:+ inspect w bad)
  | None => query call
  end.

(** [Model.build(values)]: a key that is no attribute of the model is
    ignored. *)
Definition build (attributes : list string) (values : gmap string value)
  : gmap string value :=
  filter (λ kv, fst kv ∈ attributes) values.

(** Validation of a text attribute declared [allowNull: false]. *)
Definition validate_text (model field : string) (v : value) : completion unit :=
  match v with
  | VUndefined | VNull =>
      Throw ("notNull Violation: " +:+ model +:+ "." +:+ field +:+ " cannot be null")
  | VArray _ | VObject _ | VDate _ =>
      Throw ("string violation: " +:+ field +:+ " cannot be an array or an object")
  | VBool _ | VNumber _ | VString _ => Return tt
  end.

(** The string a text column holds for a bound value. *)
Definition to_column (v : value) : string :=
  match v with
  | VString s => s
  | _ => column_text w v
  end.

(** The row an instance is stored as: the instance keeps its two Dates with
    their milliseconds, the table keeps them cut to the second. *)
Definition Soundboard_row (dataValues : gmap string value) : Soundboard.row :=
  {| Soundboard.id := to_column (prop dataValues "id");
     Soundboard.text := to_column (prop dataValues "text");
     Soundboard.audioUrl := to_column (prop dataValues "audioUrl");
     Soundboard.fileName := to_column (prop dataValues "fileName");
     Soundboard.createdByEmail := to_column (prop dataValues "createdByEmail");
     Soundboard.createdAt := SqlString.to_second (now w);
     Soundboard.updatedAt := SqlString.to_second (now w) |}.

(** [Soundboard.create(values)], for [values] without [id] and timestamps
    (no handler passes them): the instance built, validated and inserted.
    The insert fails on a duplicate primary key. *)
Definition Soundboard_create (values : gmap string value) : M (gmap string value) :=
  let id := Uuid.uuidv4 (id_rnds w) in
  let dataValues :=
    <["id" := VString id]> (<["createdAt" := VDate (now w)]>
      (<["updatedAt" := VDate (now w)]> (build Soundboard.attributes values))) in
  lift (validate_text "Soundboard" "text" (prop dataValues "text"));;
  lift (validate_text "Soundboard" "audioUrl" (prop dataValues "audioUrl"));;
  lift (validate_text "Soundboard" "fileName" (prop dataValues "fileName"));;
  lift (validate_text "Soundboard" "createdByEmail" (prop dataValues "createdByEmail"));;
  query SoundboardCreate;;
  st ← get_state;
  if bool_decide (id ∈ Soundboard.id <$> Soundboards st) then throw "Validation error"
  else
    set_state (set_Soundboards (Soundboards st ++ [Soundboard_row dataValues]) st);;
    mret dataValues.

(** [ORDER BY createdAt DESC]. *)
Definition newest_first (a b : Soundboard.row) : Prop :=
  Soundboard.createdAt b ≤ Soundboard.createdAt a.

#[global] Instance newest_first_dec a b : Decision (newest_first a b) :=
  Z.le_dec _ _.

(** [Soundboard.findAll({ where: { createdByEmail: email },
    order: [["createdAt", "DESC"]] })]. *)
Definition Soundboard_findAll (email : string) : M (list Soundboard.row) :=
  query SoundboardFindAll;;
  st ← get_state;
  mret (merge_sort newest_first
          (filter (λ r, Soundboard.createdByEmail r = email) (Soundboards st))).

(** [Soundboard.findByPk(id)]. *)
Definition Soundboard_findByPk (id : string) : M (option Soundboard.row) :=
  query SoundboardFindByPk;;
  st ← get_state;
  mret (List.find (λ r, String.eqb (Soundboard.id r) id) (Soundboards st)).

(** [soundboard.destroy()]: [DELETE ... WHERE id = soundboard.id]. *)
Definition Soundboard_destroy (soundboard : Soundboard.row) : M unit :=
  query SoundboardDestroy;;
  st ← get_state;
  set_state (set_Soundboards
    (filter (λ r, Soundboard.id r ≠ Soundboard.id soundboard) (Soundboards st)) st).

Definition Report_row (dataValues : gmap string value) : Report.row :=
  {| Report.id := to_column (prop dataValues "id");
     Report.comment := to_column (prop dataValues "comment");
     Report.createdAt := SqlString.to_second (now w);
     Report.updatedAt := SqlString.to_second (now w) |}.

(** [Report.create({ comment })]. *)
Definition Report_create (values : gmap string value) : M (gmap string value) :=
  let id := Uuid.uuidv4 (id_rnds w) in
  let dataValues :=
    <["id" := VString id]> (<["createdAt" := VDate (now w)]>
      (<["updatedAt" := VDate (now w)]> (build Report.attributes values))) in
  lift (validate_text "Report" "comment" (prop dataValues "comment"));;
  query ReportCreate;;
  st ← get_state;
  if bool_decide (id ∈ Report.id <$> Reports st) then throw "Validation error"
  else
    set_state (set_Reports (Reports st ++ [Report_row dataValues]) st);;
    mret dataValues.

(** [binding.findByPk(id)] and [instance.destroy()] for the value an
    identifier of the module scope holds. *)
Definition Model_findByPk (binding : option Model) (id : string)
  : M (option (gmap string value)) :=
  match binding with
  | Some SoundboardModel =>
      found ← Soundboard_findByPk id; mret (Soundboard.toJSON <$> found)
  | Some ReportModel =>
      query ReportFindByPk;;
      st ← get_state;
      mret (Report.toJSON <$>
              List.find (λ r, String.eqb (Report.id r) id) (Reports st))
  | None => throw "findByPk is not a function"
  end.

Definition Model_destroy (binding : option Model) (id : string) : M unit :=
  match binding with
  | Some SoundboardModel =>
      query SoundboardDestroy;;
      st ← get_state;
      set_state (set_Soundboards
        (filter (λ r, Soundboard.id r ≠ id) (Soundboards st)) st)
  | Some ReportModel =>
      query ReportDestroy;;
      st ← get_state;
      set_state (set_Reports (filter (λ r, Report.id r ≠ id) (Reports st)) st)
  | None => throw "destroy is not a function"
  end.

(** ** The routes *)

(** The error-handling middleware, reached through [next(error)]. *)
Definition error_middleware (err : string) : Response :=
  res_status_json 500 {[ "success" := VBool false; "message" := VString err ]}.

(** [POST /soundboards]. *)
Definition post_soundboards (req_body : gmap string value) : M Response :=
  try_catch
    (let title := prop req_body "title" in
     let text := prop req_body "text" in
     let email := prop req_body "email" in
     if Js.not title || Js.not text || Js.not email then
       mret (res_status_json 400
               {[ "error" := VString "Title, text, and email are required" ]})
     else
       audioBuffer ← generateSpeech text;
       let fileName := Uuid.uuidv4 (file_rnds w) +:+ ".mp3" in
       audioUrl ← uploadToGCS audioBuffer fileName "audio/mpeg";
       soundboard ← Soundboard_create
         {[ "text" := text;
            "title" := title;
            "audioUrl" := VString audioUrl;
            "fileName" := VString fileName;
            "createdByEmail" := email ]};
       mret (res_status_json 201
               {[ "success" := VBool true;
                  "message" := VString "Soundboard created successfully";
                  "data" := VObject soundboard ]}))
    (λ error,
       mret (res_status_json 500
               {[ "success" := VBool false;
                  "error" := VString "Failed to create soundboard" ]})).

(** The callback mapped over the rows of [GET /soundboards/:email]. *)
Definition validate_soundboard (i : nat) (soundboard : Soundboard.row)
  : M (gmap string value) :=
  let filename := Js.pop (Js.split "/" (Soundboard.audioUrl soundboard)) in
  let file := filename in
  try_catch
    (exists_ ← file_exists i file;
     mret (<["fileExists" := VBool exists_]> (Soundboard.toJSON soundboard)))
    (λ error,
       mret (<["fileExists" := VBool false]> (Soundboard.toJSON soundboard))).

(** [GET /soundboards/:email]. *)
Definition get_soundboards_email (email : string) : M Response :=
  try_catch
    (soundboards ← Soundboard_findAll email;
     if (length soundboards =? 0)%nat then
       mret (res_status_json 404
               {[ "success" := VBool false;
                  "message" := VString "No soundboards found for this email" ]})
     else
       validatedSoundboards ← Promise_all (imap validate_soundboard soundboards);
       mret (res_json
               {[ "success" := VBool true;
                  "message" := VString "Soundboards retrieved successfully";
                  "data" := VArray (VObject <$> validatedSoundboards) ]}))
    (λ error,
       mret (res_status_json 500
               {[ "success" := VBool false;
                  "error" := VString "Failed to fetch soundboards" ]})).

(** [DELETE /soundboards/:id]. *)
Definition delete_soundboards_id (id : string) : M Response :=
  try_catch
    (found ← Soundboard_findByPk id;
     match found with
     | None =>
         mret (res_status_json 404
                 {[ "success" := VBool false;
                    "message" := VString "Soundboard not found" ]})
     | Some soundboard =>
         let filename := Js.pop (Js.split "/" (Soundboard.audioUrl soundboard)) in
         let file := filename in
         try_catch (file_delete file) (λ error, mret tt);;
         Soundboard_destroy soundboard;;
         mret (res_json
                 {[ "success" := VBool true;
                    "message" := VString "Soundboard deleted successfully" ]})
     end)
    (λ error,
       mret (res_status_json 500
               {[ "success" := VBool false;
                  "error" := VString "Failed to delete soundboard" ]})).

(** [POST /history]: the row is inserted with a raw statement. *)
Definition post_history (req_body : gmap string value) : M Response :=
  try_catch
    (let id := prop req_body "id" in
     let title := prop req_body "title" in
     let message := prop req_body "message" in
     let is_speech_to_text := prop req_body "is_speech_to_text" in
     let email := prop req_body "email" in
     if Js.not id || Js.not title || Js.not message
        || Js.is_undefined is_speech_to_text || Js.not email then
       mret (res_status_json 400
               {[ "status" := VString "error";
                  "message" :=
                    VString "Id, Judul, Pesan, is_speech_to_text, dan email harus diisi" ]})
     else
       let createdAt := now w in
       sequelize_query HistoryInsert
         [id; title; message; VDate createdAt; is_speech_to_text; email];;
       st ← get_state;
       set_state (set_history
         (history st ++
          [ {| History.id := column_value w "id" id;
               History.title := column_value w "title" title;
               History.message := column_value w "message" message;
               History.created_at := SqlString.to_second createdAt;
               History.is_speech_to_text :=
                 column_value w "is_speech_to_text" is_speech_to_text;
               History.email := column_value w "email" email |} ]) st);;
       mret (res_status_json 201
               {[ "status" := VString "success create data";
                  "data" := VObject
                    {[ "id" := id; "title" := title; "message" := message;
                       "created_at" := VDate createdAt;
                       "is_speech_to_text" := is_speech_to_text;
                       "email" := email ]} ]}))
    (λ error, mret (error_middleware error)).

(** The record both history listings build from a row. *)
Definition format_history (id title message created_at is_speech_to_text : value)
  : gmap string value :=
  {[ "id" := id;
     "title" := title;
     "message" := VArray
       [ VObject {[ "text" := message;
                    "created_at" := created_at;
                    "is_speech_to_text" := is_speech_to_text ]} ];
     "detection_type" :=
       VString (if ToBoolean is_speech_to_text then "Speech to Text"
                else "Gesture Detection") ]}.

Definition latest_first (a b : History.row) : Prop :=
  History.created_at b ≤ History.created_at a.

#[global] Instance latest_first_dec a b : Decision (latest_first a b) :=
  Z.le_dec _ _.

(** [GET /history]: [SELECT * FROM history ORDER BY created_at DESC]. *)
Definition get_history : M Response :=
  try_catch
    (query HistorySelect;;
     st ← get_state;
     let histories := merge_sort latest_first (history st) in
     if (length histories =? 0)%nat then
       mret (res_status_json 404
               {[ "status" := VString "error";
                  "message" := VString "History tidak ditemukan" ]})
     else
       let formattedHistories :=
         (λ h, VObject (format_history (History.id h) (History.title h)
                          (History.message h) (VDate (History.created_at h))
                          (History.is_speech_to_text h))) <$> histories in
       mret (res_json
               {[ "status" := VString "success get data";
                  "data" := VArray formattedHistories ]}))
    (λ error,
       mret (res_status_json 500
               {[ "status" := VString "error";
                  "message" := VString (if String.eqb error "" then "Something went wrong"
                                        else error) ]})).

(** [GET /history/:id]: the handler reads the identifier [History]. *)
Definition get_history_id (id : string) : M Response :=
  try_catch
    (History ← lift (resolve "History");
     found ← Model_findByPk History id;
     match found with
     | None =>
         mret (res_status_json 404
                 {[ "status" := VString "error";
                    "message" := VString "History tidak ditemukan" ]})
     | Some history =>
         let formattedHistory :=
           format_history (prop history "id") (prop history "title")
             (prop history "message") (prop history "created_at")
             (prop history "is_speech_to_text") in
         mret (res_json
                 {[ "status" := VString "success get data";
                    "data" := VArray [VObject formattedHistory] ]})
     end)
    (λ error, mret (error_middleware error)).

(** [DELETE /history/:id]. *)
Definition delete_history_id (id : string) : M Response :=
  try_catch
    (History ← lift (resolve "History");
     found ← Model_findByPk History id;
     match found with
     | None =>
         mret (res_status_json 404
                 {[ "status" := VString "error";
                    "message" := VString "History tidak ditemukan" ]})
     | Some history =>
         Model_destroy History id;;
         mret (res_json
                 {[ "status" := VString "success";
                    "message" :=
                      VString ("History dengan ID " +:+ id +:+ " telah dihapus") ]})
     end)
    (λ error, mret (error_middleware error)).

(** [INSERT INTO feedback (comment, rating) VALUES (?, ?)]; the result is the
    id of the new row. *)
Definition feedback_insert (comment rating : value) : M Z :=
  sequelize_query FeedbackInsert [comment; rating];;
  st ← get_state;
  set_state (set_feedback
    (feedback st ++
     [ {| Feedback.id := insertId w; Feedback.comment := comment;
          Feedback.rating := rating |} ]) st);;
  mret (insertId w).

(** [POST /feedback]. *)
Definition post_feedback (req_body : gmap string value) : M Response :=
  try_catch
    (let comment := prop req_body "comment" in
     let rating := prop req_body "rating" in
     if Js.not comment || Js.not rating then
       mret (res_status_json 400
               {[ "success" := VBool false;
                  "message" := VString "Rating harus diisi" ]})
     else
       below ← lift (Js.lt rating (of_Z 1));
       out_of_range ← (if below : bool then mret true
                       else lift (Js.gt rating (of_Z 4)));
       if out_of_range : bool then
         mret (res_status_json 400
                 {[ "success" := VBool false;
                    "message" := VString "Rating harus antara 1-4" ]})
       else
         result ← feedback_insert comment rating;
         mret (res_status_json 201
                 {[ "success" := VBool true;
                    "data" := VObject
                      {[ "id" := VNumber (of_Z result);
                         "comment" := comment;
                         "rating" := rating ]} ]}))
    (λ error,
       mret (res_status_json 500
               {[ "success" := VBool false; "message" := VString error ]})).

(** [POST /report]. *)
Definition post_report (req_body : gmap string value) : M Response :=
  try_catch
    (let comment := prop req_body "comment" in
     if Js.not comment then
       mret (res_status_json 400
               {[ "success" := VBool false;
                  "message" := VString "Comment harus diisi" ]})
     else
       report ← Report_create {[ "comment" := comment ]};
       mret (res_status_json 201
               {[ "success" := VBool true;
                  "data" := VObject
                    {[ "id" := prop report "id";
                       "comment" := prop report "comment";
                       "createdAt" := prop report "createdAt" ]} ]}))
    (λ error,
       mret (res_status_json 500
               {[ "success" := VBool false; "message" := VString error ]})).

End Handlers.

(** ** Requests and runs *)

Inductive Request : Type :=
| POST_soundboards (req_body : gmap string value)
| GET_soundboards_email (email : string)
| DELETE_soundboards_id (id : string)
| POST_history (req_body : gmap string value)
| GET_history
| GET_history_id (id : string)
| DELETE_history_id (id : string)
| POST_feedback (req_body : gmap string value)
| POST_report (req_body : gmap string value).

Definition route (w : World) (req : Request) : M Response :=
  match req with
  | POST_soundboards req_body => post_soundboards w req_body
  | GET_soundboards_email email => get_soundboards_email w email
  | DELETE_soundboards_id id => delete_soundboards_id w id
  | POST_history req_body => post_history w req_body
  | GET_history => get_history w
  | GET_history_id id => get_history_id w id
  | DELETE_history_id id => delete_history_id w id
  | POST_feedback req_body => post_feedback w req_body
  | POST_report req_body => post_report w req_body
  end.

(** What a computation answered, the state it left and the calls it made. *)
Definition answer {A : Type} (m : M A) (st : State) : completion A := fst (fst (m st)).
Definition state_after {A : Type} (m : M A) (st : State) : State := snd (fst (m st)).
Definition calls {A : Type} (m : M A) (st : State) : list Event := snd (m st).

(** One step of the service: a request served by one of the routes above, or
    by one of the other routes of [app.js] (profile, report listing, banner,
    health), none of which names the Soundboard model. *)
Inductive step : State -> State -> Prop :=
| step_route (w : World) (req : Request) (st : State) :
    step st (state_after (route w req) st)
| step_elsewhere (st st' : State) :
    Soundboards st' = Soundboards st -> step st st'.

Inductive reachable : State -> Prop :=
| reachable_initial : reachable initial
| reachable_step (st st' : State) : reachable st -> step st st' -> reachable st'.

(** What the claims speak of. *)

(** A field that is missing, [null] or the empty string. *)
Definition absent_or_empty (v : value) : Prop :=
  v = VUndefined ∨ v = VNull ∨ v = VString "".

(** Does the character occur in the string? *)
Fixpoint occurs (c : ascii) (s : string) : bool :=
  match s with
  | EmptyString => false
  | String c' rest => Ascii.eqb c' c || occurs c rest
  end.

(** The consistency of a Soundboard row: its [fileName] is the last path
    segment of its [audioUrl], which is the public URL of the object
    [<uuid>.mp3] in some bucket. *)
Definition consistent (r : Soundboard.row) : Prop :=
  Js.pop (Js.split "/" (Soundboard.audioUrl r)) = Soundboard.fileName r ∧
  ∃ (bucket : string) (rnds : nat -> Z),
    Soundboard.fileName r = Uuid.uuidv4 rnds +:+ ".mp3" ∧
    Soundboard.audioUrl r =
      "https://storage.googleapis.com/" +:+ bucket +:+ "/" +:+ Soundboard.fileName r.

(** The rows [GET /soundboards/:email] is about. *)
Definition owned_by (email : string) (st : State) : list Soundboard.row :=
  filter (λ r, Soundboard.createdByEmail r = email) (Soundboards st).

(** The [data] array of a response, when it has one. *)
Definition data_items (r : Response) : option (list value) :=
  match body r !! "data" with
  | Some (VArray items) => Some items
  | _ => None
  end.

(** A rating between 1 and 4, bounds included. *)
Definition in_1_4 (x : number) : bool := SFleb (of_Z 1) x && SFleb x (of_Z 4).

(** The same for any value, through its numeric conversion. *)
Definition rating_in_1_4 (rating : value) : bool :=
  match ToNumber rating with
  | Return x => in_1_4 x
  | Throw _ => false
  end.

(** The row a successful [POST /soundboards] stores. *)
Definition created_row (w : World) (req_body : gmap string value) : Soundboard.row :=
  let fileName := Uuid.uuidv4 (file_rnds w) +:+ ".mp3" in
  {| Soundboard.id := Uuid.uuidv4 (id_rnds w);
     Soundboard.text := to_column w (prop req_body "text");
     Soundboard.audioUrl :=
       "https://storage.googleapis.com/" +:+ GCP_BUCKET_NAME w +:+ "/" +:+ fileName;
     Soundboard.fileName := fileName;
     Soundboard.createdByEmail := to_column w (prop req_body "email");
     Soundboard.createdAt := SqlString.to_second (now w);
     Soundboard.updatedAt := SqlString.to_second (now w) |}.

(** The object name [GET /soundboards/:email] and [DELETE /soundboards/:id]
    derive from a row. *)
Definition object_key (r : Soundboard.row) : string :=
  Js.pop (Js.split "/" (Soundboard.audioUrl r)).

(** The flag of the row at position [i] of a listing: false when its
    existence check rejects, else whether the bucket holds its object. *)
Definition fileExists_flag (w : World) (st : State) (i : nat) (r : Soundboard.row)
  : bool :=
  match exists_rejects w i with
  | Some _ => false
  | None => bool_decide (is_Some (objects st !! object_key r))
  end.

Definition enriched (w : World) (st : State) (i : nat) (r : Soundboard.row)
  : gmap string value :=
  <["fileExists" := VBool (fileExists_flag w st i r)]> (Soundboard.toJSON r).

(** The rows of a listing, in the order of the answer. *)
Definition listing (email : string) (st : State) : list Soundboard.row :=
  merge_sort newest_first (owned_by email st).

(** The state after the best-effort [file.delete()] of an object. *)
Definition after_file_delete (w : World) (name : string) (st : State) : State :=
  match delete_rejects w name, objects st !! name with
  | None, Some _ => set_objects (delete name (objects st)) st
  | _, _ => st
  end.

(** ** Sample worlds, requests and states *)

(** What a MySQL column gives back in the sample worlds: a boolean comes
    back as the number 1 or 0, anything else as it was bound. *)
Definition tinyint (v : value) : value :=
  match v with
  | VBool true => VNumber (of_Z 1)
  | VBool false => VNumber (of_Z 0)
  | _ => v
  end.

(** What [util.inspect] prints in the sample worlds for the objects the
    sample requests hold: an empty object, and an object with one text
    field. *)
Definition shown (v : value) : string :=
  match v with
  | VObject fields =>
      match map_to_list fields with
      | [] => "{}"
      | [(key, VString text)] => "{ " +:+ key +:+ ": '" +:+ text +:+ "' }"
      | _ => "[Object]"
      end
  | _ => ""
  end.

(** A world in which every service answers. *)
Definition calm : World :=
  {| GCP_BUCKET_NAME := "handlips";
     synthesizeSpeech := λ _, Return [Byte.x49; Byte.x44; Byte.x33];
     save_rejects := λ _, None;
     exists_rejects := λ _, None;
     delete_rejects := λ _, None;
     query_rejects := λ _, None;
     column_text := λ _, "";
     column_value := λ _, tinyint;
     inspect := shown;
     insertId := 1;
     now := 1730000000000;
     file_rnds := λ i, Z.of_nat i;
     id_rnds := λ i, 100 + Z.of_nat i |}.

(** The world [calm] with a clock between two seconds. *)
Definition midway : World :=
  {| GCP_BUCKET_NAME := "handlips";
     synthesizeSpeech := λ _, Return [Byte.x49; Byte.x44; Byte.x33];
     save_rejects := λ _, None;
     exists_rejects := λ _, None;
     delete_rejects := λ _, None;
     query_rejects := λ _, None;
     column_text := λ _, "";
     column_value := λ _, tinyint;
     inspect := shown;
     insertId := 1;
     now := 1730000000123;
     file_rnds := λ i, Z.of_nat i;
     id_rnds := λ i, 100 + Z.of_nat i |}.

(** The same world a minute later, with other random bytes. *)
Definition later : World :=
  {| GCP_BUCKET_NAME := "handlips";
     synthesizeSpeech := λ _, Return [Byte.x49; Byte.x44; Byte.x33];
     save_rejects := λ _, None;
     exists_rejects := λ _, None;
     delete_rejects := λ _, None;
     query_rejects := λ _, None;
     column_text := λ _, "";
     column_value := λ _, tinyint;
     inspect := shown;
     insertId := 2;
     now := 1730000060000;
     file_rnds := λ i, 50 + Z.of_nat i;
     id_rnds := λ i, 200 + Z.of_nat i |}.

(** The speech service is down. *)
Definition mute : World :=
  {| GCP_BUCKET_NAME := "handlips";
     synthesizeSpeech := λ _, Throw "14 UNAVAILABLE";
     save_rejects := λ _, None;
     exists_rejects := λ _, None;
     delete_rejects := λ _, None;
     query_rejects := λ _, None;
     column_text := λ _, "";
     column_value := λ _, tinyint;
     inspect := shown;
     insertId := 1;
     now := 1730000000000;
     file_rnds := λ i, Z.of_nat i;
     id_rnds := λ i, 100 + Z.of_nat i |}.

(** The first existence check of a listing rejects, and so does every
    storage delete. *)
Definition stormy : World :=
  {| GCP_BUCKET_NAME := "handlips";
     synthesizeSpeech := λ _, Return [Byte.x49; Byte.x44; Byte.x33];
     save_rejects := λ _, None;
     exists_rejects := λ i, match i with O => Some "socket hang up" | _ => None end;
     delete_rejects := λ _, Some "socket hang up";
     query_rejects := λ _, None;
     column_text := λ _, "";
     column_value := λ _, tinyint;
     inspect := shown;
     insertId := 3;
     now := 1730000120000;
     file_rnds := λ i, 70 + Z.of_nat i;
     id_rnds := λ i, 30 + Z.of_nat i |}.

Definition hello : gmap string value :=
  {[ "title" := VString "Hello"; "text" := VString "Halo dunia";
     "email" := VString "a@x.com" ]}.

Definition untitled : gmap string value :=
  {[ "text" := VString "Halo dunia"; "email" := VString "a@x.com" ]}.

(** The table after one creation, and after two. *)
Definition one_clip : State := state_after (route calm (POST_soundboards hello)) initial.
Definition two_clips : State := state_after (route later (POST_soundboards hello)) one_clip.

Definition rated (rating : value) : gmap string value :=
  {[ "comment" := VString "ok"; "rating" := rating ]}.

Definition note : gmap string value :=
  {[ "id" := VString "h1"; "title" := VString "Salam"; "message" := VString "Halo";
     "is_speech_to_text" := VBool true; "email" := VString "a@x.com" ]}.

(** The state after [POST /history] stored the record [h1]. *)
Definition one_note : State := state_after (route calm (POST_history note)) initial.

(** ** The profile routes *)

(** Modelled from the spec: the table [profile] is created outside [app.js];
    a row carries the columns the statements of the routes name, and a new
    row has no picture. *)
Module Profile.

Record row : Type := {
  name : string;
  email : string;
  profile_picture_url : option string;
}.

Definition toJSON (r : row) : gmap string value :=
  {[ "name" := VString (name r);
     "email" := VString (email r);
     "profile_picture_url" :=
       match profile_picture_url r with
       | Some url => VString url
       | None => VNull
       end ]}.

End Profile.

(** The state of the whole service: the tables and the bucket of [State],
    and the profile table. *)
Record Site : Type := {
  core : State;
  profile : list Profile.row;
}.

Definition empty_site : Site := {| core := initial; profile := [] |}.

(** The statements on the profile table, by call site. *)
Inductive ProfileCall : Type :=
| ProfileExisting          (* the SELECT of POST /profile *)
| ProfileInsert
| ProfileSelect            (* the SELECT of GET /profile/:email *)
| ProfileUpdate.

(** What a request to a profile route meets outside the process. *)
Record Surroundings : Type := {
  outside : World;
  statement_rejects : ProfileCall -> option string;
  (* the first element of what the UPDATE resolves to, by the number of rows
     it matched *)
  update_result : nat -> value;
}.

Inductive SiteEvent : Type :=
| Outside (ev : Event)
| Statement (call : ProfileCall).

Definition MP (A : Type) : Type := Site -> completion A * Site * list SiteEvent.

#[global] Instance MP_ret : MRet MP := λ A a site, (Return a, site, []).

#[global] Instance MP_bind : MBind MP := λ A B k m site,
  match m site with
  | (Return a, site1, ev1) =>
      let '(r, site2, ev2) := k a site1 in (r, site2, ev1 ++ ev2)
  | (Throw e, site1, ev1) => (Throw e, site1, ev1)
  end.

(** [try { body } catch (error) { handler }] on the whole service. *)
Definition catching {A : Type} (body : MP A) (handler : string -> MP A) : MP A :=
  λ site,
  match body site with
  | (Return a, site1, ev1) => (Return a, site1, ev1)
  | (Throw e, site1, ev1) =>
      let '(r, site2, ev2) := handler e site1 in (r, site2, ev1 ++ ev2)
  end.

(** A computation of the soundboard part, run inside the whole service. *)
Definition in_core {A : Type} (m : M A) : MP A := λ site,
  let '(r, st, evs) := m (core site) in
  (r, {| core := st; profile := profile site |}, Outside <$> evs).

Definition get_site : MP Site := λ site, (Return site, site, []).

Definition set_profile (rows : list Profile.row) : MP unit := λ site,
  (Return tt, {| core := core site; profile := rows |}, []).

(** The multer configuration: an uploaded file, the filter on its declared
    type and the size limit. *)
Record File : Type := {
  originalname : string;
  mimetype : string;
  buffer : list Byte.byte;
}.

Definition allowedMimes : list string := ["image/jpeg"; "image/png"; "image/jpg"].

Definition fileFilter (file : File) : completion bool :=
  if bool_decide (mimetype file ∈ allowedMimes) then Return true
  else Throw "File harus berupa gambar.".

Definition fileSize : Z := 5 * 1024 * 1024.

(** [upload.single("profile_picture")]: the file of that field when the
    request has one, or the error multer passes to [next]. A file that
    reaches the limit is refused: only a shorter one gets through. *)
Definition upload_single (file : option File) : completion (option File) :=
  match file with
  | None => Return None
  | Some f =>
      match fileFilter f with
      | Throw error => Throw error
      | Return false => Return None
      | Return true =>
          if fileSize <=? Z.of_nat (length (buffer f)) then Throw "File too large"
          else Return (Some f)
      end
  end.

(** [result === 0]. *)
Definition is_zero (v : value) : bool :=
  match v with
  | VNumber (S754_zero _) => true
  | _ => false
  end.

Section ProfileHandlers.

Context (s : Surroundings).

(** [sequelize.query(sql, { replacements })] on the profile table: the
    replacements are written into the statement, and only then is the
    statement sent. *)
Definition statement (call : ProfileCall) (replacements : list value) : MP unit :=
  λ site,
  match SqlString.invalid_among replacements with
  | Some bad => (Throw ("Invalid value " +:+ inspect (outside s) bad), site, [])
  | None =>
      (match statement_rejects s call with
       | Some error => Throw error
       | None => Return tt
       end, site, [Statement call])
  end.

(** [SELECT * FROM profile WHERE email = ?]: the rows whose email is the
    string bound, the comparison of the column taken as equality of strings. *)
Definition select_profile (call : ProfileCall) (email : value)
  : MP (list Profile.row) :=
  statement call [email];;
  site ← get_site;
  mret (filter (λ r, Profile.email r = to_column (outside s) email) (profile site)).

(** [INSERT INTO profile (name, email) VALUES (?, ?)]. *)
Definition insert_profile (name email : value) : MP unit :=
  statement ProfileInsert [name; email];;
  site ← get_site;
  set_profile (profile site ++
    [ {| Profile.name := to_column (outside s) name;
         Profile.email := to_column (outside s) email;
         Profile.profile_picture_url := None |} ]).

(** [UPDATE profile SET name = ? WHERE email = ?], with
    [profile_picture_url = ?] as well when there is a picture. *)
Definition update_profile (name : value) (profilePictureUrl : option string)
    (email : string) : MP value :=
  let replacements :=
    match profilePictureUrl with
    | Some url => [name; VString url; VString email]
    | None => [name; VString email]
    end in
  statement ProfileUpdate replacements;;
  site ← get_site;
  set_profile
    ((λ r, if decide (Profile.email r = email) then
             {| Profile.name := to_column (outside s) name;
                Profile.email := Profile.email r;
                Profile.profile_picture_url :=
                  match profilePictureUrl with
                  | Some url => Some url
                  | None => Profile.profile_picture_url r
                  end |}
           else r) <$> profile site);;
  mret (update_result s
          (length (filter (λ r, Profile.email r = email) (profile site)))).

(** [POST /profile]. *)
Definition post_profile (req_body : gmap string value) : MP Response :=
  catching
    (let name := prop req_body "name" in
     let email := prop req_body "email" in
     if Js.not name || Js.not email then
       mret (res_status_json 400
               {[ "success" := VBool false;
                  "message" := VString "Name and email are required" ]})
     else
       existingProfile ← select_profile ProfileExisting email;
       if (0 <? length existingProfile)%nat then
         mret (res_status_json 400
                 {[ "success" := VBool false;
                    "message" := VString "Email already exists" ]})
       else
         insert_profile name email;;
         mret (res_status_json 201
                 {[ "success" := VBool true;
                    "message" := VString "Profile created successfully";
                    "data" := VObject {[ "name" := name; "email" := email ]} ]}))
    (λ error,
       mret (res_status_json 500
               {[ "success" := VBool false; "message" := VString error ]})).

(** [POST /profile] by turns of the event loop: the handler stops at each
    [await], and other requests are served until the database has answered.
    [post_profile_lookup] is the handler up to the answer of its look-up: it
    gives the response when the handler answers there, and nothing when the
    handler goes on to insert. [post_profile_insert] is the handler from
    there on. *)
Definition post_profile_lookup (req_body : gmap string value)
  : MP (option Response) :=
  catching
    (let name := prop req_body "name" in
     let email := prop req_body "email" in
     if Js.not name || Js.not email then
       mret (Some (res_status_json 400
                     {[ "success" := VBool false;
                        "message" := VString "Name and email are required" ]}))
     else
       existingProfile ← select_profile ProfileExisting email;
       if (0 <? length existingProfile)%nat then
         mret (Some (res_status_json 400
                       {[ "success" := VBool false;
                          "message" := VString "Email already exists" ]}))
       else mret None)
    (λ error,
       mret (Some (res_status_json 500
                     {[ "success" := VBool false; "message" := VString error ]}))).

Definition post_profile_insert (req_body : gmap string value) : MP Response :=
  catching
    (let name := prop req_body "name" in
     let email := prop req_body "email" in
     insert_profile name email;;
     mret (res_status_json 201
             {[ "success" := VBool true;
                "message" := VString "Profile created successfully";
                "data" := VObject {[ "name" := name; "email" := email ]} ]}))
    (λ error,
       mret (res_status_json 500
               {[ "success" := VBool false; "message" := VString error ]})).

(** [GET /profile/:email]. *)
Definition get_profile_email (email : string) : MP Response :=
  catching
    (rows ← select_profile ProfileSelect (VString email);
     match rows with
     | [] =>
         mret (res_status_json 404
                 {[ "success" := VBool false;
                    "message" := VString "Profile not found" ]})
     | profile :: _ =>
         mret (res_json
                 {[ "success" := VBool true;
                    "data" := VObject (Profile.toJSON profile) ]})
     end)
    (λ error,
       mret (res_status_json 500
               {[ "success" := VBool false; "message" := VString error ]})).

(** [PUT /profile/:email], behind [upload.single("profile_picture")]. *)
Definition put_profile_email (email : string) (req_body : gmap string value)
    (file : option File) : MP Response :=
  match upload_single file with
  | Throw err => mret (error_middleware err)
  | Return req_file =>
      catching
        (let name := prop req_body "name" in
         if Js.not name then
           mret (res_status_json 400
                   {[ "success" := VBool false;
                      "message" := VString "Name is required" ]})
         else
           profilePictureUrl ←
             match req_file with
             | Some f =>
                 let filename :=
                   "profiles/" +:+ pretty (now (outside s)) +:+ "-" +:+ originalname f in
                 url ← in_core (uploadToGCS (outside s) (buffer f) filename (mimetype f));
                 mret (Some url)
             | None => mret None
             end;
           result ← update_profile name profilePictureUrl email;
           if is_zero result then
             mret (res_status_json 404
                     {[ "success" := VBool false;
                        "message" := VString "Profile not found" ]})
           else
             mret (res_json
                     {[ "success" := VBool true;
                        "message" := VString "Profile updated successfully" ]}))
        (λ error,
           mret (res_status_json 500
                   {[ "success" := VBool false; "message" := VString error ]}))
  end.

End ProfileHandlers.

(** The requests to the whole service. *)
Inductive SiteRequest : Type :=
| Soundboard_side (req : Request)
| POST_profile (req_body : gmap string value)
| GET_profile_email (email : string)
| PUT_profile_email (email : string) (req_body : gmap string value)
    (file : option File).

Definition serve (s : Surroundings) (req : SiteRequest) : MP Response :=
  match req with
  | Soundboard_side req => in_core (route (outside s) req)
  | POST_profile req_body => post_profile s req_body
  | GET_profile_email email => get_profile_email s email
  | PUT_profile_email email req_body file => put_profile_email s email req_body file
  end.

Definition site_after {A : Type} (m : MP A) (site : Site) : Site := snd (fst (m site)).
Definition site_answer {A : Type} (m : MP A) (site : Site) : completion A :=
  fst (fst (m site)).
Definition site_calls {A : Type} (m : MP A) (site : Site) : list SiteEvent :=
  snd (m site).

(** The surroundings in which everything answers. *)
Definition fair : Surroundings :=
  {| outside := calm;
     statement_rejects := λ _, None;
     update_result := λ _, VUndefined |}.

Definition ani : gmap string value :=
  {[ "name" := VString "Ani"; "email" := VString "a@x.com" ]}.

Definition portrait : File :=
  {| originalname := "me.png"; mimetype := "image/png";
     buffer := [Byte.x89; Byte.x50; Byte.x4e; Byte.x47] |}.

Definition leaflet : File :=
  {| originalname := "cv.pdf"; mimetype := "application/pdf";
     buffer := [Byte.x25; Byte.x50; Byte.x44; Byte.x46] |}.

Definition ani_again : gmap string value :=
  {[ "name" := VString "Ani W."; "email" := VString "a@x.com" ]}.

(** A name that is no text: the field [name[first]] of a form. *)
Definition nested_name : gmap string value :=
  {[ "name" := VObject {[ "first" := VString "Ani" ]} ]}.

(** The service after Ani registered. *)
Definition with_ani : Site := site_after (serve fair (POST_profile ani)) empty_site.

(** The database is down; the other services answer. *)
Definition offline : World :=
  {| GCP_BUCKET_NAME := "handlips";
     synthesizeSpeech := λ _, Return [Byte.x49; Byte.x44; Byte.x33];
     save_rejects := λ _, None;
     exists_rejects := λ _, None;
     delete_rejects := λ _, None;
     query_rejects := λ _, Some "connect ECONNREFUSED";
     column_text := λ _, "";
     column_value := λ _, tinyint;
     inspect := shown;
     insertId := 1;
     now := 1730000000000;
     file_rnds := λ i, Z.of_nat i;
     id_rnds := λ i, 100 + Z.of_nat i |}.

(** The bucket rejects every upload. *)
Definition full : World :=
  {| GCP_BUCKET_NAME := "handlips";
     synthesizeSpeech := λ _, Return [Byte.x49; Byte.x44; Byte.x33];
     save_rejects := λ _, Some "503 Service Unavailable";
     exists_rejects := λ _, None;
     delete_rejects := λ _, None;
     query_rejects := λ _, None;
     column_text := λ _, "";
     column_value := λ _, tinyint;
     inspect := shown;
     insertId := 1;
     now := 1730000000000;
     file_rnds := λ i, Z.of_nat i;
     id_rnds := λ i, 100 + Z.of_nat i |}.

(** The storage answers, the row delete is rejected. *)
Definition locked : World :=
  {| GCP_BUCKET_NAME := "handlips";
     synthesizeSpeech := λ _, Return [Byte.x49; Byte.x44; Byte.x33];
     save_rejects := λ _, None;
     exists_rejects := λ _, None;
     delete_rejects := λ _, None;
     query_rejects := λ call,
       match call with
       | SoundboardDestroy => Some "Lock wait timeout exceeded"
       | _ => None
       end;
     column_text := λ _, "";
     column_value := λ _, tinyint;
     inspect := shown;
     insertId := 1;
     now := 1730000000000;
     file_rnds := λ i, Z.of_nat i;
     id_rnds := λ i, 100 + Z.of_nat i |}.

(** The object [POST /soundboards] and [PUT /profile/:email] store. *)
Definition stored (audio : list Byte.byte) (type : string) : StoredObject :=
  {| content := audio; contentType := type;
     cacheControl := "public, max-age=31536000" |}.

(** The name of the audio object of a creation. *)
Definition clip_name (w : World) : string := Uuid.uuidv4 (file_rnds w) +:+ ".mp3".

(** The key of the picture of an update. *)
Definition picture_key (w : World) (f : File) : string :=
  "profiles/" +:+ pretty (now w) +:+ "-" +:+ originalname f.

(** The values [POST /history] writes into its statement, in the order of
    the statement. *)
Definition history_replacements (w : World) (req_body : gmap string value)
  : list value :=
  [ prop req_body "id"; prop req_body "title"; prop req_body "message";
    VDate (now w); prop req_body "is_speech_to_text"; prop req_body "email" ].

(** The record a successful [POST /history] leaves in the table. *)
Definition stored_history (w : World) (req_body : gmap string value) : History.row :=
  {| History.id := column_value w "id" (prop req_body "id");
     History.title := column_value w "title" (prop req_body "title");
     History.message := column_value w "message" (prop req_body "message");
     History.created_at := SqlString.to_second (now w);
     History.is_speech_to_text :=
       column_value w "is_speech_to_text" (prop req_body "is_speech_to_text");
     History.email := column_value w "email" (prop req_body "email") |}.

(** ** Strings *)

Lemma split_nonempty sep s : Js.split sep s ≠ [].
Proof.
  destruct s as [|c s]; simpl; [discriminate|].
  destruct (Ascii.eqb c sep); [discriminate|].
  destruct (Js.split sep s); discriminate.
Qed.

Lemma split_app sep a b :
  Js.split sep (a +:+ String sep b) = Js.split sep a ++ Js.split sep b.
Proof.
  induction a as [|c a IH]; simpl.
  - by rewrite Ascii.eqb_refl.
  - destruct (Ascii.eqb c sep); [by rewrite IH|].
    rewrite IH. pose proof (split_nonempty sep a) as Hne.
    destruct (Js.split sep a); [done|reflexivity].
Qed.

Lemma split_without sep s : occurs sep s = false → Js.split sep s = [s].
Proof.
  induction s as [|c s IH]; simpl; [done|].
  intros [Hc Hs]%orb_false_elim. rewrite Hc, (IH Hs). reflexivity.
Qed.

Lemma occurs_app c a b : occurs c (a +:+ b) = occurs c a || occurs c b.
Proof.
  induction a as [|c' a IH]; simpl; [done|]. by rewrite IH, orb_assoc.
Qed.

(** The last segment of [prefix/name] is [name] when [name] has no slash. *)
Lemma pop_split_path prefix name :
  occurs "/" name = false →
  Js.pop (Js.split "/" (prefix +:+ "/" +:+ name)) = name.
Proof.
  intros Hname. change ("/" +:+ name) with (String "/" name).
  rewrite split_app, (split_without _ _ Hname).
  unfold Js.pop. apply last_last.
Qed.

(** ** uuid *)

Lemma hex_digit_not_slash n : Uuid.hex_digit n ≠ "/"%char.
Proof.
  unfold Uuid.hex_digit. generalize (Z.to_nat n). intros k.
  do 17 (destruct k as [|k]; [discriminate|]). destruct k; discriminate.
Qed.

Lemma byteToHex_no_slash b : occurs "/" (Uuid.byteToHex b) = false.
Proof.
  unfold Uuid.byteToHex. simpl.
  rewrite !(proj2 (Ascii.eqb_neq _ _) (hex_digit_not_slash _)). reflexivity.
Qed.

Lemma hex_of_no_slash bytes first count :
  occurs "/" (Uuid.hex_of bytes first count) = false.
Proof.
  revert first. induction count as [|n IH]; intros first; simpl; [done|].
  change (occurs "/" (Uuid.byteToHex (bytes first) +:+ Uuid.hex_of bytes (S first) n) = false).
  by rewrite occurs_app, byteToHex_no_slash, IH.
Qed.

Lemma uuidv4_no_slash rnds : occurs "/" (Uuid.uuidv4 rnds) = false.
Proof.
  unfold Uuid.uuidv4, Uuid.stringify.
  rewrite !occurs_app, !hex_of_no_slash. reflexivity.
Qed.

Lemma mp3_name_no_slash rnds : occurs "/" (Uuid.uuidv4 rnds +:+ ".mp3") = false.
Proof. by rewrite occurs_app, uuidv4_no_slash. Qed.

(** ** Numbers *)

Lemma SFcompare_antisym x y :
  SFcompare y x = option_map CompOpp (SFcompare x y).
Proof.
  destruct x as [sx|sx| |sx mx ex], y as [sy|sy| |sy my ey]; simpl;
    try reflexivity; try (by destruct sx); try (by destruct sy);
    try (by destruct sx, sy).
  destruct sx, sy; simpl; try reflexivity;
    rewrite (Z.compare_antisym ex ey); destruct (ex ?= ey); simpl;
    try reflexivity.
  all: change Eq with (CompOpp Eq) at 1.
  all: by rewrite <- (Pos.compare_cont_antisym mx my Eq), ?CompOpp_involutive.
Qed.

(** Outside of NaN, [y <= x] is the negation of [x < y]. *)
Lemma SFleb_negb_SFltb x y :
  SFcompare x y ≠ None → SFleb y x = negb (SFltb x y).
Proof.
  intros Hc. unfold SFleb, SFltb. rewrite (SFcompare_antisym x y).
  destruct (SFcompare x y) as [[]|]; simpl; done.
Qed.

Lemma SFcompare_finite_r x s m e :
  x ≠ S754_nan → SFcompare x (S754_finite s m e) ≠ None.
Proof. destruct x; simpl; done. Qed.

Lemma SFcompare_finite_l x s m e :
  x ≠ S754_nan → SFcompare (S754_finite s m e) x ≠ None.
Proof. destruct x; simpl; done. Qed.

Lemma of_Z_1 : of_Z 1 = S754_finite false 4503599627370496 (-52).
Proof. reflexivity. Qed.

Lemma of_Z_4 : of_Z 4 = S754_finite false 4503599627370496 (-50).
Proof. reflexivity. Qed.

(** A number passes the two tests of [POST /feedback] exactly when it lies
    between 1 and 4. *)
Lemma number_checks x :
  negb (Js.not (VNumber x)) && negb (SFltb x (of_Z 1) || SFltb (of_Z 4) x)
  = in_1_4 x.
Proof.
  unfold in_1_4. rewrite of_Z_1, of_Z_4.
  destruct x as [s|s| |s m e].
  - reflexivity.
  - by destruct s.
  - reflexivity.
  - rewrite (SFleb_negb_SFltb (S754_finite s m e) (S754_finite false _ (-52)))
      by (by apply SFcompare_finite_r).
    rewrite (SFleb_negb_SFltb (S754_finite false _ (-50)) (S754_finite s m e))
      by (by apply SFcompare_finite_l).
    generalize (SFltb (S754_finite s m e) (S754_finite false 4503599627370496 (-52))).
    generalize (SFltb (S754_finite false 4503599627370496 (-50)) (S754_finite s m e)).
    by intros [] [].
Qed.

Lemma in_1_4_truthy x : in_1_4 x = true → Js.not (VNumber x) = false.
Proof.
  rewrite <- number_checks. intros [H _]%andb_prop. by apply negb_true_iff in H.
Qed.

(** ** Runs of the helpers *)

Lemma query_run w call st :
  query w call st =
    (match query_rejects w call with
     | Some error => Throw error
     | None => Return tt
     end, st, [Query call]).
Proof. unfold query, mbind, M_bind, emit. simpl. by destruct (query_rejects w call). Qed.

Lemma sequelize_query_run w call replacements st :
  sequelize_query w call replacements st =
    match SqlString.invalid_among replacements with
    | Some bad => (Throw ("Invalid value " +:+ inspect w bad), st, [])
    | None =>
        (match query_rejects w call with
         | Some error => Throw error
         | None => Return tt
         end, st, [Query call])
    end.
Proof.
  unfold sequelize_query.
  destruct (SqlString.invalid_among replacements); [reflexivity|].
  apply query_run.
Qed.

Lemma generateSpeech_run w text st :
  generateSpeech w text st =
    (match synthesizeSpeech w text with
     | Return audio => Return audio
     | Throw error => Throw ("Error generating speech: " +:+ error)
     end, st, [SynthesizeSpeech text]).
Proof.
  unfold generateSpeech, try_catch, ttsClient_synthesizeSpeech, mbind, M_bind,
    emit, lift. simpl. by destruct (synthesizeSpeech w text).
Qed.

Lemma uploadToGCS_run w buffer filename contentType st :
  uploadToGCS w buffer filename contentType st =
    match save_rejects w filename with
    | Some error =>
        (Throw ("Error uploading to Google Cloud Storage: " +:+ error), st,
         [FileSave filename])
    | None =>
        (Return ("https://storage.googleapis.com/" +:+ GCP_BUCKET_NAME w +:+ "/"
                 +:+ filename),
         set_objects
           (<[filename := {| content := buffer; contentType := contentType;
                             cacheControl := "public, max-age=31536000" |}]>
              (objects st)) st,
         [FileSave filename])
    end.
Proof.
  unfold uploadToGCS, try_catch, file_save, mbind, M_bind, emit. simpl.
  by destruct (save_rejects w filename).
Qed.

Lemma file_exists_run w i name st :
  file_exists w i name st =
    (match exists_rejects w i with
     | Some error => Throw error
     | None => Return (bool_decide (is_Some (objects st !! name)))
     end, st, [FileExists name]).
Proof.
  unfold file_exists, mbind, M_bind, emit. simpl.
  by destruct (exists_rejects w i).
Qed.

(** The attributes of the instance [POST /soundboards] builds. *)
Lemma created_dataValues (text title email id created updated : value)
    (audioUrl fileName : string) :
  let dataValues :=
    <["id" := id]> (<["createdAt" := created]> (<["updatedAt" := updated]>
      (build Soundboard.attributes
         {[ "text" := text; "title" := title; "audioUrl" := VString audioUrl;
            "fileName" := VString fileName; "createdByEmail" := email ]}))) in
  prop dataValues "text" = text ∧
  prop dataValues "audioUrl" = VString audioUrl ∧
  prop dataValues "fileName" = VString fileName ∧
  prop dataValues "createdByEmail" = email ∧
  dataValues !! "title" = None.
Proof.
  unfold prop, build. repeat split.
  all: rewrite !lookup_insert_ne by done.
  all: rewrite map_lookup_filter.
  all: simplify_map_eq.
  all: try done.
Qed.

(** ** [POST /soundboards] *)

(** [Soundboard.create] throws and changes nothing, or inserts the row of the
    instance it built and returns the instance. *)
Lemma Soundboard_create_cases w values st :
  let dataValues :=
    <["id" := VString (Uuid.uuidv4 (id_rnds w))]>
      (<["createdAt" := VDate (now w)]> (<["updatedAt" := VDate (now w)]>
         (build Soundboard.attributes values))) in
  (∃ e evs, Soundboard_create w values st = (Throw e, st, evs)) ∨
  Soundboard_create w values st =
    (Return dataValues,
     set_Soundboards (Soundboards st ++ [Soundboard_row w dataValues]) st,
     [Query SoundboardCreate]).
Proof.
  intros dataValues. unfold Soundboard_create. fold dataValues.
  unfold mbind, M_bind, lift. 
  destruct (validate_text "Soundboard" "text" _); [|left; by do 2 eexists].
  destruct (validate_text "Soundboard" "audioUrl" _); [|left; by do 2 eexists].
  destruct (validate_text "Soundboard" "fileName" _); [|left; by do 2 eexists].
  destruct (validate_text "Soundboard" "createdByEmail" _); [|left; by do 2 eexists].
  rewrite query_run.
  destruct (query_rejects w SoundboardCreate); [left; by do 2 eexists|].
  unfold get_state. 
  destruct (bool_decide _); [left; by do 2 eexists|].
  right. reflexivity.
Qed.

(** The handler answers 201 and stores exactly [created_row], or answers
    something else and leaves the table as it was. *)
Lemma post_soundboards_cases w req_body st :
  ∃ r st' evs, post_soundboards w req_body st = (Return r, st', evs) ∧
    ((status r = 201 ∧
      Soundboards st' = Soundboards st ++ [created_row w req_body] ∧
      ∃ instance, body r !! "data" = Some (VObject instance) ∧
                  instance !! "title" = None)
     ∨ (status r ≠ 201 ∧ Soundboards st' = Soundboards st)).
Proof.
  unfold post_soundboards, try_catch.
  destruct (Js.not (prop req_body "title") || Js.not (prop req_body "text")
            || Js.not (prop req_body "email")) eqn:Hvalid.
  { do 3 eexists. split; [reflexivity|]. right. by split. }
  unfold mbind at 1, M_bind at 1. rewrite generateSpeech_run.
  destruct (synthesizeSpeech w (prop req_body "text")) as [audio|e].
  2:{ do 3 eexists. split; [reflexivity|]. right. by split. }
  unfold mbind at 1, M_bind at 1. rewrite uploadToGCS_run.
  destruct (save_rejects w _) as [e|].
  { do 3 eexists. split; [reflexivity|]. right. by split. }
  unfold mbind at 1, M_bind at 1.
  match goal with |- context [Soundboard_create w ?v ?s] =>
    destruct (Soundboard_create_cases w v s) as [(e & evs & ->) | ->]
  end.
  { do 3 eexists. split; [reflexivity|]. right. by split. }
  destruct (created_dataValues (prop req_body "text") (prop req_body "title")
      (prop req_body "email") (VString (Uuid.uuidv4 (id_rnds w)))
      (VDate (now w)) (VDate (now w))
      ("https://storage.googleapis.com/" +:+ GCP_BUCKET_NAME w +:+ "/" +:+
         Uuid.uuidv4 (file_rnds w) +:+ ".mp3")
      (Uuid.uuidv4 (file_rnds w) +:+ ".mp3")) as (Ht & Hu & Hf & He & Htitle).
  do 3 eexists. split; [reflexivity|]. left. split; [reflexivity|]. split.
  - cbn [Soundboards set_Soundboards set_objects].
    unfold Soundboard_row, created_row. rewrite Ht, Hu, Hf, He.
    unfold prop. by rewrite lookup_insert_eq.
  - eexists. split; [|exact Htitle]. clear.
    cbn [body res_status_json]. by simplify_map_eq.
Qed.

(** ** [GET /soundboards/:email] *)

#[global] Instance newest_first_total : Total newest_first.
Proof. intros a b. unfold newest_first. lia. Qed.

#[global] Instance newest_first_trans : Transitive newest_first.
Proof. intros a b c. unfold newest_first. lia. Qed.

Lemma listing_permutation email st : listing email st ≡ₚ owned_by email st.
Proof. apply merge_sort_Permutation. Qed.

Lemma listing_sorted email st : StronglySorted newest_first (listing email st).
Proof. apply StronglySorted_merge_sort; apply _. Qed.

Lemma listing_nil email st : listing email st = [] ↔ owned_by email st = [].
Proof.
  split; intros H.
  - apply Permutation_nil_r. by rewrite <- listing_permutation, H.
  - apply Permutation_nil_r. by rewrite listing_permutation, H.
Qed.

Lemma Soundboard_findAll_run w email st :
  Soundboard_findAll w email st =
    match query_rejects w SoundboardFindAll with
    | Some error => (Throw error, st, [Query SoundboardFindAll])
    | None => (Return (listing email st), st, [Query SoundboardFindAll])
    end.
Proof.
  unfold Soundboard_findAll, mbind, M_bind. rewrite query_run.
  by destruct (query_rejects w SoundboardFindAll).
Qed.

(** The callback never rejects: a failed check is answered with [false]. *)
Lemma validate_soundboard_run w i r st :
  validate_soundboard w i r st =
    (Return (enriched w st i r), st, [FileExists (object_key r)]).
Proof.
  unfold validate_soundboard, try_catch, mbind, M_bind. rewrite file_exists_run.
  unfold enriched, fileExists_flag, object_key.
  by destruct (exists_rejects w i).
Qed.

Lemma Promise_all_imap {A B : Type} (f : nat → A → M B) (g : nat → A → B)
    (ev : nat → A → Event) (l : list A) (st : State) :
  (∀ i a, f i a st = (Return (g i a), st, [ev i a])) →
  Promise_all (imap f l) st = (Return (imap g l), st, imap ev l).
Proof.
  revert f g ev. induction l as [|a l IH]; intros f g ev Hf; [reflexivity|].
  rewrite !imap_cons. simpl. rewrite Hf.
  rewrite (IH (f ∘ S) (g ∘ S) (ev ∘ S)) by (intros i b; apply Hf).
  reflexivity.
Qed.

(** The three answers of the listing. *)
Lemma get_soundboards_email_run w email st :
  get_soundboards_email w email st =
    match query_rejects w SoundboardFindAll with
    | Some error =>
        (Return (res_status_json 500
           {[ "success" := VBool false;
              "error" := VString "Failed to fetch soundboards" ]}),
         st, [Query SoundboardFindAll])
    | None =>
        match listing email st with
        | [] =>
            (Return (res_status_json 404
               {[ "success" := VBool false;
                  "message" := VString "No soundboards found for this email" ]}),
             st, [Query SoundboardFindAll])
        | rows =>
            (Return (res_json
               {[ "success" := VBool true;
                  "message" := VString "Soundboards retrieved successfully";
                  "data" := VArray (VObject <$> imap (enriched w st) rows) ]}),
             st,
             Query SoundboardFindAll :: imap (λ _ r, FileExists (object_key r)) rows)
        end
    end.
Proof.
  unfold get_soundboards_email, try_catch.
  unfold mbind at 1, M_bind at 1. rewrite Soundboard_findAll_run.
  destruct (query_rejects w SoundboardFindAll); [reflexivity|].
  destruct (listing email st) as [|r rows] eqn:Hrows; [reflexivity|].
  change (length (r :: rows) =? 0)%nat with false. cbv iota.
  unfold mbind, M_bind.
  rewrite (Promise_all_imap (validate_soundboard w) (enriched w st)
             (λ _ r, FileExists (object_key r)))
    by (intros; apply validate_soundboard_run).
  unfold mret, M_ret. cbv beta iota. by rewrite app_nil_r.
Qed.

(** ** [DELETE /soundboards/:id] *)

Lemma Soundboard_findByPk_run w id st :
  Soundboard_findByPk w id st =
    match query_rejects w SoundboardFindByPk with
    | Some error => (Throw error, st, [Query SoundboardFindByPk])
    | None =>
        (Return (List.find (λ r, String.eqb (Soundboard.id r) id) (Soundboards st)),
         st, [Query SoundboardFindByPk])
    end.
Proof.
  unfold Soundboard_findByPk, mbind, M_bind. rewrite query_run.
  by destruct (query_rejects w SoundboardFindByPk).
Qed.

Lemma Soundboard_destroy_run w soundboard st :
  Soundboard_destroy w soundboard st =
    match query_rejects w SoundboardDestroy with
    | Some error => (Throw error, st, [Query SoundboardDestroy])
    | None =>
        (Return tt,
         set_Soundboards
           (filter (λ r, Soundboard.id r ≠ Soundboard.id soundboard) (Soundboards st)) st,
         [Query SoundboardDestroy])
    end.
Proof.
  unfold Soundboard_destroy, mbind, M_bind. rewrite query_run.
  by destruct (query_rejects w SoundboardDestroy).
Qed.

(** The storage delete is best effort: whatever it does, the handler goes
    on. *)
Lemma best_effort_delete_run w name st :
  try_catch (file_delete w name) (λ _, mret tt) st =
    (Return tt, after_file_delete w name st, [FileDelete name]).
Proof.
  unfold try_catch, file_delete, after_file_delete, mbind, M_bind, emit.
  cbv beta iota.
  destruct (delete_rejects w name); [reflexivity|].
  unfold get_state. cbv beta iota.
  by destruct (objects st !! name).
Qed.

Lemma after_file_delete_Soundboards w name st :
  Soundboards (after_file_delete w name st) = Soundboards st.
Proof.
  unfold after_file_delete.
  by destruct (delete_rejects w name), (objects st !! name).
Qed.

(** The answers of the deletion when the lookup is answered. *)
Lemma delete_soundboards_id_run w id st :
  query_rejects w SoundboardFindByPk = None →
  delete_soundboards_id w id st =
    match List.find (λ r, String.eqb (Soundboard.id r) id) (Soundboards st) with
    | None =>
        (Return (res_status_json 404
           {[ "success" := VBool false;
              "message" := VString "Soundboard not found" ]}),
         st, [Query SoundboardFindByPk])
    | Some soundboard =>
        let st1 := after_file_delete w (object_key soundboard) st in
        match query_rejects w SoundboardDestroy with
        | Some error =>
            (Return (res_status_json 500
               {[ "success" := VBool false;
                  "error" := VString "Failed to delete soundboard" ]}),
             st1,
             [Query SoundboardFindByPk; FileDelete (object_key soundboard);
              Query SoundboardDestroy])
        | None =>
            (Return (res_json
               {[ "success" := VBool true;
                  "message" := VString "Soundboard deleted successfully" ]}),
             set_Soundboards
               (filter (λ r, Soundboard.id r ≠ Soundboard.id soundboard)
                  (Soundboards st1)) st1,
             [Query SoundboardFindByPk; FileDelete (object_key soundboard);
              Query SoundboardDestroy])
        end
    end.
Proof.
  intros Hq. unfold delete_soundboards_id. unfold try_catch at 1.
  unfold mbind at 1, M_bind at 1. rewrite Soundboard_findByPk_run, Hq.
  destruct (List.find _ _) as [soundboard|]; [|reflexivity].
  cbv zeta. fold (object_key soundboard).
  unfold mbind at 1, M_bind at 1. rewrite best_effort_delete_run.
  unfold mbind at 1, M_bind at 1. rewrite Soundboard_destroy_run.
  by destruct (query_rejects w SoundboardDestroy).
Qed.

(** When the lookup itself rejects, the answer is 500 and nothing changes. *)
Lemma delete_soundboards_id_lookup_fails w id st error :
  query_rejects w SoundboardFindByPk = Some error →
  delete_soundboards_id w id st =
    (Return (res_status_json 500
       {[ "success" := VBool false;
          "error" := VString "Failed to delete soundboard" ]}),
     st, [Query SoundboardFindByPk]).
Proof.
  intros Hq. unfold delete_soundboards_id, try_catch.
  unfold mbind at 1, M_bind at 1. by rewrite Soundboard_findByPk_run, Hq.
Qed.

Lemma find_by_id_None id (rows : list Soundboard.row) :
  List.find (λ r, String.eqb (Soundboard.id r) id) rows = None ↔
  ∀ r, r ∈ rows → Soundboard.id r ≠ id.
Proof.
  split.
  - intros H r Hr%list_elem_of_In.
    apply (find_none _ _ H) in Hr. by apply String.eqb_neq.
  - intros H. induction rows as [|r rows IH]; [reflexivity|]. simpl.
    destruct (String.eqb_spec (Soundboard.id r) id) as [Heq|_].
    + destruct (H r); [left|done].
    + apply IH. intros r' Hr'. apply H. by right.
Qed.

Lemma find_by_id_Some id (rows : list Soundboard.row) r :
  List.find (λ r, String.eqb (Soundboard.id r) id) rows = Some r →
  r ∈ rows ∧ Soundboard.id r = id.
Proof.
  intros [Hin Heq]%find_some. split; [by apply list_elem_of_In|].
  by apply String.eqb_eq.
Qed.

(** ** The history routes *)

(** Nothing in [app.js] declares [History]. *)
Lemma History_is_not_defined : resolve "History" = Throw "History is not defined".
Proof. reflexivity. Qed.

Lemma get_history_id_run w id st :
  get_history_id w id st =
    (Return (error_middleware "History is not defined"), st, []).
Proof. reflexivity. Qed.

Lemma delete_history_id_run w id st :
  delete_history_id w id st =
    (Return (error_middleware "History is not defined"), st, []).
Proof. reflexivity. Qed.

Lemma post_history_Soundboards w req_body st :
  Soundboards (state_after (post_history w req_body) st) = Soundboards st.
Proof.
  unfold state_after, post_history, try_catch.
  destruct (_ || _); [reflexivity|].
  unfold mbind at 1, M_bind at 1. rewrite sequelize_query_run.
  destruct (SqlString.invalid_among _); [reflexivity|].
  by destruct (query_rejects w HistoryInsert).
Qed.

Lemma get_history_state w st : state_after (get_history w) st = st.
Proof.
  unfold state_after, get_history, try_catch.
  unfold mbind at 1, M_bind at 1. rewrite query_run.
  destruct (query_rejects w HistorySelect); [reflexivity|].
  unfold mbind, M_bind, get_state. cbv beta iota.
  by destruct (length _ =? 0)%nat.
Qed.

(** ** [POST /feedback] *)

Lemma feedback_insert_run w comment rating st :
  feedback_insert w comment rating st =
    match SqlString.invalid_among [comment; rating] with
    | Some bad => (Throw ("Invalid value " +:+ inspect w bad), st, [])
    | None =>
        match query_rejects w FeedbackInsert with
        | Some error => (Throw error, st, [Query FeedbackInsert])
        | None =>
            (Return (insertId w),
             set_feedback
               (feedback st ++
                [ {| Feedback.id := insertId w; Feedback.comment := comment;
                     Feedback.rating := rating |} ]) st,
             [Query FeedbackInsert])
        end
    end.
Proof.
  unfold feedback_insert, mbind, M_bind. rewrite sequelize_query_run.
  destruct (SqlString.invalid_among _); [reflexivity|].
  by destruct (query_rejects w FeedbackInsert).
Qed.

(** Every answer of the handler, by the tests it makes in turn. *)
Lemma post_feedback_run w req_body st :
  let comment := prop req_body "comment" in
  let rating := prop req_body "rating" in
  post_feedback w req_body st =
    if Js.not comment || Js.not rating then
      (Return (res_status_json 400
         {[ "success" := VBool false; "message" := VString "Rating harus diisi" ]}),
       st, [])
    else
      match ToNumber rating with
      | Throw error =>
          (Return (res_status_json 500
             {[ "success" := VBool false; "message" := VString error ]}), st, [])
      | Return x =>
          if SFltb x (of_Z 1) || SFltb (of_Z 4) x then
            (Return (res_status_json 400
               {[ "success" := VBool false;
                  "message" := VString "Rating harus antara 1-4" ]}), st, [])
          else
            match SqlString.invalid_among [comment; rating] with
            | Some bad =>
                (Return (res_status_json 500
                   {[ "success" := VBool false;
                      "message" := VString ("Invalid value " +:+ inspect w bad) ]}),
                 st, [])
            | None =>
                match query_rejects w FeedbackInsert with
                | Some error =>
                    (Return (res_status_json 500
                       {[ "success" := VBool false; "message" := VString error ]}),
                     st, [Query FeedbackInsert])
                | None =>
                    (Return (res_status_json 201
                       {[ "success" := VBool true;
                          "data" := VObject
                            {[ "id" := VNumber (of_Z (insertId w));
                               "comment" := comment;
                               "rating" := rating ]} ]}),
                     set_feedback
                       (feedback st ++
                        [ {| Feedback.id := insertId w; Feedback.comment := comment;
                             Feedback.rating := rating |} ]) st,
                     [Query FeedbackInsert])
                end
            end
      end.
Proof.
  intros comment rating. unfold post_feedback, try_catch.
  fold comment. fold rating.
  destruct (Js.not comment || Js.not rating); [reflexivity|].
  unfold mbind at 1, M_bind at 1, lift, Js.lt, Js.gt.
  destruct (ToNumber rating) as [x|error]; [|reflexivity].
  destruct (SFltb x (of_Z 1)).
  { reflexivity. }
  unfold mbind at 1, M_bind at 1.
  destruct (SFltb (of_Z 4) x).
  { reflexivity. }
  unfold mbind at 1, M_bind at 1. rewrite feedback_insert_run.
  destruct (SqlString.invalid_among _); [reflexivity|].
  by destruct (query_rejects w FeedbackInsert).
Qed.

Lemma post_feedback_Soundboards w req_body st :
  Soundboards (state_after (post_feedback w req_body) st) = Soundboards st.
Proof.
  unfold state_after. rewrite post_feedback_run.
  destruct (_ || _); [reflexivity|].
  destruct (ToNumber _); [|reflexivity].
  destruct (_ || _); [reflexivity|].
  destruct (SqlString.invalid_among _); [reflexivity|].
  by destruct (query_rejects w FeedbackInsert).
Qed.

(** ** [POST /report] *)

Lemma post_report_Soundboards w req_body st :
  Soundboards (state_after (post_report w req_body) st) = Soundboards st.
Proof.
  unfold state_after, post_report, try_catch.
  destruct (Js.not _); [reflexivity|].
  unfold mbind at 1, M_bind at 1, Report_create.
  unfold mbind at 1, M_bind at 1, lift.
  destruct (validate_text "Report" "comment" _); [|reflexivity].
  unfold mbind at 1, M_bind at 1. rewrite query_run.
  destruct (query_rejects w ReportCreate); [reflexivity|].
  unfold mbind, M_bind, get_state. cbv beta iota.
  by destruct (bool_decide _).
Qed.

(** ** The rows of the Soundboard table *)

Lemma append_assoc (a b c : string) : (a +:+ b) +:+ c = a +:+ (b +:+ c).
Proof.
  induction a as [|x a IH]; [done|].
  change (String x ((a +:+ b) +:+ c) = String x (a +:+ (b +:+ c))).
  by rewrite IH.
Qed.

Lemma created_row_consistent w req_body : consistent (created_row w req_body).
Proof.
  split.
  - unfold created_row. cbn [Soundboard.audioUrl Soundboard.fileName].
    rewrite <- append_assoc. apply pop_split_path, mp3_name_no_slash.
  - by exists (GCP_BUCKET_NAME w), (file_rnds w).
Qed.

Lemma delete_soundboards_id_rows w id st r :
  r ∈ Soundboards (state_after (delete_soundboards_id w id) st) →
  r ∈ Soundboards st.
Proof.
  unfold state_after.
  destruct (query_rejects w SoundboardFindByPk) as [error|] eqn:Hq.
  { by rewrite (delete_soundboards_id_lookup_fails _ _ _ _ Hq). }
  rewrite (delete_soundboards_id_run _ _ _ Hq).
  destruct (List.find _ _) as [soundboard|]; [|done].
  cbv zeta. destruct (query_rejects w SoundboardDestroy); cbn [fst snd].
  - by rewrite after_file_delete_Soundboards.
  - cbn [Soundboards set_Soundboards]. rewrite after_file_delete_Soundboards.
    by intros [_ ?]%list_elem_of_filter.
Qed.

(** A route only ever adds the row of a successful [POST /soundboards]. *)
Lemma route_rows w req st r :
  r ∈ Soundboards (state_after (route w req) st) →
  r ∈ Soundboards st ∨
  ∃ req_body, req = POST_soundboards req_body ∧ r = created_row w req_body.
Proof.
  destruct req as [req_body|email|id|req_body| |id|id|req_body|req_body];
    cbn [route].
  - unfold state_after.
    destruct (post_soundboards_cases w req_body st)
      as (resp & st' & evs & -> & Hcases); cbn [fst snd].
    destruct Hcases as [(_ & -> & _) | (_ & ->)].
    + intros [?|Hr%list_elem_of_singleton]%elem_of_app; [by left|].
      right. by exists req_body.
    + by left.
  - unfold state_after. rewrite get_soundboards_email_run.
    destruct (query_rejects w SoundboardFindAll); [by left|].
    destruct (listing email st); by left.
  - intros ?%delete_soundboards_id_rows. by left.
  - rewrite post_history_Soundboards. by left.
  - rewrite get_history_state. by left.
  - unfold state_after. rewrite get_history_id_run. by left.
  - unfold state_after. rewrite delete_history_id_run. by left.
  - rewrite post_feedback_Soundboards. by left.
  - rewrite post_report_Soundboards. by left.
Qed.

(** Every operation preserves the consistency of the rows. *)
Lemma step_consistent st st' :
  step st st' → Forall consistent (Soundboards st) → Forall consistent (Soundboards st').
Proof.
  intros [w req st0 | st0 st1 Heq] Hall.
  - apply Forall_forall. intros r [Hr | (req_body & _ & ->)]%route_rows.
    + by apply (proj1 (Forall_forall _ _) Hall).
    + apply created_row_consistent.
  - by rewrite Heq.
Qed.

Lemma reachable_consistent st : reachable st → Forall consistent (Soundboards st).
Proof.
  induction 1 as [|st st' _ IH Hstep]; [constructor|].
  by apply (step_consistent st st').
Qed.

(** ** The claims *)

Lemma absent_or_empty_falsy v : absent_or_empty v → Js.not v = true.
Proof. by intros [-> | [-> | ->]]. Qed.

(** C8. A creation request whose [title], [text] or [email] is missing,
    [null] or the empty string is answered 400 with the validation message,
    and nothing else happens: the state is the one before, and no call left
    the process (no synthesis, no upload, no insert). *)
Theorem create_rejects_missing_fields w st req_body :
  absent_or_empty (prop req_body "title") ∨
  absent_or_empty (prop req_body "text") ∨
  absent_or_empty (prop req_body "email") →
  post_soundboards w req_body st =
    (Return (res_status_json 400
       {[ "error" := VString "Title, text, and email are required" ]}),
     st, []).
Proof.
  intros H. unfold post_soundboards, try_catch.
  assert (Js.not (prop req_body "title") || Js.not (prop req_body "text")
          || Js.not (prop req_body "email") = true) as ->; [|reflexivity].
  destruct H as [H | [H | H]]; apply absent_or_empty_falsy in H; rewrite H;
    by rewrite ?orb_true_r.
Qed.

(** C1. When the request passes validation and the speech synthesis fails,
    the answer is the generic 500, the state is unchanged (so the table has
    the rows it had, and the bucket the objects it had), and the synthesis is
    the only call made: nothing was uploaded and nothing inserted. *)
Theorem create_synthesis_failure w st req_body message :
  ToBoolean (prop req_body "title") = true →
  ToBoolean (prop req_body "text") = true →
  ToBoolean (prop req_body "email") = true →
  synthesizeSpeech w (prop req_body "text") = Throw message →
  post_soundboards w req_body st =
    (Return (res_status_json 500
       {[ "success" := VBool false;
          "error" := VString "Failed to create soundboard" ]}),
     st, [SynthesizeSpeech (prop req_body "text")]).
Proof.
  intros Htitle Htext Hemail Hsynth. unfold post_soundboards, try_catch, Js.not.
  rewrite Htitle, Htext, Hemail. cbn [negb orb].
  unfold mbind at 1, M_bind at 1. by rewrite generateSpeech_run, Hsynth.
Qed.

(** C2. For an owner without rows the listing never succeeds: when the
    database answers, the response is 404 and nothing changed; it is never a
    200 with an empty list. *)
Theorem list_empty_is_not_found w st email :
  owned_by email st = [] →
  (query_rejects w SoundboardFindAll = None →
   get_soundboards_email w email st =
     (Return (res_status_json 404
        {[ "success" := VBool false;
           "message" := VString "No soundboards found for this email" ]}),
      st, [Query SoundboardFindAll])) ∧
  (∀ r, answer (get_soundboards_email w email) st = Return r → status r ≠ 200).
Proof.
  intros Hnone%listing_nil. unfold answer.
  rewrite get_soundboards_email_run, Hnone.
  destruct (query_rejects w SoundboardFindAll).
  - split; [done|]. by intros r [= <-].
  - split; [done|]. by intros r [= <-].
Qed.

Lemma Forall2_imap_l {A B : Type} (P : B → A → Prop) (g : nat → A → B) (l : list A) :
  (∀ i a, P (g i a) a) → Forall2 P (imap g l) l.
Proof.
  revert g. induction l as [|a l IH]; intros g Hg; [constructor|].
  rewrite imap_cons. constructor; [apply Hg|]. apply IH. intros i b. apply Hg.
Qed.

(** C3. When the listing finds rows, it answers 200 with one item per row and
    changes nothing, whatever the existence checks do. The item of a row is
    the row with a [fileExists] flag that is [false] when the check of that
    row rejected, and that otherwise tells whether the bucket holds the
    object of that row: no flag depends on the check of another row. *)
Theorem list_contains_check_failures w st email :
  query_rejects w SoundboardFindAll = None →
  owned_by email st ≠ [] →
  ∃ r items,
    answer (get_soundboards_email w email) st = Return r ∧
    status r = 200 ∧
    data_items r = Some items ∧
    state_after (get_soundboards_email w email) st = st ∧
    length items = length (listing email st) ∧
    ∀ i row, listing email st !! i = Some row →
      ∃ flag,
        items !! i = Some (VObject (<["fileExists" := VBool flag]> (Soundboard.toJSON row))) ∧
        (is_Some (exists_rejects w i) → flag = false) ∧
        (exists_rejects w i = None →
         flag = bool_decide (is_Some (objects st !! object_key row))).
Proof.
  intros Hq Hrows. unfold answer, state_after.
  rewrite get_soundboards_email_run, Hq.
  destruct (listing email st) as [|row0 rows] eqn:Hlisting.
  { by apply listing_nil in Hlisting. }
  eexists. exists (VObject <$> imap (enriched w st) (row0 :: rows)).
  split; [reflexivity|]. split; [reflexivity|]. split; [reflexivity|].
  split; [reflexivity|]. split; [by rewrite length_fmap, length_imap|].
  intros i row Hi. exists (fileExists_flag w st i row).
  rewrite list_lookup_fmap, list_lookup_imap, Hi. split; [reflexivity|].
  unfold fileExists_flag. split.
  - by intros [e ->].
  - by intros ->.
Qed.

(** C9. When the database answers, the listing is about exactly the rows of
    the owner: there is an arrangement of these rows, newest first, such that
    the response is 404 when there is none, and otherwise 200 with the items
    of these rows in that same order, each the row plus its [fileExists]
    flag. *)
Theorem list_owner_rows_newest_first w st email :
  query_rejects w SoundboardFindAll = None →
  ∃ rows,
    rows ≡ₚ owned_by email st ∧
    StronglySorted newest_first rows ∧
    ∃ r, answer (get_soundboards_email w email) st = Return r ∧
      match rows with
      | [] => status r = 404
      | _ =>
          status r = 200 ∧
          ∃ items, data_items r = Some items ∧
            Forall2 (λ item row, ∃ flag,
                       item = VObject (<["fileExists" := VBool flag]>
                                         (Soundboard.toJSON row)))
                    items rows
      end.
Proof.
  intros Hq. exists (listing email st).
  split; [apply listing_permutation|]. split; [apply listing_sorted|].
  unfold answer. rewrite get_soundboards_email_run, Hq.
  destruct (listing email st) as [|row0 rows].
  { eexists. split; reflexivity. }
  eexists. split; [reflexivity|]. split; [reflexivity|].
  eexists. split; [reflexivity|].
  apply Forall2_fmap_l, Forall2_imap_l. intros i row.
  by exists (fileExists_flag w st i row).
Qed.

(** C4. When the lookup is answered: for an id no row has, the deletion
    answers 404 and leaves the state as it was; for the id of a row, and
    whatever the storage delete does (it is attempted, and may reject or find
    no object), the row is deleted: the answer is 200 and the table keeps
    exactly the rows with another id. *)
Theorem delete_not_found_or_removed w st id :
  query_rejects w SoundboardFindByPk = None →
  ((∀ row, row ∈ Soundboards st → Soundboard.id row ≠ id) →
   ∃ r, delete_soundboards_id w id st = (Return r, st, [Query SoundboardFindByPk]) ∧
        status r = 404) ∧
  (∀ row, row ∈ Soundboards st → Soundboard.id row = id →
   query_rejects w SoundboardDestroy = None →
   ∃ r soundboard,
     answer (delete_soundboards_id w id) st = Return r ∧ status r = 200 ∧
     Soundboard.id soundboard = id ∧
     calls (delete_soundboards_id w id) st =
       [Query SoundboardFindByPk; FileDelete (object_key soundboard);
        Query SoundboardDestroy] ∧
     ∀ row', row' ∈ Soundboards (state_after (delete_soundboards_id w id) st) ↔
             row' ∈ Soundboards st ∧ Soundboard.id row' ≠ id).
Proof.
  intros Hq. split.
  - intros Hnone%find_by_id_None.
    rewrite (delete_soundboards_id_run _ _ _ Hq), Hnone. by eexists.
  - intros row Hrow Hid Hdestroy. unfold answer, calls, state_after.
    rewrite (delete_soundboards_id_run _ _ _ Hq).
    destruct (List.find _ _) as [soundboard|] eqn:Hfind.
    2:{ by destruct (proj1 (find_by_id_None _ _) Hfind row Hrow). }
    apply find_by_id_Some in Hfind as [_ Hsid].
    cbv zeta. rewrite Hdestroy. cbn [fst snd].
    eexists. exists soundboard.
    split; [reflexivity|]. split; [reflexivity|]. split; [done|].
    split; [reflexivity|]. intros row'.
    cbn [Soundboards set_Soundboards].
    rewrite list_elem_of_filter, after_file_delete_Soundboards, Hsid. tauto.
Qed.

(** C5. In every state the service can reach, each Soundboard row is
    consistent: its [fileName] is [<uuid>.mp3], its [audioUrl] is
    [https://storage.googleapis.com/<bucket>/<fileName>], and the last path
    segment of the [audioUrl], which is the object name the listing and the
    deletion derive, is the [fileName]. Rows are only created by
    [POST /soundboards], and every step of the service keeps the property
    ([step_consistent]). *)
Theorem rows_stay_consistent st :
  reachable st →
  ∀ row, row ∈ Soundboards st →
    consistent row ∧ object_key row = Soundboard.fileName row.
Proof.
  intros Hreach row Hrow.
  pose proof (proj1 (Forall_forall _ _) (reachable_consistent st Hreach) row Hrow)
    as Hrow_ok.
  split; [exact Hrow_ok|]. exact (proj1 Hrow_ok).
Qed.

Lemma toJSON_no_title row : Soundboard.toJSON row !! "title" = None.
Proof. reflexivity. Qed.

Lemma title_is_no_attribute : "title" ∉ Soundboard.attributes.
Proof.
  unfold Soundboard.attributes. intros H.
  repeat (apply elem_of_cons in H as [H|H]; [discriminate|]).
  by apply elem_of_nil in H.
Qed.

Lemma data_items_listing (success message : value) (items : list value) :
  data_items (res_json {[ "success" := success; "message" := message;
                          "data" := VArray items ]}) = Some items.
Proof. reflexivity. Qed.

Lemma enriched_no_title w st (rows : list Soundboard.row) item :
  item ∈ VObject <$> imap (enriched w st) rows →
  ∃ fields, item = VObject fields ∧ fields !! "title" = None.
Proof.
  intros (fields & -> & Hfields)%list_elem_of_fmap.
  exists fields. split; [reflexivity|].
  apply list_elem_of_lookup in Hfields as [i Hi].
  rewrite list_lookup_imap in Hi.
  destruct (rows !! i) as [row|]; [|done].
  injection Hi as <-. unfold enriched.
  by rewrite lookup_insert_ne.
Qed.

(** C6. After a successful creation the title is gone: [title] is no
    attribute of the model, the instance sent back as [data] has no [title],
    the one row added to the table has none, and no item of any listing, in
    any state, has one. *)
Theorem create_discards_title w st req_body r :
  answer (post_soundboards w req_body) st = Return r →
  status r = 201 →
  ("title" ∉ Soundboard.attributes) ∧
  (∃ instance, body r !! "data" = Some (VObject instance) ∧
               instance !! "title" = None) ∧
  (∃ row, Soundboards (state_after (post_soundboards w req_body) st)
            = Soundboards st ++ [row] ∧
          Soundboard.toJSON row !! "title" = None) ∧
  (∀ w' st' email r' items,
     answer (get_soundboards_email w' email) st' = Return r' →
     data_items r' = Some items →
     ∀ item, item ∈ items → ∃ fields, item = VObject fields ∧ fields !! "title" = None).
Proof.
  unfold answer, state_after.
  destruct (post_soundboards_cases w req_body st)
    as (r0 & st0 & evs & -> & Hcases). cbn [fst snd].
  intros [= ->] Hstatus.
  destruct Hcases as [(_ & Hrows & Hdata) | (Hne & _)]; [|done].
  split; [apply title_is_no_attribute|]. split; [exact Hdata|].
  split; [by exists (created_row w req_body)|].
  intros w' st' email r' items. rewrite get_soundboards_email_run.
  destruct (query_rejects w' SoundboardFindAll); [by intros [= <-]|].
  destruct (listing email st') as [|row0 rows]; [by intros [= <-]|].
  intros [= <-]. rewrite data_items_listing. intros Hitems.
  assert (items = VObject <$> imap (enriched w' st') (row0 :: rows)) as ->
    by (symmetry; apply (inj Some); exact Hitems).
  apply enriched_no_title.
Qed.

(** C7. [GET /history/:id] answers 500 for every id and in every state,
    whether or not the history table has a row with that id: reading the
    undeclared identifier [History] throws, and the error middleware answers.
    The handler never gets to its 404 or to its 200. *)
Theorem get_history_id_is_not_defined w st id :
  ∃ r, get_history_id w id st = (Return r, st, []) ∧
       status r = 500 ∧
       body r !! "message" = Some (VString "History is not defined").
Proof. eexists. split; [apply get_history_id_run|]. by split. Qed.

(** What the range check does for numbers. For a truthy comment that can be
    written into the statement and a rating that is a number, the answer is
    400 exactly when the number is outside of the interval from 1 to 4. A
    rejected request changes nothing; a number in the interval is stored and
    answered 201 when the insert succeeds. 0 and 5 are outside, 1 and 4
    inside. *)
Lemma feedback_numeric_rating_range w st req_body x :
  ToBoolean (prop req_body "comment") = true →
  SqlString.invalid (prop req_body "comment") = None →
  prop req_body "rating" = VNumber x →
  (in_1_4 (of_Z 0) = false ∧ in_1_4 (of_Z 5) = false ∧
   in_1_4 (of_Z 1) = true ∧ in_1_4 (of_Z 4) = true) ∧
  ∃ r, answer (post_feedback w req_body) st = Return r ∧
    (status r = 400 ↔ in_1_4 x = false) ∧
    (in_1_4 x = false →
     state_after (post_feedback w req_body) st = st ∧
     calls (post_feedback w req_body) st = []) ∧
    (in_1_4 x = true → query_rejects w FeedbackInsert = None →
     status r = 201 ∧
     feedback (state_after (post_feedback w req_body) st) =
       feedback st ++
       [ {| Feedback.id := insertId w;
            Feedback.comment := prop req_body "comment";
            Feedback.rating := VNumber x |} ]).
Proof.
  intros Hcomment Hvalid Hrating. split; [by repeat split|].
  assert (Js.not (prop req_body "comment") = false) as Hc
    by (unfold Js.not; by rewrite Hcomment).
  unfold answer, state_after, calls. rewrite post_feedback_run, Hrating, Hc.
  cbn [orb ToNumber].
  rewrite <- (number_checks x).
  destruct (Js.not (VNumber x)); cbn [negb andb].
  { eexists. split; [reflexivity|]. by repeat split. }
  destruct (SFltb x (of_Z 1) || SFltb (of_Z 4) x); cbn [negb].
  { eexists. split; [reflexivity|]. by repeat split. }
  cbn [SqlString.invalid_among SqlString.invalid]. rewrite Hvalid.
  destruct (query_rejects w FeedbackInsert) as [error|].
  - eexists. split; [reflexivity|]. by repeat split.
  - eexists. split; [reflexivity|]. by repeat split.
Qed.

(** The rating ["abc"] is not between 1 and 4, and it is accepted: both
    comparisons with its numeric conversion, NaN, are false. *)
Lemma feedback_accepts_non_numeric_rating :
  ToBoolean (prop (rated (VString "abc")) "comment") = true ∧
  rating_in_1_4 (prop (rated (VString "abc")) "rating") = false ∧
  ∃ r, answer (route calm (POST_feedback (rated (VString "abc")))) initial = Return r ∧
       status r = 201 ∧
       feedback (state_after (route calm (POST_feedback (rated (VString "abc")))) initial)
         = [ {| Feedback.id := 1; Feedback.comment := VString "ok";
                Feedback.rating := VString "abc" |} ].
Proof.
  split; [reflexivity|]. split; [reflexivity|].
  eexists. split; [reflexivity|]. split; reflexivity.
Qed.

(** C10. The range check does not hold for a rating given as text. For the
    body with the comment "ok" and the rating "abc", which is not between 1
    and 4, the handler never answers 400, in any world and any state: both
    comparisons with the numeric conversion of the rating, NaN, are false,
    so the INSERT is sent, and the answer is 201 when the database accepts
    it and 500 when it rejects it. *)
Theorem feedback_text_rating_passes_range_check w st :
  rating_in_1_4 (VString "abc") = false ∧
  calls (post_feedback w (rated (VString "abc"))) st = [Query FeedbackInsert] ∧
  ∃ r, answer (post_feedback w (rated (VString "abc"))) st = Return r ∧
       status r ≠ 400 ∧
       (query_rejects w FeedbackInsert = None → status r = 201) ∧
       (is_Some (query_rejects w FeedbackInsert) → status r = 500).
Proof.
  split; [reflexivity|].
  assert (prop (rated (VString "abc")) "comment" = VString "ok") as Hcomment
    by reflexivity.
  assert (prop (rated (VString "abc")) "rating" = VString "abc") as Hrating
    by reflexivity.
  assert (ToNumber (VString "abc") = Return Js.NaN) as Hnan by reflexivity.
  unfold calls, answer. rewrite post_feedback_run. cbv zeta.
  rewrite Hcomment, Hrating, Hnan.
  change (Js.not (VString "ok") || Js.not (VString "abc")) with false.
  change (SFltb Js.NaN (of_Z 1) || SFltb (of_Z 4) Js.NaN) with false.
  cbv iota. cbn [SqlString.invalid_among SqlString.invalid].
  destruct (query_rejects w FeedbackInsert) as [error|].
  - split; [reflexivity|]. eexists. split; [reflexivity|].
    split; [discriminate|]. split; [discriminate|]. reflexivity.
  - split; [reflexivity|]. eexists. split; [reflexivity|].
    split; [discriminate|]. split; [reflexivity|]. by intros [? [=]].
Qed.

(** ** The claims at sample inputs *)

Lemma create_rejects_missing_fields_witness :
  (absent_or_empty (prop untitled "title") ∨
   absent_or_empty (prop untitled "text") ∨
   absent_or_empty (prop untitled "email")) ∧
  post_soundboards calm untitled one_clip =
    (Return (res_status_json 400
       {[ "error" := VString "Title, text, and email are required" ]}),
     one_clip, []).
Proof.
  assert (absent_or_empty (prop untitled "title") ∨
          absent_or_empty (prop untitled "text") ∨
          absent_or_empty (prop untitled "email")) as H
    by (left; left; reflexivity).
  split; [exact H|].
  exact (create_rejects_missing_fields calm one_clip untitled H).
Defined.

Lemma create_synthesis_failure_witness :
  ToBoolean (prop hello "title") = true ∧
  ToBoolean (prop hello "text") = true ∧
  ToBoolean (prop hello "email") = true ∧
  synthesizeSpeech mute (prop hello "text") = Throw "14 UNAVAILABLE" ∧
  post_soundboards mute hello one_clip =
    (Return (res_status_json 500
       {[ "success" := VBool false;
          "error" := VString "Failed to create soundboard" ]}),
     one_clip, [SynthesizeSpeech (prop hello "text")]).
Proof.
  repeat (split; [reflexivity|]).
  apply (create_synthesis_failure mute one_clip hello "14 UNAVAILABLE");
    reflexivity.
Defined.

Lemma list_empty_is_not_found_witness :
  owned_by "b@x.com" one_clip = [] ∧
  (query_rejects calm SoundboardFindAll = None →
   get_soundboards_email calm "b@x.com" one_clip =
     (Return (res_status_json 404
        {[ "success" := VBool false;
           "message" := VString "No soundboards found for this email" ]}),
      one_clip, [Query SoundboardFindAll])) ∧
  (∀ r, answer (get_soundboards_email calm "b@x.com") one_clip = Return r →
        status r ≠ 200).
Proof.
  split; [vm_compute; reflexivity|].
  apply (list_empty_is_not_found calm one_clip "b@x.com").
  vm_compute; reflexivity.
Defined.

Lemma list_contains_check_failures_witness :
  query_rejects stormy SoundboardFindAll = None ∧
  owned_by "a@x.com" two_clips ≠ [] ∧
  ∃ r items,
    answer (get_soundboards_email stormy "a@x.com") two_clips = Return r ∧
    status r = 200 ∧
    data_items r = Some items ∧
    state_after (get_soundboards_email stormy "a@x.com") two_clips = two_clips ∧
    length items = length (listing "a@x.com" two_clips) ∧
    ∀ i row, listing "a@x.com" two_clips !! i = Some row →
      ∃ flag,
        items !! i = Some (VObject (<["fileExists" := VBool flag]> (Soundboard.toJSON row))) ∧
        (is_Some (exists_rejects stormy i) → flag = false) ∧
        (exists_rejects stormy i = None →
         flag = bool_decide (is_Some (objects two_clips !! object_key row))).
Proof.
  split; [reflexivity|]. split; [vm_compute; discriminate|].
  apply (list_contains_check_failures stormy two_clips "a@x.com").
  - reflexivity.
  - vm_compute; discriminate.
Defined.

Lemma list_owner_rows_newest_first_witness :
  query_rejects calm SoundboardFindAll = None ∧
  ∃ rows,
    rows ≡ₚ owned_by "a@x.com" two_clips ∧
    StronglySorted newest_first rows ∧
    ∃ r, answer (get_soundboards_email calm "a@x.com") two_clips = Return r ∧
      match rows with
      | [] => status r = 404
      | _ =>
          status r = 200 ∧
          ∃ items, data_items r = Some items ∧
            Forall2 (λ item row, ∃ flag,
                       item = VObject (<["fileExists" := VBool flag]>
                                         (Soundboard.toJSON row)))
                    items rows
      end.
Proof.
  split; [reflexivity|].
  apply (list_owner_rows_newest_first calm two_clips "a@x.com"). reflexivity.
Defined.

Lemma delete_not_found_or_removed_witness :
  query_rejects stormy SoundboardFindByPk = None ∧
  ((∀ row, row ∈ Soundboards one_clip →
      Soundboard.id row ≠ "64656667-6869-4a6b-ac6d-6e6f70717273") →
   ∃ r, delete_soundboards_id stormy "64656667-6869-4a6b-ac6d-6e6f70717273" one_clip
          = (Return r, one_clip, [Query SoundboardFindByPk]) ∧
        status r = 404) ∧
  (∀ row, row ∈ Soundboards one_clip →
   Soundboard.id row = "64656667-6869-4a6b-ac6d-6e6f70717273" →
   query_rejects stormy SoundboardDestroy = None →
   ∃ r soundboard,
     answer (delete_soundboards_id stormy "64656667-6869-4a6b-ac6d-6e6f70717273")
       one_clip = Return r ∧
     status r = 200 ∧
     Soundboard.id soundboard = "64656667-6869-4a6b-ac6d-6e6f70717273" ∧
     calls (delete_soundboards_id stormy "64656667-6869-4a6b-ac6d-6e6f70717273")
       one_clip =
       [Query SoundboardFindByPk; FileDelete (object_key soundboard);
        Query SoundboardDestroy] ∧
     ∀ row', row' ∈ Soundboards
               (state_after
                  (delete_soundboards_id stormy "64656667-6869-4a6b-ac6d-6e6f70717273")
                  one_clip) ↔
             row' ∈ Soundboards one_clip ∧
             Soundboard.id row' ≠ "64656667-6869-4a6b-ac6d-6e6f70717273").
Proof.
  split; [reflexivity|].
  apply (delete_not_found_or_removed stormy one_clip
           "64656667-6869-4a6b-ac6d-6e6f70717273").
  reflexivity.
Defined.

Lemma rows_stay_consistent_witness :
  reachable two_clips ∧
  ∀ row, row ∈ Soundboards two_clips →
    consistent row ∧ object_key row = Soundboard.fileName row.
Proof.
  assert (reachable two_clips) as H.
  { apply (reachable_step one_clip); [|apply step_route].
    apply (reachable_step initial); [apply reachable_initial|apply step_route]. }
  split; [exact H|]. exact (rows_stay_consistent two_clips H).
Defined.

Lemma create_discards_title_witness :
  ∃ r, answer (post_soundboards calm hello) initial = Return r ∧
       status r = 201 ∧
       ("title" ∉ Soundboard.attributes) ∧
       (∃ instance, body r !! "data" = Some (VObject instance) ∧
                    instance !! "title" = None) ∧
       (∃ row, Soundboards (state_after (post_soundboards calm hello) initial)
                 = Soundboards initial ++ [row] ∧
               Soundboard.toJSON row !! "title" = None) ∧
       (∀ w' st' email r' items,
          answer (get_soundboards_email w' email) st' = Return r' →
          data_items r' = Some items →
          ∀ item, item ∈ items →
            ∃ fields, item = VObject fields ∧ fields !! "title" = None).
Proof.
  eexists. split; [vm_compute; reflexivity|]. split; [reflexivity|].
  apply (create_discards_title calm initial hello); reflexivity.
Defined.

Lemma feedback_numeric_rating_range_witness :
  ToBoolean (prop (rated (VNumber (of_Z 4))) "comment") = true ∧
  prop (rated (VNumber (of_Z 4))) "rating" = VNumber (of_Z 4) ∧
  (in_1_4 (of_Z 0) = false ∧ in_1_4 (of_Z 5) = false ∧
   in_1_4 (of_Z 1) = true ∧ in_1_4 (of_Z 4) = true) ∧
  ∃ r, answer (post_feedback calm (rated (VNumber (of_Z 4)))) initial = Return r ∧
    (status r = 400 ↔ in_1_4 (of_Z 4) = false) ∧
    (in_1_4 (of_Z 4) = false →
     state_after (post_feedback calm (rated (VNumber (of_Z 4)))) initial = initial ∧
     calls (post_feedback calm (rated (VNumber (of_Z 4)))) initial = []) ∧
    (in_1_4 (of_Z 4) = true → query_rejects calm FeedbackInsert = None →
     status r = 201 ∧
     feedback (state_after (post_feedback calm (rated (VNumber (of_Z 4)))) initial) =
       feedback initial ++
       [ {| Feedback.id := insertId calm;
            Feedback.comment := prop (rated (VNumber (of_Z 4))) "comment";
            Feedback.rating := VNumber (of_Z 4) |} ]).
Proof.
  split; [reflexivity|]. split; [reflexivity|].
  apply (feedback_numeric_rating_range calm initial (rated (VNumber (of_Z 4))) (of_Z 4));
    reflexivity.
Defined.

(** ** Runs of the sample requests *)

(** Create, list, delete, list again: 201, 200 with one item whose file
    exists, 200, 404. *)
Example create_list_delete_list :
  ∃ created listed deleted gone items flags,
    answer (route calm (POST_soundboards hello)) initial = Return created ∧
    status created = 201 ∧
    answer (route calm (GET_soundboards_email "a@x.com")) one_clip = Return listed ∧
    status listed = 200 ∧
    data_items listed = Some items ∧
    (λ item, match item with
             | VObject fields => fields !! "fileExists"
             | _ => None
             end) <$> items = flags ∧
    flags = [Some (VBool true)] ∧
    answer (route calm (DELETE_soundboards_id "64656667-6869-4a6b-ac6d-6e6f70717273"))
      one_clip = Return deleted ∧
    status deleted = 200 ∧
    answer (route calm (GET_soundboards_email "a@x.com"))
      (state_after
         (route calm (DELETE_soundboards_id "64656667-6869-4a6b-ac6d-6e6f70717273"))
         one_clip) = Return gone ∧
    status gone = 404.
Proof.
  do 6 eexists.
  repeat (split; [vm_compute; reflexivity|]). vm_compute; reflexivity.
Qed.

(** The newest clip comes first; the check of the first item rejects and
    its flag is [false], the flag of the second is the bucket's answer. *)
Example stormy_listing :
  Soundboard.createdAt <$> listing "a@x.com" two_clips
    = [1730000060000; 1730000000000] ∧
  fileExists_flag stormy two_clips 0 <$> listing "a@x.com" two_clips !! 0%nat
    = Some false ∧
  fileExists_flag stormy two_clips 1 <$> listing "a@x.com" two_clips !! 1%nat
    = Some true.
Proof. repeat split; vm_compute; reflexivity. Qed.

(** A deletion whose storage delete rejects removes the row and leaves the
    object behind. *)
Example stormy_deletion :
  Soundboards (state_after
    (route stormy (DELETE_soundboards_id "64656667-6869-4a6b-ac6d-6e6f70717273"))
    one_clip) = [] ∧
  objects (state_after
    (route stormy (DELETE_soundboards_id "64656667-6869-4a6b-ac6d-6e6f70717273"))
    one_clip) = objects one_clip ∧
  is_Some (objects one_clip !! "00010203-0405-4607-8809-0a0b0c0d0e0f.mp3").
Proof. repeat split; [vm_compute; reflexivity..|by eexists]. Qed.

(** The record [h1] is in the history table and is listed by [GET /history],
    and [GET /history/h1] answers 500; so does the request for an id that no
    record has. *)
Example get_history_id_of_stored_record :
  History.id <$> history one_note = [VString "h1"] ∧
  (∃ r, answer (route calm GET_history) one_note = Return r ∧ status r = 200) ∧
  (∃ r, answer (route calm (GET_history_id "h1")) one_note = Return r ∧
        status r = 500) ∧
  (∃ r, answer (route calm (GET_history_id "h2")) one_note = Return r ∧
        status r = 500).
Proof.
  split; [vm_compute; reflexivity|].
  repeat split; eexists; (split; [vm_compute; reflexivity|reflexivity]).
Qed.

(** For the integers from -1000 to 1000, the interval of the handler is the
    interval of the integers. *)
Example integer_ratings n :
  -1000 ≤ n ≤ 1000 → in_1_4 (of_Z n) = (1 <=? n) && (n <=? 4).
Proof.
  intros Hn.
  assert (forallb (λ k, Bool.eqb (in_1_4 (of_Z k)) ((1 <=? k) && (k <=? 4)))
            (seqZ (-1000) 2001) = true) as Hall by (vm_compute; reflexivity).
  rewrite forallb_forall in Hall.
  apply Bool.eqb_prop, Hall, list_elem_of_In, elem_of_seqZ. lia.
Qed.

(** Ratings sent as text are compared as numbers. *)
Example feedback_text_ratings :
  rating_in_1_4 (VString "3") = true ∧
  rating_in_1_4 (VString " 4.0 ") = true ∧
  rating_in_1_4 (VString "0x5") = false ∧
  rating_in_1_4 (VString "abc") = false ∧
  Js.StringToNumber "abc" = Js.NaN.
Proof. repeat split; vm_compute; reflexivity. Qed.

(** * Further properties of the routes *)

(** ** Creation, step by step *)

Lemma falsy_false v : ToBoolean v = true → Js.not v = false.
Proof. unfold Js.not. by intros ->. Qed.

Lemma truthy_text s : s ≠ "" → ToBoolean (VString s) = true.
Proof.
  intros Hs. cbn. destruct (String.eqb_spec s ""); [done|reflexivity].
Qed.

(** The creation up to the insert. *)
Lemma post_soundboards_run w req_body st :
  post_soundboards w req_body st =
    if Js.not (prop req_body "title") || Js.not (prop req_body "text")
       || Js.not (prop req_body "email") then
      (Return (res_status_json 400
         {[ "error" := VString "Title, text, and email are required" ]}), st, [])
    else
      let failure :=
        res_status_json 500
          {[ "success" := VBool false;
             "error" := VString "Failed to create soundboard" ]} in
      match synthesizeSpeech w (prop req_body "text") with
      | Throw _ => (Return failure, st, [SynthesizeSpeech (prop req_body "text")])
      | Return audio =>
          match save_rejects w (clip_name w) with
          | Some _ =>
              (Return failure, st,
               [SynthesizeSpeech (prop req_body "text"); FileSave (clip_name w)])
          | None =>
              match
                Soundboard_create w
                  {[ "text" := prop req_body "text";
                     "title" := prop req_body "title";
                     "audioUrl" := VString
                       ("https://storage.googleapis.com/" +:+ GCP_BUCKET_NAME w
                        +:+ "/" +:+ clip_name w);
                     "fileName" := VString (clip_name w);
                     "createdByEmail" := prop req_body "email" ]}
                  (set_objects
                     (<[clip_name w := stored audio "audio/mpeg"]> (objects st)) st)
              with
              | (Return soundboard, st', evs) =>
                  (Return (res_status_json 201
                     {[ "success" := VBool true;
                        "message" := VString "Soundboard created successfully";
                        "data" := VObject soundboard ]}),
                   st',
                   [SynthesizeSpeech (prop req_body "text"); FileSave (clip_name w)]
                   ++ evs)
              | (Throw _, st', evs) =>
                  (Return failure, st',
                   [SynthesizeSpeech (prop req_body "text"); FileSave (clip_name w)]
                   ++ evs)
              end
          end
      end.
Proof.
  unfold post_soundboards. unfold try_catch at 1.
  destruct (_ || _); [reflexivity|].
  unfold mbind at 1, M_bind at 1. rewrite generateSpeech_run.
  destruct (synthesizeSpeech w (prop req_body "text")) as [audio|e]; [|reflexivity].
  unfold mbind at 1, M_bind at 1. rewrite uploadToGCS_run. fold (clip_name w).
  destruct (save_rejects w (clip_name w)); [reflexivity|].
  unfold mbind at 1, M_bind at 1. cbv zeta. unfold stored.
  destruct (Soundboard_create w _ _) as [[[soundboard|e] st'] evs].
  - unfold mret, M_ret. cbv beta iota. by rewrite app_nil_r.
  - cbv beta iota. unfold mret, M_ret. by rewrite app_nil_r.
Qed.

(** [Soundboard.create] of what the handler passes, when the texts are
    strings, the statement succeeds and the id is new. *)
Lemma Soundboard_create_ok w st (text email audioUrl fileName : string) title :
  query_rejects w SoundboardCreate = None →
  Uuid.uuidv4 (id_rnds w) ∉ Soundboard.id <$> Soundboards st →
  ∃ instance,
    Soundboard_create w
      {[ "text" := VString text; "title" := title; "audioUrl" := VString audioUrl;
         "fileName" := VString fileName; "createdByEmail" := VString email ]} st =
    (Return instance,
     set_Soundboards
       (Soundboards st ++
        [ {| Soundboard.id := Uuid.uuidv4 (id_rnds w);
             Soundboard.text := text;
             Soundboard.audioUrl := audioUrl;
             Soundboard.fileName := fileName;
             Soundboard.createdByEmail := email;
             Soundboard.createdAt := SqlString.to_second (now w);
             Soundboard.updatedAt := SqlString.to_second (now w) |} ]) st,
     [Query SoundboardCreate]) ∧
    prop instance "id" = VString (Uuid.uuidv4 (id_rnds w)) ∧
    prop instance "text" = VString text ∧
    prop instance "audioUrl" = VString audioUrl ∧
    prop instance "fileName" = VString fileName ∧
    prop instance "createdByEmail" = VString email ∧
    instance !! "title" = None.
Proof.
  intros Hq Hfresh.
  destruct (created_dataValues (VString text) title (VString email)
              (VString (Uuid.uuidv4 (id_rnds w))) (VDate (now w)) (VDate (now w))
              audioUrl fileName) as (Ht & Hu & Hf & He & Htitle).
  eexists. split; [|split; [|repeat split; [exact Ht|exact Hu|exact Hf|exact He|exact Htitle]]].
  - unfold Soundboard_create. unfold mbind, M_bind, lift.
    rewrite Ht, Hu, Hf, He. cbn [validate_text]. rewrite query_run, Hq.
    unfold get_state. cbv beta iota.
    rewrite bool_decide_eq_false_2 by exact Hfresh.
    unfold set_state, mret, M_ret, Soundboard_row. cbv beta iota.
    rewrite Ht, Hu, Hf, He. unfold prop at 1. rewrite lookup_insert_eq.
    reflexivity.
  - unfold prop. by rewrite lookup_insert_eq.
Qed.

(** X1. A creation with a title and non-empty strings as text and email
    succeeds when the speech service returns audio, the bucket takes the
    object, the insert is accepted and the generated id is new: the answer
    is 201, the audio is stored once under [<uuid>.mp3] as [audio/mpeg] with
    the long cache directive, one row is appended that carries the text, the
    owner, the public URL, the object name and the time of the request cut
    to the second, and the three calls are made in the order synthesis,
    upload, insert. *)
Theorem create_succeeds w st req_body text email audio :
  ToBoolean (prop req_body "title") = true →
  prop req_body "text" = VString text → text ≠ "" →
  prop req_body "email" = VString email → email ≠ "" →
  synthesizeSpeech w (VString text) = Return audio →
  save_rejects w (clip_name w) = None →
  query_rejects w SoundboardCreate = None →
  Uuid.uuidv4 (id_rnds w) ∉ Soundboard.id <$> Soundboards st →
  ∃ r instance,
    post_soundboards w req_body st =
      (Return r,
       set_Soundboards
         (Soundboards st ++
          [ {| Soundboard.id := Uuid.uuidv4 (id_rnds w);
               Soundboard.text := text;
               Soundboard.audioUrl :=
                 "https://storage.googleapis.com/" +:+ GCP_BUCKET_NAME w +:+ "/"
                 +:+ clip_name w;
               Soundboard.fileName := clip_name w;
               Soundboard.createdByEmail := email;
               Soundboard.createdAt := SqlString.to_second (now w);
               Soundboard.updatedAt := SqlString.to_second (now w) |} ])
         (set_objects (<[clip_name w := stored audio "audio/mpeg"]> (objects st)) st),
       [SynthesizeSpeech (VString text); FileSave (clip_name w);
        Query SoundboardCreate]) ∧
    status r = 201 ∧
    body r !! "data" = Some (VObject instance) ∧
    prop instance "id" = VString (Uuid.uuidv4 (id_rnds w)) ∧
    prop instance "audioUrl" =
      VString ("https://storage.googleapis.com/" +:+ GCP_BUCKET_NAME w +:+ "/"
               +:+ clip_name w) ∧
    prop instance "createdByEmail" = VString email.
Proof.
  intros Htitle Htext Hne Hemail Hne' Hsynth Hsave Hq Hfresh.
  rewrite post_soundboards_run, Htext, Hemail.
  rewrite (falsy_false _ Htitle), (falsy_false _ (truthy_text _ Hne)),
    (falsy_false _ (truthy_text _ Hne')).
  cbn [orb]. cbv zeta. rewrite Hsynth, Hsave.
  destruct (Soundboard_create_ok w
              (set_objects (<[clip_name w := stored audio "audio/mpeg"]> (objects st)) st)
              text email
              ("https://storage.googleapis.com/" +:+ GCP_BUCKET_NAME w +:+ "/"
               +:+ clip_name w)
              (clip_name w) (prop req_body "title") Hq Hfresh)
    as (instance & -> & Hid & _ & Hurl & _ & Hmail & _).
  eexists. exists instance. split; [reflexivity|].
  split; [reflexivity|]. split; [|by repeat split].
  cbn [body res_status_json]. by simplify_map_eq.
Qed.

(** X2. When the request is valid and the speech service returns audio but
    the bucket rejects the upload, the answer is the generic 500, nothing
    changed, and no statement was sent to the database. *)
Theorem create_upload_failure w st req_body audio error :
  ToBoolean (prop req_body "title") = true →
  ToBoolean (prop req_body "text") = true →
  ToBoolean (prop req_body "email") = true →
  synthesizeSpeech w (prop req_body "text") = Return audio →
  save_rejects w (clip_name w) = Some error →
  post_soundboards w req_body st =
    (Return (res_status_json 500
       {[ "success" := VBool false;
          "error" := VString "Failed to create soundboard" ]}),
     st,
     [SynthesizeSpeech (prop req_body "text"); FileSave (clip_name w)]).
Proof.
  intros Htitle Htext Hemail Hsynth Hsave. rewrite post_soundboards_run.
  rewrite (falsy_false _ Htitle), (falsy_false _ Htext), (falsy_false _ Hemail).
  cbn [orb]. cbv zeta. by rewrite Hsynth, Hsave.
Qed.

(** X3. The upload is not undone: when synthesis and upload succeeded and the
    creation still does not answer 201 (the insert was rejected, the id was
    taken, or the instance did not validate), the answer is the generic 500,
    the table has the rows it had, and the uploaded object stays in the
    bucket with no row naming it. *)
Theorem create_failure_after_upload_keeps_object w st req_body audio r :
  ToBoolean (prop req_body "title") = true →
  ToBoolean (prop req_body "text") = true →
  ToBoolean (prop req_body "email") = true →
  synthesizeSpeech w (prop req_body "text") = Return audio →
  save_rejects w (clip_name w) = None →
  answer (post_soundboards w req_body) st = Return r →
  status r ≠ 201 →
  status r = 500 ∧
  state_after (post_soundboards w req_body) st =
    set_objects (<[clip_name w := stored audio "audio/mpeg"]> (objects st)) st.
Proof.
  intros Htitle Htext Hemail Hsynth Hsave. unfold answer, state_after.
  rewrite post_soundboards_run.
  rewrite (falsy_false _ Htitle), (falsy_false _ Htext), (falsy_false _ Hemail).
  cbn [orb]. cbv zeta. rewrite Hsynth, Hsave.
  match goal with |- context [Soundboard_create w ?v ?s] =>
    destruct (Soundboard_create_cases w v s) as [(e & evs & ->) | ->]
  end; cbn [fst snd].
  - by intros [= <-] _.
  - by intros [= <-] Hne.
Qed.

Lemma created_row_key w req_body :
  object_key (created_row w req_body) = clip_name w.
Proof. exact (proj1 (created_row_consistent w req_body)). Qed.

(** The state a creation answered with 201 leaves. *)
Lemma post_soundboards_201 w st req_body r :
  answer (post_soundboards w req_body) st = Return r →
  status r = 201 →
  ∃ audio,
    state_after (post_soundboards w req_body) st =
      set_Soundboards (Soundboards st ++ [created_row w req_body])
        (set_objects (<[clip_name w := stored audio "audio/mpeg"]> (objects st)) st).
Proof.
  unfold answer, state_after. rewrite post_soundboards_run.
  destruct (_ || _); [by intros [= <-]|]. cbv zeta.
  destruct (synthesizeSpeech w _) as [audio|]; [|by intros [= <-]].
  destruct (save_rejects w _); [by intros [= <-]|].
  match goal with |- context [Soundboard_create w ?v ?s] =>
    destruct (Soundboard_create_cases w v s) as [(e & evs & ->) | ->]
  end; cbn [fst snd]; [by intros [= <-]|].
  intros _ _. exists audio. cbn [Soundboards set_objects].
  destruct (created_dataValues (prop req_body "text") (prop req_body "title")
      (prop req_body "email") (VString (Uuid.uuidv4 (id_rnds w)))
      (VDate (now w)) (VDate (now w))
      ("https://storage.googleapis.com/" +:+ GCP_BUCKET_NAME w +:+ "/" +:+ clip_name w)
      (clip_name w)) as (Ht & Hu & Hf & He & _).
  unfold Soundboard_row, created_row. fold (clip_name w). rewrite Ht, Hu, Hf, He.
  unfold prop. by rewrite lookup_insert_eq.
Qed.

(** X4. A clip that was created is listed: after a creation answered 201
    for an owner given as a string, the listing of that owner, for any
    surroundings in which the query is answered, is a 200 whose data has the
    item of the new row; unless the existence check of that item rejects,
    its [fileExists] is [true]. *)
Theorem created_clip_is_listed w st req_body r email w' :
  answer (post_soundboards w req_body) st = Return r →
  status r = 201 →
  prop req_body "email" = VString email →
  query_rejects w' SoundboardFindAll = None →
  ∃ r' items i flag,
    answer (get_soundboards_email w' email)
      (state_after (post_soundboards w req_body) st) = Return r' ∧
    status r' = 200 ∧
    data_items r' = Some items ∧
    items !! i =
      Some (VObject (<["fileExists" := VBool flag]>
                       (Soundboard.toJSON (created_row w req_body)))) ∧
    (exists_rejects w' i = None → flag = true).
Proof.
  intros Hr H201 Hemail Hq.
  destruct (post_soundboards_201 w st req_body r Hr H201) as [audio Hst].
  set (st' := state_after (post_soundboards w req_body) st) in *.
  assert (created_row w req_body ∈ listing email st') as Hin.
  { rewrite listing_permutation. unfold owned_by. apply list_elem_of_filter.
    split.
    - unfold created_row. cbn [Soundboard.createdByEmail]. by rewrite Hemail.
    - rewrite Hst. cbn [Soundboards set_Soundboards]. apply elem_of_app. right.
      by apply list_elem_of_singleton. }
  apply list_elem_of_lookup in Hin as [i Hi].
  unfold answer. rewrite get_soundboards_email_run, Hq.
  destruct (listing email st') as [|row0 rows] eqn:Hrows; [done|].
  eexists. exists (VObject <$> imap (enriched w' st') (row0 :: rows)), i,
    (fileExists_flag w' st' i (created_row w req_body)).
  split; [reflexivity|]. split; [reflexivity|]. split; [reflexivity|].
  split.
  - by rewrite list_lookup_fmap, list_lookup_imap, Hi.
  - intros Hcheck. unfold fileExists_flag. rewrite Hcheck, created_row_key, Hst.
    cbn [objects set_Soundboards set_objects]. rewrite lookup_insert_eq.
    by apply bool_decide_eq_true_2.
Qed.

(** ** The ids of the rows *)

Lemma Soundboard_create_fresh w values st instance st' evs :
  Soundboard_create w values st = (Return instance, st', evs) →
  Uuid.uuidv4 (id_rnds w) ∉ Soundboard.id <$> Soundboards st.
Proof.
  unfold Soundboard_create. unfold mbind, M_bind, lift.
  destruct (validate_text "Soundboard" "text" _); [|done].
  destruct (validate_text "Soundboard" "audioUrl" _); [|done].
  destruct (validate_text "Soundboard" "fileName" _); [|done].
  destruct (validate_text "Soundboard" "createdByEmail" _); [|done].
  rewrite query_run. destruct (query_rejects w SoundboardCreate); [done|].
  unfold get_state. cbv beta iota.
  destruct (bool_decide _) eqn:Hfresh; [done|].
  intros _. by apply bool_decide_eq_false in Hfresh.
Qed.

(** What a route does to the Soundboard table: nothing, one new row with a
    new id, or the removal of the rows of one id. *)
Lemma route_table w req st :
  let rows := Soundboards st in
  let rows' := Soundboards (state_after (route w req) st) in
  rows' = rows ∨
  (∃ req_body, rows' = rows ++ [created_row w req_body] ∧
               Soundboard.id (created_row w req_body) ∉ Soundboard.id <$> rows) ∨
  (∃ id, rows' = filter (λ r, Soundboard.id r ≠ id) rows).
Proof.
  intros rows rows'. subst rows rows'.
  destruct req as [req_body|email|id|req_body| |id|id|req_body|req_body];
    cbn [route].
  - destruct (post_soundboards_cases w req_body st)
      as (r & st' & evs & Heq & [(H201 & Hrows & _) | (_ & Hrows)]).
    + right. left. exists req_body. unfold state_after. rewrite Heq. cbn [fst snd].
      split; [exact Hrows|].
      assert (answer (post_soundboards w req_body) st = Return r) as Hr
        by (unfold answer; by rewrite Heq).
      clear Heq Hrows. revert Hr H201. unfold answer. rewrite post_soundboards_run.
      destruct (_ || _); [by intros [= <-]|]. cbv zeta.
      destruct (synthesizeSpeech w _); [|by intros [= <-]].
      destruct (save_rejects w _); [by intros [= <-]|].
      destruct (Soundboard_create w _ _) as [[[instance|e] st1] evs1] eqn:Hcreate;
        [|by intros [= <-]].
      intros _ _. by apply Soundboard_create_fresh in Hcreate.
    + left. unfold state_after. by rewrite Heq.
  - left. unfold state_after. rewrite get_soundboards_email_run.
    destruct (query_rejects w SoundboardFindAll); [done|].
    by destruct (listing email st).
  - unfold state_after.
    destruct (query_rejects w SoundboardFindByPk) as [error|] eqn:Hq.
    { left. by rewrite (delete_soundboards_id_lookup_fails _ _ _ _ Hq). }
    rewrite (delete_soundboards_id_run _ _ _ Hq).
    destruct (List.find _ _) as [soundboard|]; [|by left].
    cbv zeta. destruct (query_rejects w SoundboardDestroy); cbn [fst snd].
    + left. apply after_file_delete_Soundboards.
    + right. right. exists (Soundboard.id soundboard).
      cbn [Soundboards set_Soundboards]. by rewrite after_file_delete_Soundboards.
  - left. apply post_history_Soundboards.
  - left. by rewrite get_history_state.
  - left. unfold state_after. by rewrite get_history_id_run.
  - left. unfold state_after. by rewrite delete_history_id_run.
  - left. apply post_feedback_Soundboards.
  - left. apply post_report_Soundboards.
Qed.

Lemma NoDup_fmap_filter {A B : Type} (f : A → B) (P : A → Prop)
    `{!∀ x, Decision (P x)} (l : list A) :
  NoDup (f <$> l) → NoDup (f <$> filter P l).
Proof.
  induction l as [|a l IH]; [done|]. rewrite fmap_cons, NoDup_cons.
  intros [Ha Hl]. destruct (decide (P a)).
  - rewrite filter_cons_True by done. rewrite fmap_cons, NoDup_cons.
    split; [|by apply IH].
    intros (b & Hb & [_ Hin]%list_elem_of_filter)%list_elem_of_fmap.
    apply Ha. apply list_elem_of_fmap. by exists b.
  - rewrite filter_cons_False by done. by apply IH.
Qed.

(** A step keeps the ids of the rows distinct. *)
Lemma step_unique_ids st st' :
  step st st' →
  NoDup (Soundboard.id <$> Soundboards st) →
  NoDup (Soundboard.id <$> Soundboards st').
Proof.
  intros Hstep IH.
  destruct Hstep as [w req st | st st' Heq]; [|by rewrite Heq].
  destruct (route_table w req st)
    as [-> | [(req_body & -> & Hfresh) | (id & ->)]].
  - exact IH.
  - rewrite fmap_app. apply NoDup_app. split; [exact IH|]. split.
    + intros x Hx ->%list_elem_of_singleton. by apply Hfresh.
    + apply NoDup_singleton.
  - by apply NoDup_fmap_filter.
Qed.

Lemma reachable_unique_ids st :
  reachable st → NoDup (Soundboard.id <$> Soundboards st).
Proof.
  induction 1 as [|st st' _ IH Hstep]; [constructor|].
  exact (step_unique_ids st st' Hstep IH).
Qed.

(** X5. The primary key holds: in every state the service reaches, no two
    Soundboard rows have the same id. *)
Theorem ids_stay_unique st :
  reachable st → NoDup (Soundboard.id <$> Soundboards st).
Proof.
  intros Hreach. induction Hreach as [|st st' _ IH Hstep].
  - cbn [initial Soundboards]. constructor.
  - eapply step_unique_ids; [exact Hstep|exact IH].
Qed.

Lemma find_unique_id (rows : list Soundboard.row) row :
  NoDup (Soundboard.id <$> rows) → row ∈ rows →
  List.find (λ r, String.eqb (Soundboard.id r) (Soundboard.id row)) rows = Some row.
Proof.
  induction rows as [|r rows IH]; [by intros _ ?%elem_of_nil|].
  rewrite fmap_cons, NoDup_cons. intros [Hr Hrows] Hin. simpl.
  destruct (String.eqb_spec (Soundboard.id r) (Soundboard.id row)) as [Heq|Hne].
  - apply elem_of_cons in Hin as [->|Hin]; [done|].
    destruct Hr. rewrite Heq. by apply list_elem_of_fmap_2.
  - apply elem_of_cons in Hin as [->|Hin]; [done|]. by apply IH.
Qed.

Lemma length_filter_other_ids (rows : list Soundboard.row) row :
  NoDup (Soundboard.id <$> rows) → row ∈ rows →
  S (length (filter (λ r, Soundboard.id r ≠ Soundboard.id row) rows)) = length rows.
Proof.
  induction rows as [|r rows IH]; [by intros _ ?%elem_of_nil|].
  rewrite fmap_cons, NoDup_cons. intros [Hr Hrows] Hin.
  destruct (decide (Soundboard.id r = Soundboard.id row)) as [Heq|Hne].
  - rewrite filter_cons_False by (by intros ?). cbn [length]. f_equal.
    assert (filter (λ r0, Soundboard.id r0 ≠ Soundboard.id row) rows = rows) as ->;
      [|done].
    clear IH Hin Hrows. rewrite Heq in Hr. induction rows as [|r' rows IH]; [done|].
    rewrite fmap_cons, not_elem_of_cons in Hr. destruct Hr as [Hne Hr].
    rewrite filter_cons_True by done. f_equal. by apply IH.
  - rewrite filter_cons_True by done. cbn [length]. f_equal.
    apply elem_of_cons in Hin as [->|Hin]; [done|]. by apply IH.
Qed.

Lemma NoDup_fmap_eq {A B : Type} (f : A → B) (l : list A) x y :
  NoDup (f <$> l) → x ∈ l → y ∈ l → f x = f y → x = y.
Proof.
  induction l as [|a l IH]; [by intros _ ?%elem_of_nil|].
  rewrite fmap_cons, NoDup_cons. intros [Ha Hl] Hx Hy Heq.
  apply elem_of_cons in Hx as [->|Hx]; apply elem_of_cons in Hy as [->|Hy].
  - done.
  - destruct Ha. rewrite Heq. by apply list_elem_of_fmap_2.
  - destruct Ha. rewrite <- Heq. by apply list_elem_of_fmap_2.
  - by apply IH.
Qed.

(** X6. A deletion that answers 200 in a reachable state removes exactly one
    row, the one with the id asked for: the rows left are the others, and
    there is one row less. *)
Theorem delete_removes_one_row w st id row :
  reachable st →
  row ∈ Soundboards st → Soundboard.id row = id →
  query_rejects w SoundboardFindByPk = None →
  query_rejects w SoundboardDestroy = None →
  (∀ r, r ∈ Soundboards (state_after (delete_soundboards_id w id) st) ↔
        r ∈ Soundboards st ∧ r ≠ row) ∧
  S (length (Soundboards (state_after (delete_soundboards_id w id) st))) =
    length (Soundboards st).
Proof.
  intros Hreach Hrow <- Hq Hd. pose proof (reachable_unique_ids st Hreach) as Hnodup.
  unfold state_after. rewrite (delete_soundboards_id_run _ _ _ Hq).
  rewrite (find_unique_id _ _ Hnodup Hrow). cbv zeta. rewrite Hd. cbn [fst snd].
  cbn [Soundboards set_Soundboards]. rewrite after_file_delete_Soundboards.
  split; [|by apply length_filter_other_ids].
  intros r. rewrite list_elem_of_filter. split.
  - intros [Hne Hr]. split; [done|]. by intros ->.
  - intros [Hr Hne]. split; [|done]. intros Heq. apply Hne.
    by apply (NoDup_fmap_eq Soundboard.id (Soundboards st)).
Qed.

(** X7. Deleting twice: once a deletion answered 200, a second deletion of
    the same id, whenever its lookup is answered, answers 404 and changes
    nothing. *)
Theorem delete_twice_is_not_found w w' st id r :
  answer (delete_soundboards_id w id) st = Return r →
  status r = 200 →
  query_rejects w' SoundboardFindByPk = None →
  delete_soundboards_id w' id (state_after (delete_soundboards_id w id) st) =
    (Return (res_status_json 404
       {[ "success" := VBool false;
          "message" := VString "Soundboard not found" ]}),
     state_after (delete_soundboards_id w id) st,
     [Query SoundboardFindByPk]).
Proof.
  intros Hr H200 Hq'.
  assert (∀ row, row ∈ Soundboards (state_after (delete_soundboards_id w id) st) →
                 Soundboard.id row ≠ id) as Hgone.
  { revert Hr H200. unfold answer, state_after.
    destruct (query_rejects w SoundboardFindByPk) as [error|] eqn:Hq.
    { rewrite (delete_soundboards_id_lookup_fails _ _ _ _ Hq). by intros [= <-]. }
    rewrite (delete_soundboards_id_run _ _ _ Hq).
    destruct (List.find _ _) as [soundboard|] eqn:Hfind; [|by intros [= <-]].
    apply find_by_id_Some in Hfind as [_ Hid]. cbv zeta.
    destruct (query_rejects w SoundboardDestroy); [by intros [= <-]|].
    cbn [fst snd]. intros _ _ row. cbn [Soundboards set_Soundboards].
    rewrite list_elem_of_filter, Hid. by intros [? _]. }
  rewrite (delete_soundboards_id_run _ _ _ Hq').
  by rewrite (proj2 (find_by_id_None _ _) Hgone).
Qed.

(** X8. The storage delete comes first and is not undone. For a row of a
    reachable state whose lookup is answered: the bucket loses the object
    named by the row's [fileName] when the storage delete does not reject,
    and is untouched when it does, whatever happens to the row afterwards;
    and when the row delete is rejected, the answer is the generic 500 and
    the table keeps all its rows, that row included. *)
Theorem delete_object_fate w st row :
  reachable st →
  row ∈ Soundboards st →
  query_rejects w SoundboardFindByPk = None →
  let st' := state_after (delete_soundboards_id w (Soundboard.id row)) st in
  (delete_rejects w (Soundboard.fileName row) = None →
   objects st' = delete (Soundboard.fileName row) (objects st)) ∧
  (is_Some (delete_rejects w (Soundboard.fileName row)) →
   objects st' = objects st) ∧
  (is_Some (query_rejects w SoundboardDestroy) →
   Soundboards st' = Soundboards st ∧
   answer (delete_soundboards_id w (Soundboard.id row)) st =
     Return (res_status_json 500
       {[ "success" := VBool false;
          "error" := VString "Failed to delete soundboard" ]})).
Proof.
  intros Hreach Hrow Hq st'. subst st'.
  pose proof (reachable_unique_ids st Hreach) as Hnodup.
  pose proof (proj1 (Forall_forall _ _) (reachable_consistent st Hreach) row Hrow)
    as [Hkey _]. fold (object_key row) in Hkey.
  unfold state_after, answer. rewrite (delete_soundboards_id_run _ _ _ Hq).
  rewrite (find_unique_id _ _ Hnodup Hrow). cbv zeta. rewrite Hkey.
  assert (objects (after_file_delete w (Soundboard.fileName row) st) =
          match delete_rejects w (Soundboard.fileName row) with
          | Some _ => objects st
          | None => delete (Soundboard.fileName row) (objects st)
          end) as Hobjects.
  { unfold after_file_delete.
    destruct (delete_rejects w _); [done|].
    destruct (objects st !! Soundboard.fileName row) eqn:Hlook; [done|].
    symmetry. by apply delete_id. }
  split; [|split].
  - intros Hok. rewrite Hok in Hobjects.
    by destruct (query_rejects w SoundboardDestroy).
  - intros [e He]. rewrite He in Hobjects.
    by destruct (query_rejects w SoundboardDestroy).
  - intros [e ->]. cbn [fst snd]. split; [|reflexivity].
    apply after_file_delete_Soundboards.
Qed.

(** ** Reading *)

(** The listing leaves the state as it was. *)
Lemma get_soundboards_email_state w email st :
  state_after (get_soundboards_email w email) st = st.
Proof.
  unfold state_after. rewrite get_soundboards_email_run.
  destruct (query_rejects w SoundboardFindAll); [done|].
  by destruct (listing email st).
Qed.

(** X9. The listing only reads: for every owner and whatever the services
    do, it leaves the state as it was; it sends one query and, when the
    query is answered, one existence check per listed row, in the order of
    the answer, for the last path segment of the row's [audioUrl]. *)
Theorem listing_only_reads w st email :
  state_after (get_soundboards_email w email) st = st ∧
  calls (get_soundboards_email w email) st =
    Query SoundboardFindAll ::
    match query_rejects w SoundboardFindAll with
    | Some _ => []
    | None => (λ row, FileExists (object_key row)) <$> listing email st
    end.
Proof.
  unfold state_after, calls. rewrite get_soundboards_email_run.
  destruct (query_rejects w SoundboardFindAll); [done|].
  destruct (listing email st) as [|row rows]; [done|].
  cbn [fst snd]. split; [done|]. f_equal. apply imap_const.
Qed.

(** ** Object names and URLs *)

Lemma split_last_no_sep sep s : occurs sep (List.last (Js.split sep s) "") = false.
Proof.
  induction s as [|c s IH]; [reflexivity|]. simpl.
  destruct (Ascii.eqb c sep) eqn:Hc.
  - pose proof (split_nonempty sep s). by destruct (Js.split sep s).
  - pose proof (split_nonempty sep s). destruct (Js.split sep s) as [|seg segs] eqn:Hs; [done|].
    destruct segs as [|seg' segs].
    + simpl in *. by rewrite Hc, IH.
    + exact IH.
Qed.

Lemma split_last_suffix sep s :
  s = List.last (Js.split sep s) "" ∨
  ∃ prefix, s = prefix +:+ String sep (List.last (Js.split sep s) "").
Proof.
  induction s as [|c s IH]; [by left|]. simpl.
  pose proof (split_nonempty sep s) as Hne.
  destruct (Ascii.eqb_spec c sep) as [->|Hc].
  - right. destruct (Js.split sep s) as [|seg segs] eqn:Hs; [done|].
    destruct IH as [IH | [prefix IH]].
    + exists "". by rewrite IH at 1.
    + exists (String sep prefix). by rewrite IH at 1.
  - destruct (Js.split sep s) as [|seg segs] eqn:Hs; [done|].
    destruct segs as [|seg' segs].
    + left. simpl in *. destruct IH as [IH | [prefix IH]]; [by rewrite IH at 1|].
      exfalso. pose proof (split_last_no_sep sep s) as Hno. rewrite Hs in Hno.
      simpl in Hno. pose proof (split_without sep seg Hno) as Hseg.
      rewrite IH in Hs. rewrite split_app, Hseg in Hs.
      pose proof (split_nonempty sep prefix).
      destruct (Js.split sep prefix); [done|]. by destruct l.
    + destruct IH as [IH | [prefix IH]].
      * exfalso. pose proof (split_last_no_sep sep s) as Hno. rewrite Hs in Hno.
        rewrite IH in Hs at 1. rewrite (split_without _ _ Hno) in Hs. done.
      * right. exists (String c prefix). by rewrite IH at 1.
Qed.

(** X10. The object name the handlers derive from an [audioUrl] has no
    slash and ends the URL: the URL is that name, or something, a slash, and
    that name. *)
Theorem object_key_ends_the_url row :
  occurs "/" (object_key row) = false ∧
  (Soundboard.audioUrl row = object_key row ∨
   ∃ prefix, Soundboard.audioUrl row = prefix +:+ "/" +:+ object_key row).
Proof.
  unfold object_key, Js.pop. split; [apply split_last_no_sep|].
  apply split_last_suffix.
Qed.

(** X11. The URL [uploadToGCS] returns names its object again exactly when
    the object name has no slash: for such a name the last path segment of
    the URL is the name (the audio clips), and for a name with a slash it is
    not (the profile pictures under [profiles/]). *)
Theorem uploaded_url_names_object w buffer filename contentType st url st' evs :
  uploadToGCS w buffer filename contentType st = (Return url, st', evs) →
  url = "https://storage.googleapis.com/" +:+ GCP_BUCKET_NAME w +:+ "/" +:+ filename ∧
  objects st' !! filename = Some (stored buffer contentType) ∧
  (Js.pop (Js.split "/" url) = filename ↔ occurs "/" filename = false).
Proof.
  rewrite uploadToGCS_run. destruct (save_rejects w filename); [done|].
  intros [= <- <- <-]. split; [done|]. split.
  - cbn [objects set_objects]. by rewrite lookup_insert_eq.
  - split.
    + intros <-. apply split_last_no_sep.
    + intros Hno. rewrite <- append_assoc. by apply pop_split_path.
Qed.

(** ** The history routes *)

(** The record [POST /history] stores for a body. *)
Lemma post_history_run w req_body st :
  let id := prop req_body "id" in
  let title := prop req_body "title" in
  let message := prop req_body "message" in
  let is_speech_to_text := prop req_body "is_speech_to_text" in
  let email := prop req_body "email" in
  post_history w req_body st =
    if Js.not id || Js.not title || Js.not message
       || Js.is_undefined is_speech_to_text || Js.not email then
      (Return (res_status_json 400
         {[ "status" := VString "error";
            "message" :=
              VString "Id, Judul, Pesan, is_speech_to_text, dan email harus diisi" ]}),
       st, [])
    else
      match SqlString.invalid_among (history_replacements w req_body) with
      | Some bad =>
          (Return (error_middleware ("Invalid value " +:+ inspect w bad)), st, [])
      | None =>
          match query_rejects w HistoryInsert with
          | Some error =>
              (Return (error_middleware error), st, [Query HistoryInsert])
          | None =>
              (Return (res_status_json 201
                 {[ "status" := VString "success create data";
                    "data" := VObject
                      {[ "id" := id; "title" := title; "message" := message;
                         "created_at" := VDate (now w);
                         "is_speech_to_text" := is_speech_to_text;
                         "email" := email ]} ]}),
               set_history (history st ++ [stored_history w req_body]) st,
               [Query HistoryInsert])
          end
      end.
Proof.
  cbv zeta. unfold post_history, try_catch.
  destruct (_ || _); [reflexivity|].
  unfold mbind at 1, M_bind at 1. rewrite sequelize_query_run.
  fold (history_replacements w req_body).
  destruct (SqlString.invalid_among _); [reflexivity|].
  by destruct (query_rejects w HistoryInsert).
Qed.


Lemma get_history_run w st :
  get_history w st =
    match query_rejects w HistorySelect with
    | Some error =>
        (Return (res_status_json 500
           {[ "status" := VString "error";
              "message" := VString (if String.eqb error "" then "Something went wrong"
                                    else error) ]}),
         st, [Query HistorySelect])
    | None =>
        match merge_sort latest_first (history st) with
        | [] =>
            (Return (res_status_json 404
               {[ "status" := VString "error";
                  "message" := VString "History tidak ditemukan" ]}),
             st, [Query HistorySelect])
        | histories =>
            (Return (res_json
               {[ "status" := VString "success get data";
                  "data" := VArray
                    ((λ h, VObject (format_history (History.id h) (History.title h)
                                      (History.message h) (VDate (History.created_at h))
                                      (History.is_speech_to_text h))) <$> histories) ]}),
             st, [Query HistorySelect])
        end
    end.
Proof.
  unfold get_history, try_catch.
  unfold mbind at 1, M_bind at 1. rewrite query_run.
  destruct (query_rejects w HistorySelect); [reflexivity|].
  unfold mbind, M_bind, get_state. cbv beta iota zeta.
  by destruct (merge_sort latest_first (history st)).
Qed.

#[global] Instance latest_first_total : Total latest_first.
Proof. intros a b. unfold latest_first. lia. Qed.

#[global] Instance latest_first_trans : Transitive latest_first.
Proof. intros a b c. unfold latest_first. lia. Qed.

Lemma data_items_history (status_text : value) (items : list value) :
  data_items (res_json {[ "status" := status_text; "data" := VArray items ]})
  = Some items.
Proof. reflexivity. Qed.

(** X13. When the query is answered, [GET /history] lists every record of
    the table, latest first: 404 when the table is empty, and otherwise 200
    with one item per record, in the order of decreasing [created_at], each
    item carrying the id and title of its record, the message wrapped in a
    one-element array, and a [detection_type] that reads "Speech to Text"
    when the flag is truthy and "Gesture Detection" when it is not. *)
Theorem history_is_listed_latest_first w st :
  query_rejects w HistorySelect = None →
  ∃ rows r,
    rows ≡ₚ history st ∧
    StronglySorted latest_first rows ∧
    get_history w st = (Return r, st, [Query HistorySelect]) ∧
    match rows with
    | [] => status r = 404
    | _ =>
        status r = 200 ∧
        data_items r =
          Some ((λ h, VObject
                   {[ "id" := History.id h;
                      "title" := History.title h;
                      "message" := VArray
                        [ VObject {[ "text" := History.message h;
                                     "created_at" := VDate (History.created_at h);
                                     "is_speech_to_text" := History.is_speech_to_text h ]} ];
                      "detection_type" :=
                        VString (if ToBoolean (History.is_speech_to_text h)
                                 then "Speech to Text" else "Gesture Detection") ]})
                <$> rows)
    end.
Proof.
  intros Hq. exists (merge_sort latest_first (history st)).
  pose proof (merge_sort_Permutation latest_first (history st)) as Hperm.
  pose proof (StronglySorted_merge_sort latest_first (history st)) as Hsorted.
  rewrite get_history_run, Hq.
  destruct (merge_sort latest_first (history st)) as [|h rows].
  - eexists. split; [done|]. split; [done|]. split; reflexivity.
  - eexists. split; [done|]. split; [done|]. split; [reflexivity|].
    split; [reflexivity|]. apply data_items_history.
Qed.

(** X14. A record that was stored is listed: after [POST /history] answered
    201, [GET /history], whenever its query is answered, is a 200 whose data
    has the item of that record as the table keeps it: what the columns give
    back for the values sent, and the time of the creation request cut to
    the second. *)
Theorem stored_history_is_listed w w' st req_body r :
  answer (post_history w req_body) st = Return r →
  status r = 201 →
  query_rejects w' HistorySelect = None →
  ∃ r' items,
    answer (get_history w') (state_after (post_history w req_body) st) = Return r' ∧
    status r' = 200 ∧
    data_items r' = Some items ∧
    VObject (format_history
               (column_value w "id" (prop req_body "id"))
               (column_value w "title" (prop req_body "title"))
               (column_value w "message" (prop req_body "message"))
               (VDate (1000 * (now w / 1000)))
               (column_value w "is_speech_to_text"
                  (prop req_body "is_speech_to_text"))) ∈ items.
Proof.
  unfold answer, state_after. rewrite post_history_run. cbv zeta.
  destruct (_ || _); [by intros [= <-]|].
  destruct (SqlString.invalid_among _); [by intros [= <-]|].
  destruct (query_rejects w HistoryInsert); [by intros [= <-]|].
  cbn [fst snd]. intros _ _ Hq. rewrite get_history_run, Hq.
  set (h := stored_history w req_body).
  assert (h ∈ merge_sort latest_first (history (set_history (history st ++ [h]) st)))
    as Hin.
  { rewrite merge_sort_Permutation. cbn [history set_history].
    apply elem_of_app. right. by apply list_elem_of_singleton. }
  destruct (merge_sort latest_first _) as [|h0 rows]; [by apply elem_of_nil in Hin|].
  eexists. eexists. split; [reflexivity|]. split; [reflexivity|].
  split; [apply data_items_history|].
  apply (list_elem_of_fmap_2 (λ h, VObject (format_history (History.id h)
           (History.title h) (History.message h) (VDate (History.created_at h))
           (History.is_speech_to_text h))) _ h Hin).
Qed.

(** X15. [DELETE /history/:id] deletes nothing: for every id and in every
    state it answers 500 with "History is not defined", sends no statement
    and leaves the state as it was. *)
Theorem delete_history_id_deletes_nothing w st id :
  ∃ r, delete_history_id w id st = (Return r, st, []) ∧
       status r = 500 ∧
       body r !! "message" = Some (VString "History is not defined").
Proof. eexists. split; [apply delete_history_id_run|]. by split. Qed.

(** X16. No route removes or alters a history record: after any request the
    history table is the table before, followed by at most one new
    record. *)
Theorem history_only_grows w req st :
  ∃ added,
    history (state_after (route w req) st) = history st ++ added ∧
    (length added ≤ 1)%nat.
Proof.
  assert (∀ st', history st' = history st →
            ∃ added, history st' = history st ++ added ∧ (length added ≤ 1)%nat)
    as Hsame.
  { intros st' ->. exists []. split; [by rewrite app_nil_r|simpl; lia]. }
  destruct req as [req_body|email|id|req_body| |id|id|req_body|req_body];
    cbn [route].
  - apply Hsame. unfold state_after. rewrite post_soundboards_run.
    destruct (_ || _); [done|]. cbv zeta.
    destruct (synthesizeSpeech w _); [|done].
    destruct (save_rejects w _); [done|].
    match goal with |- context [Soundboard_create w ?v ?s] =>
      destruct (Soundboard_create_cases w v s) as [(e & evs & ->) | ->]
    end; done.
  - apply Hsame. by rewrite get_soundboards_email_state.
  - apply Hsame. unfold state_after.
    destruct (query_rejects w SoundboardFindByPk) as [error|] eqn:Hq.
    { by rewrite (delete_soundboards_id_lookup_fails _ _ _ _ Hq). }
    rewrite (delete_soundboards_id_run _ _ _ Hq).
    destruct (List.find _ _) as [soundboard|]; [|done]. cbv zeta.
    assert (history (after_file_delete w (object_key soundboard) st) = history st)
      as Hdel.
    { unfold after_file_delete.
      by destruct (delete_rejects w (object_key soundboard)),
        (objects st !! object_key soundboard). }
    by destruct (query_rejects w SoundboardDestroy).
  - unfold state_after. rewrite post_history_run. cbv zeta.
    destruct (_ || _); [by apply Hsame|].
    destruct (SqlString.invalid_among _); [by apply Hsame|].
    destruct (query_rejects w HistoryInsert); [by apply Hsame|].
    eexists. split; [reflexivity|]. simpl. lia.
  - apply Hsame. by rewrite get_history_state.
  - apply Hsame. unfold state_after. by rewrite get_history_id_run.
  - apply Hsame. unfold state_after. by rewrite delete_history_id_run.
  - apply Hsame. unfold state_after. rewrite post_feedback_run. cbv zeta.
    destruct (_ || _); [done|]. destruct (ToNumber _); [|done].
    destruct (_ || _); [done|]. destruct (SqlString.invalid_among _); [done|].
    by destruct (query_rejects w FeedbackInsert).
  - apply Hsame. unfold state_after, post_report, try_catch.
    destruct (Js.not _); [reflexivity|].
    unfold mbind at 1, M_bind at 1, Report_create.
    unfold mbind at 1, M_bind at 1, lift.
    destruct (validate_text "Report" "comment" _); [|reflexivity].
    unfold mbind at 1, M_bind at 1. rewrite query_run.
    destruct (query_rejects w ReportCreate); [reflexivity|].
    unfold mbind, M_bind, get_state. cbv beta iota.
    by destruct (bool_decide _).
Qed.

(** ** Feedback and reports *)

(** X17. [POST /feedback] stores exactly when it answers 201: a 201 means
    that one row with the comment and the rating as they were sent was
    appended under the id the database gave, and that id, comment and rating
    are echoed; any other answer means that nothing changed. *)
Theorem feedback_stored_iff_201 w st req_body r :
  answer (post_feedback w req_body) st = Return r →
  (status r = 201 →
   state_after (post_feedback w req_body) st =
     set_feedback
       (feedback st ++
        [ {| Feedback.id := insertId w;
             Feedback.comment := prop req_body "comment";
             Feedback.rating := prop req_body "rating" |} ]) st ∧
   body r !! "data" =
     Some (VObject {[ "id" := VNumber (of_Z (insertId w));
                      "comment" := prop req_body "comment";
                      "rating" := prop req_body "rating" ]})) ∧
  (status r ≠ 201 → state_after (post_feedback w req_body) st = st).
Proof.
  unfold answer, state_after. rewrite post_feedback_run. cbv zeta.
  destruct (_ || _); [by intros [= <-]|].
  destruct (ToNumber _); [|by intros [= <-]].
  destruct (_ || _); [by intros [= <-]|].
  destruct (SqlString.invalid_among _); [by intros [= <-]|].
  destruct (query_rejects w FeedbackInsert); [by intros [= <-]|].
  intros [= <-]. cbn [fst snd]. split; [|done]. intros _. split; [reflexivity|].
  cbn [body res_status_json]. by simplify_map_eq.
Qed.

Lemma report_dataValues (comment id created updated : value) :
  let dataValues :=
    <["id" := id]> (<["createdAt" := created]> (<["updatedAt" := updated]>
      (build Report.attributes {[ "comment" := comment ]}))) in
  prop dataValues "id" = id ∧
  prop dataValues "comment" = comment ∧
  prop dataValues "createdAt" = created.
Proof.
  unfold prop, build. split; [|split].
  - by rewrite lookup_insert_eq.
  - rewrite !lookup_insert_ne by done. rewrite map_lookup_filter.
    by simplify_map_eq.
  - rewrite lookup_insert_ne by done. by rewrite lookup_insert_eq.
Qed.

(** X18. A report with a non-empty string as comment is stored when the
    insert is accepted and the generated id is new: one row with a fresh
    uuid, the comment and the time of the request cut to the second is
    appended, and the answer is 201 with exactly the id, the comment and
    the [createdAt] of the instance, which is the time of the request with
    its milliseconds. *)
Theorem report_is_stored w st req_body comment :
  prop req_body "comment" = VString comment → comment ≠ "" →
  query_rejects w ReportCreate = None →
  Uuid.uuidv4 (id_rnds w) ∉ Report.id <$> Reports st →
  post_report w req_body st =
    (Return (res_status_json 201
       {[ "success" := VBool true;
          "data" := VObject
            {[ "id" := VString (Uuid.uuidv4 (id_rnds w));
               "comment" := VString comment;
               "createdAt" := VDate (now w) ]} ]}),
     set_Reports
       (Reports st ++
        [ {| Report.id := Uuid.uuidv4 (id_rnds w);
             Report.comment := comment;
             Report.createdAt := 1000 * (now w / 1000);
             Report.updatedAt := 1000 * (now w / 1000) |} ]) st,
     [Query ReportCreate]).
Proof.
  intros Hcomment Hne Hq Hfresh. unfold post_report, try_catch.
  rewrite Hcomment, (falsy_false _ (truthy_text _ Hne)).
  destruct (report_dataValues (VString comment) (VString (Uuid.uuidv4 (id_rnds w)))
              (VDate (now w)) (VDate (now w))) as (Hid & Hc & Hcreated).
  unfold mbind at 1, M_bind at 1, Report_create.
  unfold mbind at 1, M_bind at 1, lift. rewrite Hc. cbn [validate_text].
  unfold mbind at 1, M_bind at 1. rewrite query_run, Hq.
  unfold mbind, M_bind, get_state. cbv beta iota.
  rewrite bool_decide_eq_false_2 by exact Hfresh.
  unfold set_state, mret, M_ret, Report_row. cbv beta iota.
  by rewrite Hid, Hc, Hcreated.
Qed.

(** ** The profile routes *)

Lemma statement_run s call replacements site :
  statement s call replacements site =
    match SqlString.invalid_among replacements with
    | Some bad => (Throw ("Invalid value " +:+ inspect (outside s) bad), site, [])
    | None =>
        (match statement_rejects s call with
         | Some error => Throw error
         | None => Return tt
         end, site, [Statement call])
    end.
Proof. reflexivity. Qed.

(** A string is always written. *)
Lemma invalid_among_text (val : value) (rest : list value) :
  SqlString.invalid_among (val :: rest) =
    match SqlString.invalid val with
    | Some bad => Some bad
    | None => SqlString.invalid_among rest
    end.
Proof. reflexivity. Qed.

Lemma select_profile_run s call email site :
  select_profile s call email site =
    match SqlString.invalid email with
    | Some bad => (Throw ("Invalid value " +:+ inspect (outside s) bad), site, [])
    | None =>
        match statement_rejects s call with
        | Some error => (Throw error, site, [Statement call])
        | None =>
            (Return (filter (λ r, Profile.email r = to_column (outside s) email)
                       (profile site)),
             site, [Statement call])
        end
    end.
Proof.
  unfold select_profile, mbind, MP_bind. rewrite statement_run.
  cbn [SqlString.invalid_among].
  destruct (SqlString.invalid email); [reflexivity|].
  by destruct (statement_rejects s call).
Qed.

Lemma insert_profile_run s name email site :
  insert_profile s name email site =
    match SqlString.invalid_among [name; email] with
    | Some bad => (Throw ("Invalid value " +:+ inspect (outside s) bad), site, [])
    | None =>
        match statement_rejects s ProfileInsert with
        | Some error => (Throw error, site, [Statement ProfileInsert])
        | None =>
            (Return tt,
             {| core := core site;
                profile := profile site ++
                  [ {| Profile.name := to_column (outside s) name;
                       Profile.email := to_column (outside s) email;
                       Profile.profile_picture_url := None |} ] |},
             [Statement ProfileInsert])
        end
    end.
Proof.
  unfold insert_profile, mbind, MP_bind. rewrite statement_run.
  destruct (SqlString.invalid_among _); [reflexivity|].
  by destruct (statement_rejects s ProfileInsert).
Qed.

(** The answers of [POST /profile]. *)
Lemma post_profile_run s req_body site :
  let name := prop req_body "name" in
  let email := prop req_body "email" in
  let failure (error : string) :=
    res_status_json 500
      {[ "success" := VBool false; "message" := VString error ]} in
  post_profile s req_body site =
    if Js.not name || Js.not email then
      (Return (res_status_json 400
         {[ "success" := VBool false;
            "message" := VString "Name and email are required" ]}), site, [])
    else
      match SqlString.invalid email with
      | Some bad =>
          (Return (failure ("Invalid value " +:+ inspect (outside s) bad)), site, [])
      | None =>
      match statement_rejects s ProfileExisting with
      | Some error => (Return (failure error), site, [Statement ProfileExisting])
      | None =>
          match filter (λ r, Profile.email r = to_column (outside s) email)
                  (profile site) with
          | _ :: _ =>
              (Return (res_status_json 400
                 {[ "success" := VBool false;
                    "message" := VString "Email already exists" ]}),
               site, [Statement ProfileExisting])
          | [] =>
              match SqlString.invalid_among [name; email] with
              | Some bad =>
                  (Return (failure ("Invalid value " +:+ inspect (outside s) bad)),
                   site, [Statement ProfileExisting])
              | None =>
              match statement_rejects s ProfileInsert with
              | Some error =>
                  (Return (failure error), site,
                   [Statement ProfileExisting; Statement ProfileInsert])
              | None =>
                  (Return (res_status_json 201
                     {[ "success" := VBool true;
                        "message" := VString "Profile created successfully";
                        "data" := VObject {[ "name" := name; "email" := email ]} ]}),
                   {| core := core site;
                      profile := profile site ++
                        [ {| Profile.name := to_column (outside s) name;
                             Profile.email := to_column (outside s) email;
                             Profile.profile_picture_url := None |} ] |},
                   [Statement ProfileExisting; Statement ProfileInsert])
              end
              end
          end
      end
      end.
Proof.
  cbv zeta. unfold post_profile, catching.
  destruct (_ || _); [reflexivity|].
  unfold mbind at 1, MP_bind at 1. rewrite select_profile_run.
  destruct (SqlString.invalid (prop req_body "email")); [reflexivity|].
  destruct (statement_rejects s ProfileExisting); [reflexivity|].
  destruct (filter _ (profile site)) as [|row rows]; [|reflexivity].
  change (0 <? length (@nil Profile.row))%nat with false. cbv iota.
  unfold mbind at 1, MP_bind at 1. rewrite insert_profile_run.
  destruct (SqlString.invalid_among _); [reflexivity|].
  by destruct (statement_rejects s ProfileInsert).
Qed.

(** The two turns of [POST /profile]. *)
Lemma post_profile_lookup_run s req_body site :
  let name := prop req_body "name" in
  let email := prop req_body "email" in
  let failure (error : string) :=
    res_status_json 500
      {[ "success" := VBool false; "message" := VString error ]} in
  post_profile_lookup s req_body site =
    if Js.not name || Js.not email then
      (Return (Some (res_status_json 400
         {[ "success" := VBool false;
            "message" := VString "Name and email are required" ]})), site, [])
    else
      match SqlString.invalid email with
      | Some bad =>
          (Return (Some (failure ("Invalid value " +:+ inspect (outside s) bad))),
           site, [])
      | None =>
      match statement_rejects s ProfileExisting with
      | Some error =>
          (Return (Some (failure error)), site, [Statement ProfileExisting])
      | None =>
          match filter (λ r, Profile.email r = to_column (outside s) email)
                  (profile site) with
          | _ :: _ =>
              (Return (Some (res_status_json 400
                 {[ "success" := VBool false;
                    "message" := VString "Email already exists" ]})),
               site, [Statement ProfileExisting])
          | [] => (Return None, site, [Statement ProfileExisting])
          end
      end
      end.
Proof.
  cbv zeta. unfold post_profile_lookup, catching.
  destruct (_ || _); [reflexivity|].
  unfold mbind at 1, MP_bind at 1. rewrite select_profile_run.
  destruct (SqlString.invalid (prop req_body "email")); [reflexivity|].
  destruct (statement_rejects s ProfileExisting); [reflexivity|].
  by destruct (filter _ (profile site)).
Qed.

Lemma post_profile_insert_run s req_body site :
  let name := prop req_body "name" in
  let email := prop req_body "email" in
  post_profile_insert s req_body site =
    match SqlString.invalid_among [name; email] with
    | Some bad =>
        (Return (res_status_json 500
           {[ "success" := VBool false;
              "message" := VString ("Invalid value " +:+ inspect (outside s) bad) ]}),
         site, [])
    | None =>
        match statement_rejects s ProfileInsert with
        | Some error =>
            (Return (res_status_json 500
               {[ "success" := VBool false; "message" := VString error ]}),
             site, [Statement ProfileInsert])
        | None =>
            (Return (res_status_json 201
               {[ "success" := VBool true;
                  "message" := VString "Profile created successfully";
                  "data" := VObject {[ "name" := name; "email" := email ]} ]}),
             {| core := core site;
                profile := profile site ++
                  [ {| Profile.name := to_column (outside s) name;
                       Profile.email := to_column (outside s) email;
                       Profile.profile_picture_url := None |} ] |},
             [Statement ProfileInsert])
        end
    end.
Proof.
  cbv zeta. unfold post_profile_insert, catching.
  unfold mbind at 1, MP_bind at 1. rewrite insert_profile_run.
  destruct (SqlString.invalid_among _); [reflexivity|].
  by destruct (statement_rejects s ProfileInsert).
Qed.

(** The handler is its two turns, one after the other. *)
Lemma post_profile_by_turns s req_body site :
  post_profile s req_body site =
    (answered ← post_profile_lookup s req_body;
     match answered with
     | Some response => mret response
     | None => post_profile_insert s req_body
     end) site.
Proof.
  unfold mbind at 1, MP_bind at 1.
  rewrite post_profile_run, post_profile_lookup_run. cbv zeta.
  destruct (_ || _); [reflexivity|].
  destruct (SqlString.invalid (prop req_body "email")); [reflexivity|].
  destruct (statement_rejects s ProfileExisting); [reflexivity|].
  destruct (filter _ (profile site)) as [|row rows]; [|reflexivity].
  rewrite post_profile_insert_run. cbv zeta.
  destruct (SqlString.invalid_among _); [reflexivity|].
  by destruct (statement_rejects s ProfileInsert).
Qed.

Lemma get_profile_email_run s email site :
  get_profile_email s email site =
    match statement_rejects s ProfileSelect with
    | Some error =>
        (Return (res_status_json 500
           {[ "success" := VBool false; "message" := VString error ]}),
         site, [Statement ProfileSelect])
    | None =>
        match filter (λ r, Profile.email r = email) (profile site) with
        | [] =>
            (Return (res_status_json 404
               {[ "success" := VBool false;
                  "message" := VString "Profile not found" ]}),
             site, [Statement ProfileSelect])
        | found :: _ =>
            (Return (res_json
               {[ "success" := VBool true;
                  "data" := VObject (Profile.toJSON found) ]}),
             site, [Statement ProfileSelect])
        end
    end.
Proof.
  unfold get_profile_email, catching.
  unfold mbind at 1, MP_bind at 1. rewrite select_profile_run.
  cbn [SqlString.invalid to_column].
  destruct (statement_rejects s ProfileSelect); [reflexivity|].
  by destruct (filter _ (profile site)).
Qed.

(** X19. Registering and reading back: after [POST /profile] answered 201
    for a name and an email given as strings, [GET /profile/:email] for that
    email, whenever its query is answered, is a 200 whose data carries that
    name and that email; it changes nothing and sends the one SELECT. *)
Theorem registered_profile_is_found s s' site req_body r name email :
  site_answer (post_profile s req_body) site = Return r →
  status r = 201 →
  prop req_body "name" = VString name →
  prop req_body "email" = VString email →
  statement_rejects s' ProfileSelect = None →
  ∃ data,
    get_profile_email s' email (site_after (post_profile s req_body) site) =
      (Return (res_json {[ "success" := VBool true; "data" := VObject data ]}),
       site_after (post_profile s req_body) site,
       [Statement ProfileSelect]) ∧
    data !! "name" = Some (VString name) ∧
    data !! "email" = Some (VString email).
Proof.
  intros Hr H201 Hname Hemail Hq. revert Hr H201.
  unfold site_answer, site_after. rewrite post_profile_run. cbv zeta.
  rewrite Hname, Hemail. cbn [to_column SqlString.invalid_among SqlString.invalid].
  destruct (_ || _); [by intros [= <-]|].
  destruct (statement_rejects s ProfileExisting); [by intros [= <-]|].
  destruct (filter _ (profile site)) as [|row rows] eqn:Hnone; [|by intros [= <-]].
  destruct (statement_rejects s ProfileInsert); [by intros [= <-]|].
  intros _ _. cbn [fst snd]. rewrite get_profile_email_run, Hq.
  cbn [profile]. rewrite filter_app, Hnone.
  rewrite filter_cons_True by done.
  eexists. split; [reflexivity|]. by split.
Qed.

(** X20. One profile per email: when the look-up for the email is answered
    and the table has a profile with that email, [POST /profile] answers 400
    with "Email already exists", inserts nothing and sends no other
    statement. *)
Theorem duplicate_email_is_refused s site req_body email row :
  ToBoolean (prop req_body "name") = true →
  prop req_body "email" = VString email → email ≠ "" →
  row ∈ profile site → Profile.email row = email →
  statement_rejects s ProfileExisting = None →
  post_profile s req_body site =
    (Return (res_status_json 400
       {[ "success" := VBool false;
          "message" := VString "Email already exists" ]}),
     site, [Statement ProfileExisting]).
Proof.
  intros Hname Hemail Hne Hrow Hrow_email Hq. rewrite post_profile_run. cbv zeta.
  rewrite Hemail, (falsy_false _ Hname), (falsy_false _ (truthy_text _ Hne)), Hq.
  cbn [orb to_column SqlString.invalid].
  destruct (filter _ (profile site)) as [|row' rows] eqn:Hnone; [|reflexivity].
  by destruct (filter_nil_not_elem_of _ _ row Hnone Hrow_email).
Qed.

(** X21. One profile per email holds only for requests served one after
    the other. The look-up and the insert of [POST /profile] are two
    statements with an [await] between them and no transaction around them:
    when two registrations of the same new email overlap, so that both
    look-ups are answered before either insert is sent, and the database
    accepts both inserts, both are answered 201 and the table ends with two
    profiles of that email, while the same two requests served in turn give
    201 and then 400. *)
Theorem overlapping_registrations_share_an_email
    s1 s2 site body1 body2 name1 name2 email :
  prop body1 "name" = VString name1 → name1 ≠ "" →
  prop body2 "name" = VString name2 → name2 ≠ "" →
  prop body1 "email" = VString email →
  prop body2 "email" = VString email → email ≠ "" →
  (∀ row, row ∈ profile site → Profile.email row ≠ email) →
  statement_rejects s1 ProfileExisting = None →
  statement_rejects s1 ProfileInsert = None →
  statement_rejects s2 ProfileExisting = None →
  statement_rejects s2 ProfileInsert = None →
  let looked1 := site_after (post_profile_lookup s1 body1) site in
  let looked2 := site_after (post_profile_lookup s2 body2) looked1 in
  let inserted1 := site_after (post_profile_insert s1 body1) looked2 in
  let inserted2 := site_after (post_profile_insert s2 body2) inserted1 in
  site_answer (post_profile_lookup s1 body1) site = Return None ∧
  site_answer (post_profile_lookup s2 body2) looked1 = Return None ∧
  (∃ r1, site_answer (post_profile_insert s1 body1) looked2 = Return r1 ∧
         status r1 = 201) ∧
  (∃ r2, site_answer (post_profile_insert s2 body2) inserted1 = Return r2 ∧
         status r2 = 201) ∧
  profile inserted2 =
    profile site ++
    [ {| Profile.name := name1; Profile.email := email;
         Profile.profile_picture_url := None |};
      {| Profile.name := name2; Profile.email := email;
         Profile.profile_picture_url := None |} ] ∧
  (∃ r1 r2,
     site_answer (post_profile s1 body1) site = Return r1 ∧ status r1 = 201 ∧
     site_answer (post_profile s2 body2) (site_after (post_profile s1 body1) site) =
       Return r2 ∧
     status r2 = 400).
Proof.
  intros Hname1 Hne1 Hname2 Hne2 Hemail1 Hemail2 Hne Hnew Hq1 Hi1 Hq2 Hi2.
  assert (filter (λ r, Profile.email r = email) (profile site) = []) as Hnone.
  { destruct (filter _ (profile site)) as [|row rows] eqn:Hrows; [done|].
    assert (row ∈ filter (λ r, Profile.email r = email) (profile site)) as Hrow
      by (rewrite Hrows; constructor).
    apply list_elem_of_filter in Hrow as [Hrow_email Hrow].
    by destruct (Hnew row Hrow). }
  assert (∀ name, name ≠ "" →
            Js.not (VString name) || Js.not (VString email) = false) as Hvalid.
  { intros name Hn.
    by rewrite (falsy_false _ (truthy_text _ Hn)),
      (falsy_false _ (truthy_text _ Hne)). }
  cbv zeta. unfold site_answer, site_after.
  rewrite !post_profile_lookup_run, !post_profile_run. cbv zeta.
  rewrite Hname1, Hemail1, (Hvalid _ Hne1), Hq1, Hi1.
  cbn [SqlString.invalid SqlString.invalid_among to_column].
  rewrite Hnone. cbn [fst snd].
  rewrite Hname2, Hemail2, (Hvalid _ Hne2), Hq2.
  cbn [SqlString.invalid to_column]. rewrite Hnone. cbn [fst snd].
  rewrite !post_profile_insert_run. cbv zeta.
  rewrite Hname1, Hemail1, Hi1.
  cbn [SqlString.invalid SqlString.invalid_among to_column fst snd].
  rewrite Hname2, Hemail2, Hi2.
  cbn [SqlString.invalid SqlString.invalid_among to_column fst snd profile].
  split; [reflexivity|]. split; [reflexivity|].
  split; [by eexists|]. split; [by eexists|]. split.
  - by rewrite <- app_assoc.
  - eexists. eexists. split; [reflexivity|]. split; [reflexivity|].
    rewrite filter_app, Hnone, filter_cons_True by done.
    split; reflexivity.
Qed.

Lemma update_keeps_emails (f : Profile.row → Profile.row) (rows : list Profile.row) :
  (∀ r, Profile.email (f r) = Profile.email r) →
  Profile.email <$> (f <$> rows) = Profile.email <$> rows.
Proof.
  intros Hf. rewrite <- list_fmap_compose. apply list_fmap_ext.
  intros i r _. apply Hf.
Qed.

(** What the UPDATE writes: the name, and the URL and the email, which are
    strings. *)
Lemma update_replacements (name : value) (url : option string) (email : string) :
  SqlString.invalid_among
    match url with
    | Some url => [name; VString url; VString email]
    | None => [name; VString email]
    end = SqlString.invalid name.
Proof. destruct url; cbn; by destruct (SqlString.invalid name). Qed.

Lemma update_profile_run s name url email site :
  update_profile s name url email site =
    match SqlString.invalid name with
    | Some bad => (Throw ("Invalid value " +:+ inspect (outside s) bad), site, [])
    | None =>
        match statement_rejects s ProfileUpdate with
        | Some error => (Throw error, site, [Statement ProfileUpdate])
        | None =>
            (Return (update_result s
               (length (filter (λ r, Profile.email r = email) (profile site)))),
             {| core := core site;
                profile :=
                  (λ r, if decide (Profile.email r = email) then
                          {| Profile.name := to_column (outside s) name;
                             Profile.email := Profile.email r;
                             Profile.profile_picture_url :=
                               match url with
                               | Some url => Some url
                               | None => Profile.profile_picture_url r
                               end |}
                        else r) <$> profile site |},
             [Statement ProfileUpdate])
        end
    end.
Proof.
  unfold update_profile. cbv zeta. unfold mbind, MP_bind.
  rewrite statement_run, update_replacements.
  destruct (SqlString.invalid name); [reflexivity|].
  by destruct (statement_rejects s ProfileUpdate).
Qed.

Lemma in_core_run {A : Type} (m : M A) site :
  in_core m site =
    (answer m (core site),
     {| core := state_after m (core site); profile := profile site |},
     Outside <$> calls m (core site)).
Proof.
  unfold in_core, answer, state_after, calls.
  by destruct (m (core site)) as [[r st] evs].
Qed.

(** [PUT /profile/:email] once multer let the request through. *)
Lemma put_profile_email_run s email req_body file req_file site :
  upload_single file = Return req_file →
  put_profile_email s email req_body file site =
    if Js.not (prop req_body "name") then
      (Return (res_status_json 400
         {[ "success" := VBool false; "message" := VString "Name is required" ]}),
       site, [])
    else
      let after_update (url : option string) (site1 : Site) (evs : list SiteEvent) :=
        match update_profile s (prop req_body "name") url email site1 with
        | (Return result, site2, evs2) =>
            (Return (if is_zero result then
                       res_status_json 404
                         {[ "success" := VBool false;
                            "message" := VString "Profile not found" ]}
                     else
                       res_json
                         {[ "success" := VBool true;
                            "message" := VString "Profile updated successfully" ]}),
             site2, evs ++ evs2)
        | (Throw error, site2, evs2) =>
            (Return (res_status_json 500
               {[ "success" := VBool false; "message" := VString error ]}),
             site2, evs ++ evs2)
        end in
      match req_file with
      | None => after_update None site []
      | Some f =>
          match save_rejects (outside s) (picture_key (outside s) f) with
          | Some error =>
              (Return (res_status_json 500
                 {[ "success" := VBool false;
                    "message" :=
                      VString ("Error uploading to Google Cloud Storage: " +:+ error) ]}),
               site, [Outside (FileSave (picture_key (outside s) f))])
          | None =>
              after_update
                (Some ("https://storage.googleapis.com/" +:+
                       GCP_BUCKET_NAME (outside s) +:+ "/" +:+
                       picture_key (outside s) f))
                {| core := set_objects
                     (<[picture_key (outside s) f :=
                          stored (buffer f) (mimetype f)]> (objects (core site)))
                     (core site);
                   profile := profile site |}
                [Outside (FileSave (picture_key (outside s) f))]
          end
      end.
Proof.
  intros Hmulter. unfold put_profile_email. rewrite Hmulter.
  unfold catching. cbv zeta.
  destruct (Js.not _); [reflexivity|].
  unfold mbind at 1, MP_bind at 1.
  destruct req_file as [f|].
  - unfold mbind at 1, MP_bind at 1. rewrite in_core_run.
    unfold answer, state_after, calls.
    fold (picture_key (outside s) f). rewrite uploadToGCS_run.
    destruct (save_rejects _ _); [by destruct site|].
    cbn [fst snd]. unfold mret at 1, MP_ret at 1.
    unfold mbind at 1, MP_bind at 1. unfold stored.
    destruct (update_profile _ _ _ _ _) as [[[result|error] site2] evs2].
    + destruct (is_zero result); unfold mret, MP_ret;
        cbn [fmap list_fmap app]; by rewrite app_nil_r.
    + unfold mret, MP_ret; cbn [fmap list_fmap app]; by rewrite app_nil_r.
  - unfold mret at 1, MP_ret at 1.
    unfold mbind at 1, MP_bind at 1.
    destruct (update_profile _ _ _ _ _) as [[[result|error] site2] evs2].
    + destruct (is_zero result); unfold mret, MP_ret;
        cbn [app]; by rewrite app_nil_r.
    + unfold mret, MP_ret; cbn [app]; by rewrite app_nil_r.
Qed.

Lemma upload_single_accepts f :
  mimetype f ∈ allowedMimes →
  Z.of_nat (length (buffer f)) < fileSize →
  upload_single (Some f) = Return (Some f).
Proof.
  intros Hmime Hsize. unfold upload_single, fileFilter.
  rewrite bool_decide_eq_true_2 by done.
  destruct (fileSize <=? _) eqn:Hle; [|reflexivity].
  apply Z.leb_le in Hle. lia.
Qed.

(** X22. What multer refuses never reaches the handler: for a file whose
    declared type is not one of the three image types, or whose content is
    longer than 5 MB, [PUT /profile/:email] is answered by the error
    middleware with a 500, nothing is uploaded, no statement is sent and
    nothing changes, whatever the name and the email. *)
Theorem refused_file_is_a_500 s email req_body f site :
  mimetype f ∉ allowedMimes ∨ 5 * 1024 * 1024 < Z.of_nat (length (buffer f)) →
  ∃ message,
    put_profile_email s email req_body (Some f) site =
      (Return (res_status_json 500
         {[ "success" := VBool false; "message" := VString message ]}),
       site, []).
Proof.
  intros Hf. unfold put_profile_email, upload_single, fileFilter.
  destruct (bool_decide _) eqn:Hmime.
  - destruct Hf as [Hf|Hf].
    + by apply bool_decide_eq_true_1 in Hmime.
    + replace (fileSize <=? _) with true
        by (symmetry; apply Z.leb_le; unfold fileSize; lia).
      by eexists.
  - by eexists.
Qed.

(** X23. No update without a name: when the body has no name, or an empty
    one, [PUT /profile/:email] changes nothing, uploads nothing and sends no
    statement, even with an acceptable picture attached; when multer let the
    request through, the answer is 400 with "Name is required". *)
Theorem update_needs_a_name s email req_body file site :
  absent_or_empty (prop req_body "name") →
  site_after (put_profile_email s email req_body file) site = site ∧
  site_calls (put_profile_email s email req_body file) site = [] ∧
  ∀ req_file,
    upload_single file = Return req_file →
    site_answer (put_profile_email s email req_body file) site =
      Return (res_status_json 400
        {[ "success" := VBool false; "message" := VString "Name is required" ]}).
Proof.
  intros Hname%absent_or_empty_falsy.
  unfold site_after, site_calls, site_answer.
  destruct (upload_single file) as [req_file|err] eqn:Hmulter.
  - rewrite (put_profile_email_run _ _ _ _ _ _ Hmulter), Hname.
    split; [done|]. split; [done|]. by intros ? _.
  - unfold put_profile_email. rewrite Hmulter.
    split; [done|]. split; [done|]. intros ? [=].
Qed.

Lemma picture_key_has_slash w f : occurs "/" (picture_key w f) = true.
Proof. unfold picture_key. by rewrite occurs_app. Qed.

(** X24. A picture update: with a name that can be written into the
    statement, an image shorter than 5 MB, an upload that is accepted and an
    UPDATE that is answered, [PUT /profile/:email] stores the picture under
    [profiles/<now>-<original name>] with the type the upload declared,
    sends the upload and then the one UPDATE, and gives every profile of
    that email the new name and the public URL of that object; no email
    changes and the profiles of other emails are as before. *)
Theorem picture_update s email req_body f site :
  ToBoolean (prop req_body "name") = true →
  SqlString.invalid (prop req_body "name") = None →
  mimetype f ∈ allowedMimes →
  Z.of_nat (length (buffer f)) < 5 * 1024 * 1024 →
  save_rejects (outside s) (picture_key (outside s) f) = None →
  statement_rejects s ProfileUpdate = None →
  let site' := site_after (put_profile_email s email req_body (Some f)) site in
  objects (core site') =
    <[picture_key (outside s) f := stored (buffer f) (mimetype f)]>
      (objects (core site)) ∧
  site_calls (put_profile_email s email req_body (Some f)) site =
    [Outside (FileSave (picture_key (outside s) f)); Statement ProfileUpdate] ∧
  Profile.email <$> profile site' = Profile.email <$> profile site ∧
  ∀ i row, profile site !! i = Some row →
    ∃ row', profile site' !! i = Some row' ∧
      if decide (Profile.email row = email) then
        Profile.name row' = to_column (outside s) (prop req_body "name") ∧
        Profile.profile_picture_url row' =
          Some ("https://storage.googleapis.com/" +:+
                GCP_BUCKET_NAME (outside s) +:+ "/" +:+ picture_key (outside s) f)
      else row' = row.
Proof.
  intros Hname Hvalid Hmime Hsize Hsave Hupdate. cbv zeta.
  unfold site_after, site_calls.
  rewrite (put_profile_email_run _ _ _ _ _ _ (upload_single_accepts f Hmime Hsize)).
  rewrite (falsy_false _ Hname). cbv zeta.
  rewrite Hsave, update_profile_run, Hvalid, Hupdate.
  cbn [fst snd core profile objects set_objects].
  split; [reflexivity|]. split; [reflexivity|]. split.
  - apply update_keeps_emails. intros r. by destruct (decide _).
  - intros i row Hrow. rewrite list_lookup_fmap, Hrow. cbn [fmap option_fmap option_map].
    eexists. split; [reflexivity|]. by destruct (decide _).
Qed.

(** X25. The upload is not undone: with a name, an image shorter than 5 MB
    and an accepted upload, when the name cannot be written into the
    statement, or the UPDATE is rejected, or no profile has the email,
    [PUT /profile/:email] leaves the picture in the bucket although the
    profile table is exactly as before. *)
Theorem picture_without_profile_is_kept s email req_body f site :
  ToBoolean (prop req_body "name") = true →
  mimetype f ∈ allowedMimes →
  Z.of_nat (length (buffer f)) < 5 * 1024 * 1024 →
  save_rejects (outside s) (picture_key (outside s) f) = None →
  is_Some (SqlString.invalid (prop req_body "name")) ∨
    is_Some (statement_rejects s ProfileUpdate) ∨
    (∀ row, row ∈ profile site → Profile.email row ≠ email) →
  site_after (put_profile_email s email req_body (Some f)) site =
    {| core := set_objects
         (<[picture_key (outside s) f := stored (buffer f) (mimetype f)]>
            (objects (core site)))
         (core site);
       profile := profile site |}.
Proof.
  intros Hname Hmime Hsize Hsave Hnone.
  unfold site_after.
  rewrite (put_profile_email_run _ _ _ _ _ _ (upload_single_accepts f Hmime Hsize)).
  rewrite (falsy_false _ Hname). cbv zeta. rewrite Hsave, update_profile_run.
  destruct (SqlString.invalid (prop req_body "name")) as [bad|] eqn:Hvalid;
    [reflexivity|].
  destruct (statement_rejects s ProfileUpdate) as [error|] eqn:Hupdate;
    [reflexivity|].
  destruct Hnone as [[bad [=]]|[[error [=]]|Hnone]].
  cbn [fst snd core profile]. f_equal.
  rewrite <- (list_fmap_id (profile site)) at 2.
  apply list_fmap_ext. intros i row Hrow.
  destruct (decide _) as [Hemail|]; [|reflexivity].
  by destruct (Hnone row (list_elem_of_lookup_2 _ _ _ Hrow)).
Qed.

(** X26. An update without a file keeps the pictures: with a name that can
    be written into the statement, no file and an UPDATE that is answered,
    [PUT /profile/:email] sends only the UPDATE, leaves the bucket and the
    soundboard tables alone, changes no email and no picture URL, and gives
    the new name to exactly the profiles of that email. A name that cannot
    be written (a plain object) is answered 500, with no statement sent and
    nothing changed. *)
Theorem rename_keeps_the_picture s email req_body site :
  ToBoolean (prop req_body "name") = true →
  (SqlString.invalid (prop req_body "name") = None →
   statement_rejects s ProfileUpdate = None →
   let site' := site_after (put_profile_email s email req_body None) site in
   core site' = core site ∧
   site_calls (put_profile_email s email req_body None) site =
     [Statement ProfileUpdate] ∧
   Profile.email <$> profile site' = Profile.email <$> profile site ∧
   Profile.profile_picture_url <$> profile site' =
     Profile.profile_picture_url <$> profile site ∧
   Profile.name <$> profile site' =
     (λ row, if decide (Profile.email row = email)
             then to_column (outside s) (prop req_body "name")
             else Profile.name row) <$> profile site) ∧
  (∀ bad, SqlString.invalid (prop req_body "name") = Some bad →
   put_profile_email s email req_body None site =
     (Return (res_status_json 500
        {[ "success" := VBool false;
           "message" := VString ("Invalid value " +:+ inspect (outside s) bad) ]}),
      site, [])).
Proof.
  intros Hname.
  rewrite (put_profile_email_run s email req_body None None site eq_refl).
  unfold site_after, site_calls.
  rewrite (put_profile_email_run s email req_body None None site eq_refl).
  rewrite (falsy_false _ Hname). cbv beta zeta iota.
  rewrite update_profile_run. split.
  - intros -> ->. cbn [fst snd core profile].
    split; [reflexivity|]. split; [reflexivity|].
    split; [|split].
    + apply update_keeps_emails. intros r. by destruct (decide _).
    + rewrite <- list_fmap_compose. apply list_fmap_ext.
      intros i r _. cbn. by destruct (decide _).
    + rewrite <- list_fmap_compose. apply list_fmap_ext.
      intros i r _. cbn. by destruct (decide _).
  - by intros bad ->.
Qed.

(** X27. The profile routes keep the clips: a request to [POST /profile],
    [GET /profile/:email] or [PUT /profile/:email] changes no row of the
    Soundboard, Report, history and feedback tables, and the bucket still
    holds, or still lacks, the audio object of every consistent Soundboard
    row: a picture never takes the place of a clip. *)
Theorem profile_routes_keep_the_clips s req site :
  (∀ r, req ≠ Soundboard_side r) →
  let st' := core (site_after (serve s req) site) in
  Soundboards st' = Soundboards (core site) ∧
  Reports st' = Reports (core site) ∧
  history st' = history (core site) ∧
  feedback st' = feedback (core site) ∧
  ∀ row, consistent row →
    objects st' !! object_key row = objects (core site) !! object_key row.
Proof.
  intros Hreq. cbv zeta.
  assert (core (site_after (serve s req) site) = core site ∨
          ∃ f, core (site_after (serve s req) site) =
                 set_objects
                   (<[picture_key (outside s) f := stored (buffer f) (mimetype f)]>
                      (objects (core site)))
                   (core site)) as Hcore.
  { unfold site_after.
    destruct req as [req|req_body|email|email req_body file]; cbn [serve].
    - by destruct (Hreq req).
    - left. rewrite post_profile_run. cbv zeta.
      destruct (_ || _); [done|].
      destruct (SqlString.invalid _); [done|].
      destruct (statement_rejects s ProfileExisting); [done|].
      destruct (filter _ (profile site)); [|done].
      destruct (SqlString.invalid_among _); [done|].
      by destruct (statement_rejects s ProfileInsert).
    - left. rewrite get_profile_email_run.
      destruct (statement_rejects s ProfileSelect); [done|].
      by destruct (filter _ (profile site)).
    - destruct (upload_single file) as [req_file|err] eqn:Hmulter.
      + rewrite (put_profile_email_run _ _ _ _ _ _ Hmulter). cbv zeta.
        destruct (Js.not _); [by left|].
        destruct req_file as [f|].
        * destruct (save_rejects _ _); [by left|].
          right. exists f. rewrite update_profile_run.
          destruct (SqlString.invalid _); [done|].
          by destruct (statement_rejects s ProfileUpdate).
        * left. rewrite update_profile_run.
          destruct (SqlString.invalid _); [done|].
          by destruct (statement_rejects s ProfileUpdate).
      + left. unfold put_profile_email. by rewrite Hmulter. }
  destruct Hcore as [->|[f ->]]; [done|].
  cbn [Soundboards Reports history feedback objects set_objects].
  repeat (split; [reflexivity|]).
  intros row [Hkey (bucket & rnds & Hname & _)].
  apply lookup_insert_ne. intros Heq.
  pose proof (picture_key_has_slash (outside s) f) as Hslash.
  rewrite Heq in Hslash. unfold object_key in Hslash.
  rewrite Hkey, Hname, mp3_name_no_slash in Hslash. discriminate.
Qed.

(** ** The further properties on the sample runs *)

(** A name that is an object is refused before any statement is sent, and
    the message shows the object. *)
Example nested_name_is_refused :
  put_profile_email fair "a@x.com" nested_name None with_ani =
    (Return (res_status_json 500
       {[ "success" := VBool false;
          "message" := VString "Invalid value { first: 'Ani' }" ]}),
     with_ani, []).
Proof. vm_compute. reflexivity. Qed.

Lemma two_clips_reachable : reachable two_clips.
Proof.
  apply (reachable_step one_clip); [|apply step_route].
  apply (reachable_step initial); [apply reachable_initial|apply step_route].
Qed.

Lemma one_clip_reachable : reachable one_clip.
Proof. apply (reachable_step initial); [apply reachable_initial|apply step_route]. Qed.

Lemma create_succeeds_witness :
  ToBoolean (prop hello "title") = true ∧
  prop hello "text" = VString "Halo dunia" ∧
  prop hello "email" = VString "a@x.com" ∧
  synthesizeSpeech midway (VString "Halo dunia") =
    Return [Byte.x49; Byte.x44; Byte.x33] ∧
  save_rejects midway (clip_name midway) = None ∧
  query_rejects midway SoundboardCreate = None ∧
  SqlString.to_second (now midway) = 1730000000000 ∧
  ∃ r instance,
    post_soundboards midway hello initial =
      (Return r,
       set_Soundboards
         (Soundboards initial ++
          [ {| Soundboard.id := Uuid.uuidv4 (id_rnds midway);
               Soundboard.text := "Halo dunia";
               Soundboard.audioUrl :=
                 "https://storage.googleapis.com/" +:+ GCP_BUCKET_NAME midway +:+ "/"
                 +:+ clip_name midway;
               Soundboard.fileName := clip_name midway;
               Soundboard.createdByEmail := "a@x.com";
               Soundboard.createdAt := SqlString.to_second (now midway);
               Soundboard.updatedAt := SqlString.to_second (now midway) |} ])
         (set_objects
            (<[clip_name midway := stored [Byte.x49; Byte.x44; Byte.x33] "audio/mpeg"]>
               (objects initial)) initial),
       [SynthesizeSpeech (VString "Halo dunia"); FileSave (clip_name midway);
        Query SoundboardCreate]) ∧
    status r = 201 ∧
    body r !! "data" = Some (VObject instance) ∧
    prop instance "id" = VString (Uuid.uuidv4 (id_rnds midway)) ∧
    prop instance "audioUrl" =
      VString ("https://storage.googleapis.com/" +:+ GCP_BUCKET_NAME midway +:+ "/"
               +:+ clip_name midway) ∧
    prop instance "createdByEmail" = VString "a@x.com".
Proof.
  repeat (split; [reflexivity|]).
  apply (create_succeeds midway initial hello "Halo dunia" "a@x.com"
           [Byte.x49; Byte.x44; Byte.x33]);
    try reflexivity; try discriminate.
  apply not_elem_of_nil.
Defined.

Lemma create_upload_failure_witness :
  ToBoolean (prop hello "title") = true ∧
  ToBoolean (prop hello "text") = true ∧
  ToBoolean (prop hello "email") = true ∧
  synthesizeSpeech full (prop hello "text") = Return [Byte.x49; Byte.x44; Byte.x33] ∧
  save_rejects full (clip_name full) = Some "503 Service Unavailable" ∧
  post_soundboards full hello one_clip =
    (Return (res_status_json 500
       {[ "success" := VBool false;
          "error" := VString "Failed to create soundboard" ]}),
     one_clip,
     [SynthesizeSpeech (prop hello "text"); FileSave (clip_name full)]).
Proof.
  repeat (split; [reflexivity|]).
  apply (create_upload_failure full one_clip hello [Byte.x49; Byte.x44; Byte.x33]
           "503 Service Unavailable"); reflexivity.
Defined.

Lemma create_failure_after_upload_keeps_object_witness :
  ToBoolean (prop hello "title") = true ∧
  ToBoolean (prop hello "text") = true ∧
  ToBoolean (prop hello "email") = true ∧
  synthesizeSpeech offline (prop hello "text") =
    Return [Byte.x49; Byte.x44; Byte.x33] ∧
  save_rejects offline (clip_name offline) = None ∧
  answer (post_soundboards offline hello) initial =
    Return (res_status_json 500
      {[ "success" := VBool false;
         "error" := VString "Failed to create soundboard" ]}) ∧
  status (res_status_json 500
    {[ "success" := VBool false;
       "error" := VString "Failed to create soundboard" ]}) = 500 ∧
  state_after (post_soundboards offline hello) initial =
    set_objects
      (<[clip_name offline := stored [Byte.x49; Byte.x44; Byte.x33] "audio/mpeg"]>
         (objects initial)) initial.
Proof.
  do 5 (split; [reflexivity|]).
  assert (answer (post_soundboards offline hello) initial =
            Return (res_status_json 500
              {[ "success" := VBool false;
                 "error" := VString "Failed to create soundboard" ]})) as H
    by (vm_compute; reflexivity).
  split; [exact H|].
  apply (create_failure_after_upload_keeps_object offline initial hello
           [Byte.x49; Byte.x44; Byte.x33] _ eq_refl eq_refl eq_refl eq_refl eq_refl H).
  discriminate.
Defined.

Lemma created_clip_is_listed_witness :
  prop hello "email" = VString "a@x.com" ∧
  query_rejects later SoundboardFindAll = None ∧
  Soundboard.createdAt (created_row midway hello) = 1730000000000 ∧
  ∃ r' items i flag,
    answer (get_soundboards_email later "a@x.com")
      (state_after (post_soundboards midway hello) initial) = Return r' ∧
    status r' = 200 ∧
    data_items r' = Some items ∧
    items !! i =
      Some (VObject (<["fileExists" := VBool flag]>
                       (Soundboard.toJSON (created_row midway hello)))) ∧
    (exists_rejects later i = None → flag = true).
Proof.
  repeat (split; [reflexivity|]).
  eapply (created_clip_is_listed midway initial hello _ "a@x.com" later).
  - vm_compute. reflexivity.
  - reflexivity.
  - reflexivity.
  - reflexivity.
Defined.

Lemma ids_stay_unique_witness :
  reachable two_clips ∧ NoDup (Soundboard.id <$> Soundboards two_clips).
Proof.
  split; [exact two_clips_reachable|].
  exact (ids_stay_unique two_clips two_clips_reachable).
Defined.

Lemma delete_removes_one_row_witness :
  reachable two_clips ∧
  created_row calm hello ∈ Soundboards two_clips ∧
  Soundboard.id (created_row calm hello) = "64656667-6869-4a6b-ac6d-6e6f70717273" ∧
  query_rejects later SoundboardFindByPk = None ∧
  query_rejects later SoundboardDestroy = None ∧
  (∀ r, r ∈ Soundboards
          (state_after
             (delete_soundboards_id later "64656667-6869-4a6b-ac6d-6e6f70717273")
             two_clips) ↔
        r ∈ Soundboards two_clips ∧ r ≠ created_row calm hello) ∧
  S (length (Soundboards
       (state_after
          (delete_soundboards_id later "64656667-6869-4a6b-ac6d-6e6f70717273")
          two_clips))) =
    length (Soundboards two_clips).
Proof.
  assert (created_row calm hello ∈ Soundboards two_clips) as H
    by (vm_compute; constructor).
  split; [exact two_clips_reachable|]. split; [exact H|].
  repeat (split; [reflexivity|]).
  apply (delete_removes_one_row later two_clips
           "64656667-6869-4a6b-ac6d-6e6f70717273" (created_row calm hello)
           two_clips_reachable H); reflexivity.
Defined.

Lemma delete_twice_is_not_found_witness :
  query_rejects later SoundboardFindByPk = None ∧
  delete_soundboards_id later "64656667-6869-4a6b-ac6d-6e6f70717273"
    (state_after
       (delete_soundboards_id calm "64656667-6869-4a6b-ac6d-6e6f70717273") one_clip) =
    (Return (res_status_json 404
       {[ "success" := VBool false;
          "message" := VString "Soundboard not found" ]}),
     state_after
       (delete_soundboards_id calm "64656667-6869-4a6b-ac6d-6e6f70717273") one_clip,
     [Query SoundboardFindByPk]).
Proof.
  split; [reflexivity|].
  eapply (delete_twice_is_not_found calm later one_clip
            "64656667-6869-4a6b-ac6d-6e6f70717273").
  - vm_compute. reflexivity.
  - reflexivity.
  - reflexivity.
Defined.

Lemma delete_object_fate_witness :
  reachable one_clip ∧
  created_row calm hello ∈ Soundboards one_clip ∧
  query_rejects locked SoundboardFindByPk = None ∧
  let st' :=
    state_after
      (delete_soundboards_id locked (Soundboard.id (created_row calm hello)))
      one_clip in
  (delete_rejects locked (Soundboard.fileName (created_row calm hello)) = None →
   objects st' =
     delete (Soundboard.fileName (created_row calm hello)) (objects one_clip)) ∧
  (is_Some (delete_rejects locked (Soundboard.fileName (created_row calm hello))) →
   objects st' = objects one_clip) ∧
  (is_Some (query_rejects locked SoundboardDestroy) →
   Soundboards st' = Soundboards one_clip ∧
   answer (delete_soundboards_id locked (Soundboard.id (created_row calm hello)))
     one_clip =
     Return (res_status_json 500
       {[ "success" := VBool false;
          "error" := VString "Failed to delete soundboard" ]})).
Proof.
  assert (created_row calm hello ∈ Soundboards one_clip) as H
    by (vm_compute; constructor).
  split; [exact one_clip_reachable|]. split; [exact H|]. split; [reflexivity|].
  exact (delete_object_fate locked one_clip (created_row calm hello)
           one_clip_reachable H eq_refl).
Defined.

Lemma uploaded_url_names_object_witness :
  uploadToGCS calm [Byte.x49; Byte.x44; Byte.x33] "profiles/1-me.png" "image/png"
    initial =
    (Return "https://storage.googleapis.com/handlips/profiles/1-me.png",
     set_objects
       (<["profiles/1-me.png" := stored [Byte.x49; Byte.x44; Byte.x33] "image/png"]>
          (objects initial)) initial,
     [FileSave "profiles/1-me.png"]) ∧
  "https://storage.googleapis.com/handlips/profiles/1-me.png" =
    "https://storage.googleapis.com/" +:+ GCP_BUCKET_NAME calm +:+ "/" +:+
    "profiles/1-me.png" ∧
  objects
    (set_objects
       (<["profiles/1-me.png" := stored [Byte.x49; Byte.x44; Byte.x33] "image/png"]>
          (objects initial)) initial) !! "profiles/1-me.png" =
    Some (stored [Byte.x49; Byte.x44; Byte.x33] "image/png") ∧
  (Js.pop (Js.split "/" "https://storage.googleapis.com/handlips/profiles/1-me.png") =
     "profiles/1-me.png" ↔
   occurs "/" "profiles/1-me.png" = false).
Proof.
  assert (uploadToGCS calm [Byte.x49; Byte.x44; Byte.x33] "profiles/1-me.png"
            "image/png" initial =
          (Return "https://storage.googleapis.com/handlips/profiles/1-me.png",
           set_objects
             (<["profiles/1-me.png" :=
                  stored [Byte.x49; Byte.x44; Byte.x33] "image/png"]>
                (objects initial)) initial,
           [FileSave "profiles/1-me.png"])) as H
    by (rewrite uploadToGCS_run; reflexivity).
  split; [exact H|].
  exact (uploaded_url_names_object calm _ _ _ initial _ _ _ H).
Defined.


Lemma history_is_listed_latest_first_witness :
  query_rejects later HistorySelect = None ∧
  ∃ rows r,
    rows ≡ₚ history one_note ∧
    StronglySorted latest_first rows ∧
    get_history later one_note = (Return r, one_note, [Query HistorySelect]) ∧
    match rows with
    | [] => status r = 404
    | _ =>
        status r = 200 ∧
        data_items r =
          Some ((λ h, VObject
                   {[ "id" := History.id h;
                      "title" := History.title h;
                      "message" := VArray
                        [ VObject {[ "text" := History.message h;
                                     "created_at" := VDate (History.created_at h);
                                     "is_speech_to_text" := History.is_speech_to_text h ]} ];
                      "detection_type" :=
                        VString (if ToBoolean (History.is_speech_to_text h)
                                 then "Speech to Text" else "Gesture Detection") ]})
                <$> rows)
    end.
Proof.
  split; [reflexivity|].
  apply (history_is_listed_latest_first later one_note). reflexivity.
Defined.

Lemma stored_history_is_listed_witness :
  query_rejects later HistorySelect = None ∧
  ∃ r' items,
    answer (get_history later) (state_after (post_history midway note) initial) =
      Return r' ∧
    status r' = 200 ∧
    data_items r' = Some items ∧
    VObject (format_history
               (column_value midway "id" (prop note "id"))
               (column_value midway "title" (prop note "title"))
               (column_value midway "message" (prop note "message"))
               (VDate (1000 * (now midway / 1000)))
               (column_value midway "is_speech_to_text"
                  (prop note "is_speech_to_text"))) ∈ items.
Proof.
  split; [reflexivity|].
  eapply (stored_history_is_listed midway later initial note).
  - vm_compute. reflexivity.
  - reflexivity.
  - reflexivity.
Defined.

Lemma feedback_stored_iff_201_witness :
  ∃ r,
    answer (post_feedback calm (rated (VNumber (of_Z 4)))) initial = Return r ∧
    (status r = 201 →
     state_after (post_feedback calm (rated (VNumber (of_Z 4)))) initial =
       set_feedback
         (feedback initial ++
          [ {| Feedback.id := insertId calm;
               Feedback.comment := prop (rated (VNumber (of_Z 4))) "comment";
               Feedback.rating := prop (rated (VNumber (of_Z 4))) "rating" |} ])
         initial ∧
     body r !! "data" =
       Some (VObject {[ "id" := VNumber (of_Z (insertId calm));
                        "comment" := prop (rated (VNumber (of_Z 4))) "comment";
                        "rating" := prop (rated (VNumber (of_Z 4))) "rating" ]})) ∧
    (status r ≠ 201 →
     state_after (post_feedback calm (rated (VNumber (of_Z 4)))) initial = initial).
Proof.
  eexists.
  assert (∀ P Q : Prop, P → (P → Q) → P ∧ Q) as both by tauto.
  apply both.
  - vm_compute. reflexivity.
  - apply (feedback_stored_iff_201 calm initial (rated (VNumber (of_Z 4)))).
Defined.

Lemma report_is_stored_witness :
  prop (rated VNull) "comment" = VString "ok" ∧
  query_rejects midway ReportCreate = None ∧
  now midway = 1730000000123 ∧
  post_report midway (rated VNull) initial =
    (Return (res_status_json 201
       {[ "success" := VBool true;
          "data" := VObject
            {[ "id" := VString (Uuid.uuidv4 (id_rnds midway));
               "comment" := VString "ok";
               "createdAt" := VDate (now midway) ]} ]}),
     set_Reports
       (Reports initial ++
        [ {| Report.id := Uuid.uuidv4 (id_rnds midway);
             Report.comment := "ok";
             Report.createdAt := 1000 * (now midway / 1000);
             Report.updatedAt := 1000 * (now midway / 1000) |} ]) initial,
     [Query ReportCreate]).
Proof.
  repeat (split; [reflexivity|]).
  apply (report_is_stored midway initial (rated VNull) "ok");
    try reflexivity; try discriminate.
  apply not_elem_of_nil.
Defined.

Lemma registered_profile_is_found_witness :
  prop ani "name" = VString "Ani" ∧
  prop ani "email" = VString "a@x.com" ∧
  statement_rejects fair ProfileSelect = None ∧
  ∃ data,
    get_profile_email fair "a@x.com" (site_after (post_profile fair ani) empty_site) =
      (Return (res_json {[ "success" := VBool true; "data" := VObject data ]}),
       site_after (post_profile fair ani) empty_site,
       [Statement ProfileSelect]) ∧
    data !! "name" = Some (VString "Ani") ∧
    data !! "email" = Some (VString "a@x.com").
Proof.
  repeat (split; [reflexivity|]).
  eapply (registered_profile_is_found fair fair empty_site ani _ "Ani" "a@x.com").
  - vm_compute. reflexivity.
  - reflexivity.
  - reflexivity.
  - reflexivity.
  - reflexivity.
Defined.

Lemma duplicate_email_is_refused_witness :
  ToBoolean (prop ani "name") = true ∧
  prop ani "email" = VString "a@x.com" ∧
  {| Profile.name := "Ani"; Profile.email := "a@x.com";
     Profile.profile_picture_url := None |} ∈ profile with_ani ∧
  statement_rejects fair ProfileExisting = None ∧
  post_profile fair ani with_ani =
    (Return (res_status_json 400
       {[ "success" := VBool false;
          "message" := VString "Email already exists" ]}),
     with_ani, [Statement ProfileExisting]).
Proof.
  assert ({| Profile.name := "Ani"; Profile.email := "a@x.com";
             Profile.profile_picture_url := None |} ∈ profile with_ani) as H
    by (vm_compute; constructor).
  split; [reflexivity|]. split; [reflexivity|]. split; [exact H|].
  split; [reflexivity|].
  apply (duplicate_email_is_refused fair with_ani ani "a@x.com"
           {| Profile.name := "Ani"; Profile.email := "a@x.com";
              Profile.profile_picture_url := None |} eq_refl eq_refl);
    [discriminate|exact H|reflexivity|reflexivity].
Defined.

Lemma overlapping_registrations_share_an_email_witness :
  prop ani "name" = VString "Ani" ∧
  prop ani_again "name" = VString "Ani W." ∧
  prop ani "email" = VString "a@x.com" ∧
  prop ani_again "email" = VString "a@x.com" ∧
  (∀ row, row ∈ profile empty_site → Profile.email row ≠ "a@x.com") ∧
  statement_rejects fair ProfileExisting = None ∧
  statement_rejects fair ProfileInsert = None ∧
  let looked1 := site_after (post_profile_lookup fair ani) empty_site in
  let looked2 := site_after (post_profile_lookup fair ani_again) looked1 in
  let inserted1 := site_after (post_profile_insert fair ani) looked2 in
  let inserted2 := site_after (post_profile_insert fair ani_again) inserted1 in
  site_answer (post_profile_lookup fair ani) empty_site = Return None ∧
  site_answer (post_profile_lookup fair ani_again) looked1 = Return None ∧
  (∃ r1, site_answer (post_profile_insert fair ani) looked2 = Return r1 ∧
         status r1 = 201) ∧
  (∃ r2, site_answer (post_profile_insert fair ani_again) inserted1 = Return r2 ∧
         status r2 = 201) ∧
  profile inserted2 =
    profile empty_site ++
    [ {| Profile.name := "Ani"; Profile.email := "a@x.com";
         Profile.profile_picture_url := None |};
      {| Profile.name := "Ani W."; Profile.email := "a@x.com";
         Profile.profile_picture_url := None |} ] ∧
  (∃ r1 r2,
     site_answer (post_profile fair ani) empty_site = Return r1 ∧ status r1 = 201 ∧
     site_answer (post_profile fair ani_again)
       (site_after (post_profile fair ani) empty_site) = Return r2 ∧
     status r2 = 400).
Proof.
  assert (∀ row, row ∈ profile empty_site → Profile.email row ≠ "a@x.com") as Hnew.
  { intros row Hrow. by apply elem_of_nil in Hrow. }
  do 4 (split; [reflexivity|]). split; [exact Hnew|].
  do 2 (split; [reflexivity|]).
  apply (overlapping_registrations_share_an_email fair fair empty_site ani ani_again
           "Ani" "Ani W." "a@x.com");
    try reflexivity; try discriminate.
  exact Hnew.
Defined.

Lemma refused_file_is_a_500_witness :
  (mimetype leaflet ∉ allowedMimes) ∧
  ∃ message,
    put_profile_email fair "a@x.com" ani (Some leaflet) with_ani =
      (Return (res_status_json 500
         {[ "success" := VBool false; "message" := VString message ]}),
       with_ani, []).
Proof.
  assert (mimetype leaflet ∉ allowedMimes) as H.
  { intros H. vm_compute in H.
    repeat (apply elem_of_cons in H as [H|H]; [discriminate|]).
    by apply elem_of_nil in H. }
  split; [exact H|].
  exact (refused_file_is_a_500 fair "a@x.com" ani leaflet with_ani (or_introl H)).
Defined.

Lemma update_needs_a_name_witness :
  absent_or_empty (prop untitled "name") ∧
  site_after (put_profile_email fair "a@x.com" untitled (Some portrait)) with_ani =
    with_ani ∧
  site_calls (put_profile_email fair "a@x.com" untitled (Some portrait)) with_ani = [] ∧
  ∀ req_file,
    upload_single (Some portrait) = Return req_file →
    site_answer (put_profile_email fair "a@x.com" untitled (Some portrait)) with_ani =
      Return (res_status_json 400
        {[ "success" := VBool false; "message" := VString "Name is required" ]}).
Proof.
  assert (absent_or_empty (prop untitled "name")) as H by (left; reflexivity).
  split; [exact H|].
  exact (update_needs_a_name fair "a@x.com" untitled (Some portrait) with_ani H).
Defined.

Lemma picture_update_witness :
  ToBoolean (prop ani "name") = true ∧
  SqlString.invalid (prop ani "name") = None ∧
  mimetype portrait ∈ allowedMimes ∧
  Z.of_nat (length (buffer portrait)) < 5 * 1024 * 1024 ∧
  save_rejects (outside fair) (picture_key (outside fair) portrait) = None ∧
  statement_rejects fair ProfileUpdate = None ∧
  let site' :=
    site_after (put_profile_email fair "a@x.com" ani (Some portrait)) with_ani in
  objects (core site') =
    <[picture_key (outside fair) portrait :=
        stored (buffer portrait) (mimetype portrait)]>
      (objects (core with_ani)) ∧
  site_calls (put_profile_email fair "a@x.com" ani (Some portrait)) with_ani =
    [Outside (FileSave (picture_key (outside fair) portrait));
     Statement ProfileUpdate] ∧
  Profile.email <$> profile site' = Profile.email <$> profile with_ani ∧
  ∀ i row, profile with_ani !! i = Some row →
    ∃ row', profile site' !! i = Some row' ∧
      if decide (Profile.email row = "a@x.com") then
        Profile.name row' = to_column (outside fair) (prop ani "name") ∧
        Profile.profile_picture_url row' =
          Some ("https://storage.googleapis.com/" +:+
                GCP_BUCKET_NAME (outside fair) +:+ "/" +:+
                picture_key (outside fair) portrait)
      else row' = row.
Proof.
  assert (mimetype portrait ∈ allowedMimes) as Hmime
    by (vm_compute; do 1 constructor; constructor).
  assert (Z.of_nat (length (buffer portrait)) < 5 * 1024 * 1024) as Hsize
    by reflexivity.
  split; [reflexivity|]. split; [reflexivity|].
  split; [exact Hmime|]. split; [exact Hsize|].
  split; [reflexivity|]. split; [reflexivity|].
  exact (picture_update fair "a@x.com" ani portrait with_ani eq_refl eq_refl
           Hmime Hsize eq_refl eq_refl).
Defined.

Lemma picture_without_profile_is_kept_witness :
  ToBoolean (prop nested_name "name") = true ∧
  mimetype portrait ∈ allowedMimes ∧
  Z.of_nat (length (buffer portrait)) < 5 * 1024 * 1024 ∧
  save_rejects (outside fair) (picture_key (outside fair) portrait) = None ∧
  is_Some (SqlString.invalid (prop nested_name "name")) ∧
  site_after (put_profile_email fair "a@x.com" nested_name (Some portrait)) with_ani =
    {| core := set_objects
         (<[picture_key (outside fair) portrait :=
              stored (buffer portrait) (mimetype portrait)]>
            (objects (core with_ani)))
         (core with_ani);
       profile := profile with_ani |}.
Proof.
  assert (mimetype portrait ∈ allowedMimes) as Hmime
    by (vm_compute; do 1 constructor; constructor).
  assert (Z.of_nat (length (buffer portrait)) < 5 * 1024 * 1024) as Hsize
    by reflexivity.
  assert (is_Some (SqlString.invalid (prop nested_name "name"))) as Hbad
    by (eexists; reflexivity).
  split; [reflexivity|]. split; [exact Hmime|]. split; [exact Hsize|].
  split; [reflexivity|]. split; [exact Hbad|].
  exact (picture_without_profile_is_kept fair "a@x.com" nested_name portrait with_ani
           eq_refl Hmime Hsize eq_refl (or_introl Hbad)).
Defined.

Lemma rename_keeps_the_picture_witness :
  ToBoolean (prop ani_again "name") = true ∧
  SqlString.invalid (prop ani_again "name") = None ∧
  statement_rejects fair ProfileUpdate = None ∧
  ToBoolean (prop nested_name "name") = true ∧
  SqlString.invalid (prop nested_name "name") =
    Some (VObject {[ "first" := VString "Ani" ]}) ∧
  (let site' := site_after (put_profile_email fair "a@x.com" ani_again None) with_ani in
   core site' = core with_ani ∧
   site_calls (put_profile_email fair "a@x.com" ani_again None) with_ani =
     [Statement ProfileUpdate] ∧
   Profile.email <$> profile site' = Profile.email <$> profile with_ani ∧
   Profile.profile_picture_url <$> profile site' =
     Profile.profile_picture_url <$> profile with_ani ∧
   Profile.name <$> profile site' =
     (λ row, if decide (Profile.email row = "a@x.com")
             then to_column (outside fair) (prop ani_again "name")
             else Profile.name row) <$> profile with_ani) ∧
  put_profile_email fair "a@x.com" nested_name None with_ani =
    (Return (res_status_json 500
       {[ "success" := VBool false;
          "message" :=
            VString ("Invalid value " +:+
                     inspect (outside fair) (VObject {[ "first" := VString "Ani" ]})) ]}),
     with_ani, []).
Proof.
  do 5 (split; [reflexivity|]). split.
  - exact (proj1 (rename_keeps_the_picture fair "a@x.com" ani_again with_ani eq_refl)
             eq_refl eq_refl).
  - exact (proj2 (rename_keeps_the_picture fair "a@x.com" nested_name with_ani eq_refl)
             _ eq_refl).
Defined.

Lemma profile_routes_keep_the_clips_witness :
  (∀ r, PUT_profile_email "a@x.com" ani (Some portrait) ≠ Soundboard_side r) ∧
  let st' :=
    core (site_after (serve fair (PUT_profile_email "a@x.com" ani (Some portrait)))
            with_ani) in
  Soundboards st' = Soundboards (core with_ani) ∧
  Reports st' = Reports (core with_ani) ∧
  history st' = history (core with_ani) ∧
  feedback st' = feedback (core with_ani) ∧
  ∀ row, consistent row →
    objects st' !! object_key row = objects (core with_ani) !! object_key row.
Proof.
  assert (∀ r, PUT_profile_email "a@x.com" ani (Some portrait) ≠ Soundboard_side r)
    as H by (intros r; discriminate).
  split; [exact H|].
  exact (profile_routes_keep_the_clips fair
           (PUT_profile_email "a@x.com" ani (Some portrait)) with_ani H).
Defined.
